(** * OpenDiag capture tools: a shallow embedding of the layered decoder

    The Python scripts under [src/tools] decode a BTSnoop capture down to
    the Autel vendor protocol:

    - [parse_btsnoop.py], [parse_btsnoop_v2.py], [parse_btsnoop_v3.py]:
      capture container, HCI record kind, ACL / L2CAP, RFCOMM;
    - [analyze_autel_protocol.py], [analyze_autel_protocol_v2.py]:
      the same lower layers fused in one loop, then the vendor header,
      payload, check value and message classification.

    Python values are modelled as follows: [bytes] is [list byte], [int] is
    [Z] (unbounded, as in Python), [str] is [string], a dict that is used
    as a struct with optional keys is a record with [option] fields, the
    [sessions] defaultdict is a [gmap].  A raised exception is a value of
    the monad [py]; [continue] inside a loop body is [Ok None]. *)

From Stdlib Require Import ZArith List Bool Lia Ascii String Hexadecimal.
From Stdlib.Strings Require Import Byte.
From stdpp Require Import base option list gmap.
From Equations Require Import Equations.
Import ListNotations.
Local Open Scope Z_scope.

(** ** Python primitives *)

Module Py.

Inductive exn : Set :=
  | StructError   (* struct.unpack on a buffer of the wrong size *)
  | IndexError.   (* b[i] out of range *)

Inductive py (A : Type) : Type :=
  | Ok (a : A)
  | Raise (e : exn).
Arguments Ok {A} a.
Arguments Raise {A} e.

#[global] Instance py_ret : MRet py := fun A a => Ok a.
#[global] Instance py_bind : MBind py := fun A B f m =>
  match m with
  | Ok a => f a
  | Raise e => Raise e
  end.
#[global] Instance py_fmap : FMap py := fun A B f m =>
  match m with
  | Ok a => Ok (f a)
  | Raise e => Raise e
  end.

Definition raises {A} (m : py A) : bool :=
  match m with Ok _ => false | Raise _ => true end.

(** [len(b)] *)
Definition len {A} (l : list A) : Z := Z.of_nat (length l).

(** The value of one byte, [0 <= b2z b < 256]. *)
Definition b2z (b : byte) : Z := Z.of_N (Byte.to_N b).

(** Index normalisation of [b[i:j]]: a negative index counts from the end,
    and both ends are clamped to [0, len]. *)
Definition norm_index (n i : Z) : Z :=
  if i <? 0 then Z.max 0 (i + n) else Z.min i n.

(** [l[i:j]] *)
Definition slice {A} (l : list A) (i j : Z) : list A :=
  let i' := norm_index (len l) i in
  let j' := norm_index (len l) j in
  firstn (Z.to_nat (j' - i')) (skipn (Z.to_nat i') l).

(** [l[i:]] *)
Definition slice_from {A} (l : list A) (i : Z) : list A :=
  skipn (Z.to_nat (norm_index (len l) i)) l.

(** [l[i]] for a literal non-negative index. *)
Definition getitem {A} (l : list A) (i : nat) : py A :=
  match nth_error l i with
  | Some x => Ok x
  | None => Raise IndexError
  end.

(** [b.startswith(p)] *)
Fixpoint startswith (b p : list byte) {struct p} : bool :=
  match p, b with
  | [], _ => true
  | _ :: _, [] => false
  | y :: p', x :: b' => Byte.eqb x y && startswith b' p'
  end.

(** [a == b] on [bytes]. *)
Fixpoint bytes_eqb (a b : list byte) : bool :=
  match a, b with
  | [], [] => true
  | x :: a', y :: b' => Byte.eqb x y && bytes_eqb a' b'
  | _, _ => false
  end.

(** Little-endian and big-endian values of a byte string. *)
Fixpoint le2z (bs : list byte) : Z :=
  match bs with
  | [] => 0
  | b :: bs' => b2z b + 256 * le2z bs'
  end.

Definition be2z (bs : list byte) : Z :=
  fold_left (fun acc b => 256 * acc + b2z b) bs 0.

(** [struct.unpack('<H', b)[0]], [struct.unpack('<I', b)[0]],
    [struct.unpack('>I', b)[0]], [struct.unpack('>Q', b)[0]]:
    the buffer must have exactly the size of the format. *)
Definition unpack_le (size : nat) (b : list byte) : py Z :=
  if Nat.eqb (length b) size then Ok (le2z b) else Raise StructError.

Definition unpack_be (size : nat) (b : list byte) : py Z :=
  if Nat.eqb (length b) size then Ok (be2z b) else Raise StructError.

Definition unpack_H_le := unpack_le 2.
Definition unpack_I_le := unpack_le 4.
Definition unpack_I_be := unpack_be 4.
Definition unpack_Q_be := unpack_be 8.

(** Upper-case hexadecimal rendering, for [bytes.hex().upper()] and for
    the format specification [02X]. *)
Fixpoint string_of_hex (u : Hexadecimal.uint) : string :=
  match u with
  | Nil => EmptyString
  | D0 u => String "0" (string_of_hex u)
  | D1 u => String "1" (string_of_hex u)
  | D2 u => String "2" (string_of_hex u)
  | D3 u => String "3" (string_of_hex u)
  | D4 u => String "4" (string_of_hex u)
  | D5 u => String "5" (string_of_hex u)
  | D6 u => String "6" (string_of_hex u)
  | D7 u => String "7" (string_of_hex u)
  | D8 u => String "8" (string_of_hex u)
  | D9 u => String "9" (string_of_hex u)
  | Da u => String "A" (string_of_hex u)
  | Db u => String "B" (string_of_hex u)
  | Dc u => String "C" (string_of_hex u)
  | Dd u => String "D" (string_of_hex u)
  | De u => String "E" (string_of_hex u)
  | Df u => String "F" (string_of_hex u)
  end.

(** [format(n, 'X')] for [0 <= n]. *)
Definition hex_upper (n : Z) : string := string_of_hex (N.to_hex_uint (Z.to_N n)).

(** [format(n, '02X')]: at least two characters, zero padded, the sign
    counting as one of them. *)
Definition format_02X (n : Z) : string :=
  if n <? 0 then String "-" (hex_upper (- n))
  else if n <? 16 then String "0" (hex_upper n)
  else hex_upper n.

(** [b.hex().upper()] *)
Definition bytes_hex_upper (b : list byte) : string :=
  fold_right (fun x acc => append (format_02X (b2z x)) acc) EmptyString b.

(** [b.decode('ascii', errors='ignore')]: bytes above 0x7F are dropped. *)
Definition decode_ascii_ignore (b : list byte) : list ascii :=
  map ascii_of_byte (filter (fun x => Is_true (b2z x <? 128)) b).

(** [ord(c)] *)
Definition ord (c : ascii) : Z := Z.of_N (N_of_ascii c).

(** [c.isspace()] on ASCII characters. *)
Definition isspace (c : ascii) : bool :=
  let o := ord c in ((9 <=? o) && (o <=? 13)) || ((28 <=? o) && (o <=? 32)).

Fixpoint lstrip (s : list ascii) : list ascii :=
  match s with
  | c :: s' => if isspace c then lstrip s' else s
  | [] => []
  end.

(** [s.strip()] *)
Definition strip (s : list ascii) : list ascii :=
  rev (lstrip (rev (lstrip s))).

(** [sub in s] on strings. *)
Fixpoint contains (sub s : string) : bool :=
  String.prefix sub s ||
  match s with
  | EmptyString => false
  | String _ s' => contains sub s'
  end.

(** Truth value of an [int] in a condition ([if flags & 1:]). *)
Definition truthy (z : Z) : bool := negb (z =? 0).

(** [b[i]] as an [int]. *)
Definition getbyte (b : list byte) (i : nat) : py Z := b2z <$> getitem b i.

(** [for x in l: ...] where the body either [continue]s ([Ok None]),
    appends one item to the result list ([Ok (Some y)]) or raises. *)
Fixpoint for_append {A B} (body : A -> py (option B)) (l : list A) (acc : list B)
  : py (list B) :=
  match l with
  | [] => Ok acc
  | x :: l' =>
      r ← body x;
      for_append body l' (match r with Some y => acc ++ [y] | None => acc end)
  end.

(** [[f(x) for x in l]] where [f] may raise. *)
Fixpoint mapM {A B} (f : A -> py B) (l : list A) : py (list B) :=
  match l with
  | [] => Ok []
  | x :: l' => y ← f x; ys ← mapM f l'; Ok (y :: ys)
  end.

(** The direction strings ["TX"] and ["RX"]. *)
Inductive dir : Set := TX | RX.

Definition dir_eqb (a b : dir) : bool :=
  match a, b with TX, TX | RX, RX => true | _, _ => false end.

End Py.

Import Py.

(** ** The capture container (the [parse_btsnoop] of all five scripts)

    Every script opens the file, reads the 16-byte file header and then
    runs the same [while True] loop over the records.  The file object is
    modelled by the bytes that remain to be read. *)

Module Capture.

Definition BTSNOOP_MAGIC : list byte :=
  [x62; x74; x73; x6e; x6f; x6f; x70; x00].   (* b'btsnoop\x00' *)
Definition BTSNOOP_HEADER_SIZE : Z := 16.
Definition RECORD_HEADER_SIZE : Z := 24.

(** [f.read(n)] for [0 <= n]: at most [n] bytes, and the rest of the file. *)
Definition read (n : Z) (f : list byte) : list byte * list byte :=
  (firstn (Z.to_nat n) f, skipn (Z.to_nat n) f).

(** The fields of a record header, [struct.unpack('>IIIIQ', rec_header)]. *)
Record rec_fields : Set := {
  orig_len : Z; incl_len : Z; flags : Z; drops : Z; timestamp : Z }.

Definition unpack_IIIIQ (b : list byte) : py rec_fields :=
  if Nat.eqb (length b) 24 then
    Ok {| orig_len := be2z (slice b 0 4);
          incl_len := be2z (slice b 4 8);
          flags := be2z (slice b 8 12);
          drops := be2z (slice b 12 16);
          timestamp := be2z (slice b 16 24) |}
  else Raise StructError.

(** One turn of the loop, up to the two [break]s: [Ok None] is a [break],
    [Ok (Some (h, data, f'))] a complete record and the file after it. *)
Definition read_record (f : list byte) : py (option (rec_fields * list byte * list byte)) :=
  let '(rec_header, f1) := read RECORD_HEADER_SIZE f in
  if len rec_header <? RECORD_HEADER_SIZE then Ok None
  else
    h ← unpack_IIIIQ rec_header;
    let '(data, f2) := read (incl_len h) f1 in
    if len data <? incl_len h then Ok None
    else Ok (Some (h, data, f2)).

(** Remember the equation of a [with] scrutinee (for the termination proof). *)
Definition inspect {A} (a : A) : {b : A | a = b} := exist _ a eq_refl.

Section Loop.
(** What each script appends to [packets]: it may use the number of
    records read so far ([packet_num]), the header and the body. *)
Context {packet : Type} (mk : nat -> rec_fields -> list byte -> packet).

Equations? read_loop (f : list byte) (packets : list packet) : py (list packet)
  by wf (length f) lt :=
  read_loop f packets with inspect (read_record f) => {
    | exist _ (Raise e) _ := Raise e
    | exist _ (Ok None) _ := Ok packets
    | exist _ (Ok (Some (h, data, f'))) Hrec :=
        read_loop f' (packets ++ [mk (length packets) h data]) }.
Proof.
  revert Hrec. unfold read_record, read, RECORD_HEADER_SIZE, len.
  destruct (Z.ltb_spec (Z.of_nat (length (firstn (Z.to_nat 24) f))) 24) as [|Hh];
    [discriminate|].
  destruct (unpack_IIIIQ _) as [h0|]; simpl; [|discriminate].
  destruct (Z.ltb_spec (Z.of_nat (length (firstn (Z.to_nat (incl_len h0))
              (skipn (Z.to_nat 24) f)))) (incl_len h0)); [discriminate|].
  intros [= _ _ <-].
  rewrite length_firstn in Hh. rewrite !length_skipn. lia.
Qed.
End Loop.

End Capture.

(** ** [analyze_autel_protocol_v2.py] *)

Module AutelV2.
Import Capture.

Definition AUTEL_MAGIC : list byte := [x55; x55; xaa; xaa].

Inductive pkt_type : Set := EVENT | COMMAND | ACL.

(** The dict appended to [packets] by [parse_btsnoop]. *)
Record packet : Type := {
  pkt_timestamp : Z;
  pkt_direction : dir;
  pkt_kind : pkt_type;      (* key 'type' *)
  pkt_data : list byte }.

Definition mk_packet (_ : nat) (h : rec_fields) (data : list byte) : packet :=
  {| pkt_timestamp := timestamp h;
     pkt_direction := if truthy (Z.land (flags h) 1) then RX else TX;
     pkt_kind := if truthy (Z.land (flags h) 2) && truthy (Z.land (flags h) 1) then EVENT
                 else if truthy (Z.land (flags h) 2) then COMMAND
                 else ACL;
     pkt_data := data |}.

Definition parse_btsnoop (file : list byte) : py (list packet) :=
  let '(header, f) := read BTSNOOP_HEADER_SIZE file in
  if negb (startswith header BTSNOOP_MAGIC) then Ok []
  else read_loop mk_packet f [].

(** The dict appended to [rfcomm_packets]. *)
Record rfcomm_packet : Type := {
  rf_timestamp : Z;
  rf_direction : dir;
  rf_dlci : Z;
  rf_data : list byte }.

(** The body of the loop of [extract_rfcomm_data]. *)
Definition extract_rfcomm_body (pkt : packet) : py (option rfcomm_packet) :=
  match pkt_kind pkt with
  | ACL =>
    let data := pkt_data pkt in
    if len data <? 8 then Ok None else
    acl_len ← unpack_H_le (slice data 2 4);
    if len data <? 4 + acl_len then Ok None else
    let acl_payload := slice data 4 (4 + acl_len) in
    if len acl_payload <? 4 then Ok None else
    l2cap_cid ← unpack_H_le (slice acl_payload 2 4);
    let l2cap_data := slice_from acl_payload 4 in
    if (l2cap_cid <? 0x0040) || (len l2cap_data <? 3) then Ok None else
    addr ← getbyte l2cap_data 0;
    control ← getbyte l2cap_data 1;
    let dlci := Z.shiftr addr 2 in
    if negb (Z.land control 0xEF =? 0xEF) then Ok None else
    length_byte ← getbyte l2cap_data 2;
    lf ← (if truthy (Z.land length_byte 1) then
            Ok (Some (Z.shiftr length_byte 1, 3))
          else if len l2cap_data <? 4 then Ok None
          else
            b3 ← getbyte l2cap_data 3;
            Ok (Some (Z.lor (Z.shiftr length_byte 1) (Z.shiftl b3 7), 4)));
    match lf with
    | None => Ok None
    | Some (payload_len, payload_start) =>
        if (len l2cap_data >=? payload_start + payload_len) && (payload_len >? 0) then
          let payload := slice l2cap_data payload_start (payload_start + payload_len) in
          Ok (Some {| rf_timestamp := pkt_timestamp pkt;
                      rf_direction := pkt_direction pkt;
                      rf_dlci := dlci;
                      rf_data := payload |})
        else Ok None
    end
  | _ => Ok None
  end.

Definition extract_rfcomm_data (packets : list packet) : py (list rfcomm_packet) :=
  for_append extract_rfcomm_body packets [].

(** The header fields that [parse_autel_packet] stores together
    (keys 'total_len', 'session_id', 'msg_counter', 'payload_len', 'flags',
    'status', 'reserved'). *)
Record header : Set := {
  total_len : Z;
  session_id : Z;
  msg_counter : Z;
  payload_len : Z;
  hflags : Z;       (* key 'flags' *)
  status : Z;
  reserved : Z }.

(** The [result] dict of [parse_autel_packet].  'payload_hex' is stored
    together with 'payload' and is [payload_hex] below; 'timestamp' and
    'raw' are added by [main]. *)
Record parsed : Type := {
  r_valid : bool;
  r_direction : dir;
  r_short : option bool;
  r_hdr : option header;
  r_payload : option (list byte);
  r_crc : option Z;
  r_ascii : option string;
  r_error : option exn;
  r_timestamp : option Z;
  r_raw : option (list byte) }.

Definition payload_hex (r : parsed) : option string :=
  bytes_hex_upper <$> r_payload r.

(** [result = {'valid': valid, 'direction': direction}], with 'short' when
    given. *)
Definition result0 (valid : bool) (direction : dir) (short : option bool) : parsed :=
  {| r_valid := valid; r_direction := direction; r_short := short;
     r_hdr := None; r_payload := None; r_crc := None; r_ascii := None;
     r_error := None; r_timestamp := None; r_raw := None |}.

Definition set_hdr (h : header) (r : parsed) : parsed :=
  {| r_valid := r_valid r; r_direction := r_direction r; r_short := r_short r;
     r_hdr := Some h; r_payload := r_payload r; r_crc := r_crc r;
     r_ascii := r_ascii r; r_error := r_error r;
     r_timestamp := r_timestamp r; r_raw := r_raw r |}.

Definition set_payload (p : list byte) (r : parsed) : parsed :=
  {| r_valid := r_valid r; r_direction := r_direction r; r_short := r_short r;
     r_hdr := r_hdr r; r_payload := Some p; r_crc := r_crc r;
     r_ascii := r_ascii r; r_error := r_error r;
     r_timestamp := r_timestamp r; r_raw := r_raw r |}.

Definition set_crc (c : Z) (r : parsed) : parsed :=
  {| r_valid := r_valid r; r_direction := r_direction r; r_short := r_short r;
     r_hdr := r_hdr r; r_payload := r_payload r; r_crc := Some c;
     r_ascii := r_ascii r; r_error := r_error r;
     r_timestamp := r_timestamp r; r_raw := r_raw r |}.

Definition set_ascii (a : string) (r : parsed) : parsed :=
  {| r_valid := r_valid r; r_direction := r_direction r; r_short := r_short r;
     r_hdr := r_hdr r; r_payload := r_payload r; r_crc := r_crc r;
     r_ascii := Some a; r_error := r_error r;
     r_timestamp := r_timestamp r; r_raw := r_raw r |}.

Definition set_error (e : exn) (r : parsed) : parsed :=
  {| r_valid := r_valid r; r_direction := r_direction r; r_short := r_short r;
     r_hdr := r_hdr r; r_payload := r_payload r; r_crc := r_crc r;
     r_ascii := r_ascii r; r_error := Some e;
     r_timestamp := r_timestamp r; r_raw := r_raw r |}.

Definition set_timestamp_raw (t : Z) (raw : list byte) (r : parsed) : parsed :=
  {| r_valid := r_valid r; r_direction := r_direction r; r_short := r_short r;
     r_hdr := r_hdr r; r_payload := r_payload r; r_crc := r_crc r;
     r_ascii := r_ascii r; r_error := r_error r;
     r_timestamp := Some t; r_raw := Some raw |}.

(** "Find magic bytes": the local variable [offset] of
    [parse_autel_packet]; [None] where the function returns the result
    with 'valid' still [False]. *)
Definition magic_offset (data : list byte) (direction : dir) : option Z :=
  match direction with
  | TX => if negb (startswith data AUTEL_MAGIC) then None else Some 0
  | RX =>
      if startswith data (x00 :: AUTEL_MAGIC) then Some 1
      else if startswith data AUTEL_MAGIC then Some 0
      else None
  end.

(** The eight [struct.unpack('<I', ...)] of the header; the first
    ([magic]) is a plain slice. *)
Definition unpack_header (data : list byte) (offset : Z) : py header :=
  let magic := slice data offset (offset + 4) in
  total_len ← unpack_I_le (slice data (offset + 4) (offset + 8));
  session_id ← unpack_I_le (slice data (offset + 8) (offset + 12));
  msg_counter ← unpack_I_le (slice data (offset + 12) (offset + 16));
  payload_len ← unpack_I_le (slice data (offset + 16) (offset + 20));
  session_id2 ← unpack_I_le (slice data (offset + 20) (offset + 24));
  flags ← unpack_I_le (slice data (offset + 24) (offset + 28));
  status ← unpack_I_le (slice data (offset + 28) (offset + 32));
  reserved ← unpack_I_le (slice data (offset + 32) (offset + 36));
  Ok {| total_len := total_len; session_id := session_id;
        msg_counter := msg_counter; payload_len := payload_len;
        hflags := flags; status := status; reserved := reserved |}.

(** "Try ASCII decode": [Some] when 'ascii' is assigned. *)
Definition ascii_excerpt (payload : list byte) : option string :=
  let ascii_str := decode_ascii_ignore payload in
  let printable := filter (fun c => Is_true ((32 <=? ord c) && (ord c <? 127))) ascii_str in
  if len printable >? 3 then Some (string_of_list_ascii (strip printable)) else None.

(** The body of the outer [try]: the result at the point where the block
    ends, and the exception if one was raised there. *)
Definition try_block (data : list byte) (offset : Z) (result : parsed)
  : parsed * option exn :=
  match unpack_header data offset with
  | Raise e => (result, Some e)
  | Ok h =>
      let result := set_hdr h result in
      let payload_start := offset + 36 in
      let payload_end := offset + 4 + total_len h - 4 in
      if (payload_end >? payload_start) && (payload_end <=? len data) then
        let payload := slice data payload_start payload_end in
        let result := set_payload payload result in
        let with_ascii (result : parsed) : parsed :=
          match ascii_excerpt payload with
          | Some a => set_ascii a result
          | None => result
          end in
        if payload_end + 4 <=? len data then
          match unpack_I_le (slice data payload_end (payload_end + 4)) with
          | Raise e => (result, Some e)
          | Ok crc => (with_ascii (set_crc crc result), None)
          end
        else (with_ascii result, None)
      else (result, None)
  end.

Definition parse_autel_packet (data : list byte) (direction : dir) : parsed :=
  match magic_offset data direction with
  | None => result0 false direction None
  | Some offset =>
      if len data <? offset + 40 then result0 true direction (Some true)
      else
        let result := result0 true direction (Some false) in
        match try_block data offset result with
        | (result, Some e) => set_error e result
        | (result, None) => result
        end
  end.

(** [pkt_data.get('status', 0)] and the like. *)
Definition get_status (r : parsed) : Z := from_option status 0 (r_hdr r).
Definition get_reserved (r : parsed) : Z := from_option reserved 0 (r_hdr r).
Definition get_session_id (r : parsed) : Z := from_option session_id 0 (r_hdr r).

Definition identify_message_type (pkt_data : parsed) (direction : dir) : py string :=
  let by_ascii : option string :=
    match r_ascii pkt_data with
    | Some ascii_content =>
        if negb (String.eqb ascii_content EmptyString) then
          if contains "J2534" ascii_content then
            Some (if dir_eqb direction RX then "DEVICE_ID_RESPONSE" else "DEVICE_ID_REQUEST")
          else if contains "AUTEL" ascii_content then Some "VENDOR_ID_RESPONSE"
          else if contains "Mar " ascii_content || contains "V2." ascii_content then
            Some "FIRMWARE_VERSION_RESPONSE"
          else if contains "MAXI" ascii_content then Some "DEVICE_NAME"
          else None
        else None
    | None => None
    end%string in
  match by_ascii with
  | Some tag => Ok tag
  | None =>
    let status := get_status pkt_data in
    let reserved := get_reserved pkt_data in
    let payload := default [] (r_payload pkt_data) in
    by_payload ←
      (if negb (len payload =? 0) then
         if startswith payload [x5e; x01; x00; x00] then Ok (Some "PASSTHRU_OPEN_RESPONSE"%string)
         else if len payload >=? 4 then
           first_word ← unpack_I_le (slice payload 0 4);
           if first_word =? 0x0000015E then Ok (Some "PASSTHRU_RESPONSE"%string)
           else Ok None
         else Ok None
       else Ok None);
    match by_payload with
    | Some tag => Ok tag
    | None =>
      let by_direction : option string :=
        match direction with
        | TX =>
            if (status =? 0) && (reserved =? 0) then Some "CONNECT_REQUEST"%string
            else if (status =? 1) && (reserved =? 4) then Some "PASSTHRU_OPEN"%string
            else if (status =? 1) && (reserved =? 3) then Some "PASSTHRU_CLOSE"%string
            else if status =? 0x0B then Some "GET_VERSION"%string
            else if status =? 0x02 then Some "READ_DATA"%string
            else if status =? 0x05 then Some "WRITE_DATA"%string
            else if status =? 0x08 then Some "START_MSG_FILTER"%string
            else if status =? 0x03 then Some "DISCONNECT"%string
            else None
        | RX => if status =? 0 then Some "SUCCESS_RESPONSE"%string else None
        end in
      match by_direction with
      | Some tag => Ok tag
      | None =>
          Ok ("CMD_" ++ format_02X status ++ "_" ++ format_02X reserved)%string
      end
    end
  end.

(** [main], up to the two loops that fill [parsed_packets] and [sessions]
    (a [defaultdict(list)] keyed by session id).  The printed report is
    not modelled. *)
Definition dlci12 (rfcomm_packets : list rfcomm_packet) : list rfcomm_packet :=
  filter (fun p => rf_dlci p = 12) rfcomm_packets.

Definition correlate_step (st : list parsed * gmap Z (list parsed)) (pkt : rfcomm_packet)
  : list parsed * gmap Z (list parsed) :=
  let '(parsed_packets, sessions) := st in
  let parsed := parse_autel_packet (rf_data pkt) (rf_direction pkt) in
  if r_valid parsed && negb (default false (r_short parsed)) then
    let parsed := set_timestamp_raw (rf_timestamp pkt) (rf_data pkt) parsed in
    let session_id := get_session_id parsed in
    (parsed_packets ++ [parsed],
     <[session_id := default [] (sessions !! session_id) ++ [parsed]]> sessions)
  else st.

Definition correlate (dlci12_packets : list rfcomm_packet)
  : list parsed * gmap Z (list parsed) :=
  fold_left correlate_step dlci12_packets ([], ∅).

Definition main (file : list byte)
  : py (list parsed * gmap Z (list parsed) * list string) :=
  packets ← parse_btsnoop file;
  rfcomm_packets ← extract_rfcomm_data packets;
  let dlci12_packets := dlci12 rfcomm_packets in
  let '(parsed_packets, sessions) := correlate dlci12_packets in
  msg_types ← mapM (fun pkt => identify_message_type pkt (r_direction pkt)) parsed_packets;
  Ok (parsed_packets, sessions, msg_types).

End AutelV2.

(** ** [analyze_autel_protocol.py], the first analyzer *)

Module AutelV1.
Import Capture.

Definition AUTEL_MAGIC : list byte := [x55; x55; xaa; xaa].

Record header : Set := {
  total_len : Z;
  msg_id : string;
  payload_len : Z;
  hflags : Z;       (* key 'flags' *)
  cmd1 : Z;
  cmd2 : Z }.

(** The [result] dict of [analyze_autel_packet]. *)
Record analysis : Type := {
  a_valid : bool;
  a_short : option bool;
  a_raw : option string;
  a_hdr : option header;
  a_payload : option (list byte);
  a_ascii : option string;
  a_error : option exn }.

Definition result0 (valid : bool) (short : option bool) (raw : option string) : analysis :=
  {| a_valid := valid; a_short := short; a_raw := raw; a_hdr := None;
     a_payload := None; a_ascii := None; a_error := None |}.

(** "Check for magic bytes": the local variable [offset]; [None] where
    the function returns [{'valid': False}]. *)
Definition magic_offset (data : list byte) (direction : dir) : option Z :=
  match direction with
  | TX => if negb (startswith data AUTEL_MAGIC) then None else Some 4
  | RX =>
      if len data <? 5 then None
      else if bytes_eqb (slice data 0 1) [x00] && bytes_eqb (slice data 1 5) AUTEL_MAGIC
      then Some 5
      else if startswith data AUTEL_MAGIC then Some 4
      else None
  end.

Definition unpack_header (data : list byte) (offset : Z) : py header :=
  total_len ← unpack_I_le (slice data offset (offset + 4));
  let msg_id1 := bytes_hex_upper (slice data (offset + 4) (offset + 12)) in
  payload_len ← unpack_I_le (slice data (offset + 12) (offset + 16));
  let msg_id2 := bytes_hex_upper (slice data (offset + 16) (offset + 24)) in
  flags ← unpack_I_le (slice data (offset + 24) (offset + 28));
  cmd1 ← unpack_I_le (slice data (offset + 28) (offset + 32));
  cmd2 ← unpack_I_le (slice data (offset + 32) (offset + 36));
  Ok {| total_len := total_len; msg_id := msg_id1; payload_len := payload_len;
        hflags := flags; cmd1 := cmd1; cmd2 := cmd2 |}.

Definition analyze_autel_packet (data : list byte) (direction : dir) : analysis :=
  match magic_offset data direction with
  | None => result0 false None None
  | Some offset =>
      if len data <? offset + 36 then
        result0 true (Some true) (Some (bytes_hex_upper data))
      else
        match unpack_header data offset with
        | Raise e =>
            {| a_valid := true; a_short := Some false; a_raw := None; a_hdr := None;
               a_payload := None; a_ascii := None; a_error := Some e |}
        | Ok h =>
            if len data >? offset + 36 then
              let payload_data := slice_from data (offset + 36) in
              {| a_valid := true; a_short := Some false; a_raw := None;
                 a_hdr := Some h; a_payload := Some payload_data;
                 a_ascii := if negb (len payload_data =? 0)
                            then AutelV2.ascii_excerpt payload_data else None;
                 a_error := None |}
            else
              {| a_valid := true; a_short := Some false; a_raw := None;
                 a_hdr := Some h; a_payload := None; a_ascii := None;
                 a_error := None |}
        end
  end.

(** [main]: the packets for which [analyze_autel_packet] is called, with
    its result (the [rfcomm_packets] dicts have the keys of the second
    analyzer's), and those that go on to [classify_command]. *)
Definition dlci12 (rfcomm_packets : list AutelV2.rfcomm_packet) : list AutelV2.rfcomm_packet :=
  filter (fun p => AutelV2.rf_dlci p = 12) rfcomm_packets.

Definition analyses (rfcomm_packets : list AutelV2.rfcomm_packet)
  : list (AutelV2.rfcomm_packet * analysis) :=
  map (fun pkt => (pkt, analyze_autel_packet (AutelV2.rf_data pkt) (AutelV2.rf_direction pkt)))
      (dlci12 rfcomm_packets).

Definition classified (rfcomm_packets : list AutelV2.rfcomm_packet)
  : list (AutelV2.rfcomm_packet * analysis) :=
  filter (fun pa => a_valid pa.2 = true ∧ default false (a_short pa.2) = false)
         (analyses rfcomm_packets).

End AutelV1.

(** ** [parse_btsnoop.py], the first capture parser *)

Module BtsnoopV1.
Import Capture.

Definition HCI_COMMAND : Z := 0x01.
Definition HCI_ACL_DATA : Z := 0x02.
Definition HCI_SCO_DATA : Z := 0x03.
Definition HCI_EVENT : Z := 0x04.

Record packet : Type := {
  pkt_num : Z;
  pkt_timestamp : Z;
  pkt_direction : dir;
  pkt_is_command : bool;
  pkt_data : list byte;
  pkt_flags : Z }.

Definition mk_packet (n : nat) (h : rec_fields) (data : list byte) : packet :=
  {| pkt_num := Z.of_nat n + 1;
     pkt_timestamp := timestamp h;
     pkt_direction := if truthy (Z.land (flags h) 1) then RX else TX;
     pkt_is_command := truthy (Z.land (flags h) 2);
     pkt_data := data;
     pkt_flags := flags h |}.

Definition parse_btsnoop (file : list byte) : py (list packet) :=
  let '(header, f) := read BTSNOOP_HEADER_SIZE file in
  if negb (startswith header BTSNOOP_MAGIC) then Ok []
  else
    version ← unpack_I_be (slice header 8 12);
    datalink ← unpack_I_be (slice header 12 16);
    read_loop mk_packet f [].

Record l2cap_packet : Type := {
  l2_num : Z;
  l2_direction : dir;
  l2_handle : Z;
  l2_cid : Z;
  l2_payload : list byte }.

(** The body of the loop of [extract_l2cap_data]. *)
Definition extract_l2cap_body (pkt : packet) : py (option l2cap_packet) :=
  let data := pkt_data pkt in
  if len data <? 1 then Ok None else
  pkt_type ← getbyte data 0;
  if (pkt_type =? HCI_ACL_DATA) && (len data >? 5) then
    hf ← unpack_H_le (slice data 1 3);
    let handle := Z.land hf 0x0FFF in
    acl_len ← unpack_H_le (slice data 3 5);
    if (len data >=? 5 + acl_len) && (acl_len >=? 4) then
      let l2cap_payload := slice data 5 (5 + acl_len) in
      l2cap_len ← unpack_H_le (slice l2cap_payload 0 2);
      l2cap_cid ← unpack_H_le (slice l2cap_payload 2 4);
      if len l2cap_payload >=? 4 + l2cap_len then
        let payload := slice l2cap_payload 4 (4 + l2cap_len) in
        Ok (Some {| l2_num := pkt_num pkt; l2_direction := pkt_direction pkt;
                    l2_handle := handle; l2_cid := l2cap_cid;
                    l2_payload := payload |})
      else Ok None
    else Ok None
  else Ok None.

Definition extract_l2cap_data (packets : list packet) : py (list l2cap_packet) :=
  for_append extract_l2cap_body packets [].

Record rfcomm_packet : Type := {
  rf_num : Z;
  rf_direction : dir;
  rf_dlci : Z;
  rf_data : list byte }.

(** The body of the loop of [extract_rfcomm_data]. *)
Definition extract_rfcomm_body (pkt : l2cap_packet) : py (option rfcomm_packet) :=
  let payload := l2_payload pkt in
  let cid := l2_cid pkt in
  if cid <=? 0x0003 then Ok None else
  if len payload <? 3 then Ok None else
  addr ← getbyte payload 0;
  control ← getbyte payload 1;
  if Z.land control 0xEF =? 0xEF then
    length_byte ← getbyte payload 2;
    lf ← (if truthy (Z.land length_byte 1) then
            Ok (Some (Z.shiftr length_byte 1, 3))
          else if len payload <? 4 then Ok None
          else
            b3 ← getbyte payload 3;
            Ok (Some (Z.lor (Z.shiftr length_byte 1) (Z.shiftl b3 7), 4)));
    match lf with
    | None => Ok None
    | Some (data_len, data_start) =>
        if len payload >=? data_start + data_len then
          let rfcomm_payload := slice payload data_start (data_start + data_len) in
          let dlci := Z.shiftr addr 2 in
          if data_len >? 0 then
            Ok (Some {| rf_num := l2_num pkt; rf_direction := l2_direction pkt;
                        rf_dlci := dlci; rf_data := rfcomm_payload |})
          else Ok None
        else Ok None
    end
  else Ok None.

Definition extract_rfcomm_data (l2cap_packets : list l2cap_packet)
  : py (list rfcomm_packet) :=
  for_append extract_rfcomm_body l2cap_packets [].

(** [main], up to the printed analysis. *)
Definition main (file : list byte) : py (list l2cap_packet * list rfcomm_packet) :=
  packets ← parse_btsnoop file;
  l2cap_packets ← extract_l2cap_data packets;
  rfcomm_packets ← extract_rfcomm_data l2cap_packets;
  Ok (l2cap_packets, rfcomm_packets).

End BtsnoopV1.

(** ** [parse_btsnoop_v2.py] *)

Module BtsnoopV2.
Import Capture.

Definition HCI_COMMAND : Z := 0x01.
Definition HCI_ACL_DATA : Z := 0x02.
Definition HCI_SCO_DATA : Z := 0x03.
Definition HCI_EVENT : Z := 0x04.

Record packet : Type := {
  pkt_num : Z;
  pkt_timestamp : Z;
  pkt_direction : dir;
  pkt_flags : Z;
  pkt_data : list byte }.

Definition mk_packet (n : nat) (h : rec_fields) (data : list byte) : packet :=
  {| pkt_num := Z.of_nat n + 1;
     pkt_timestamp := timestamp h;
     pkt_direction := if truthy (Z.land (flags h) 1) then RX else TX;
     pkt_flags := flags h;
     pkt_data := data |}.

Definition parse_btsnoop (file : list byte) : py (list packet) :=
  let '(header, f) := read BTSNOOP_HEADER_SIZE file in
  if negb (startswith header BTSNOOP_MAGIC) then Ok []
  else
    version ← unpack_I_be (slice header 8 12);
    datalink ← unpack_I_be (slice header 12 16);
    read_loop mk_packet f [].

(** The [stats] dict of [analyze_packets]. *)
Record stats : Set := {
  commands : Z; events : Z; acl : Z; sco : Z; other : Z }.

Definition analyze_step (st : stats * list packet) (pkt : packet)
  : py (stats * list packet) :=
  let '(s, acl_packets) := st in
  let data := pkt_data pkt in
  if len data <? 1 then Ok st else
  pkt_type ← getbyte data 0;
  if pkt_type =? HCI_COMMAND then
    Ok ({| commands := commands s + 1; events := events s; acl := acl s;
           sco := sco s; other := other s |}, acl_packets)
  else if pkt_type =? HCI_EVENT then
    Ok ({| commands := commands s; events := events s + 1; acl := acl s;
           sco := sco s; other := other s |}, acl_packets)
  else if pkt_type =? HCI_ACL_DATA then
    Ok ({| commands := commands s; events := events s; acl := acl s + 1;
           sco := sco s; other := other s |}, acl_packets ++ [pkt])
  else if pkt_type =? HCI_SCO_DATA then
    Ok ({| commands := commands s; events := events s; acl := acl s;
           sco := sco s + 1; other := other s |}, acl_packets)
  else
    Ok ({| commands := commands s; events := events s; acl := acl s;
           sco := sco s; other := other s + 1 |}, acl_packets).

Fixpoint analyze_loop (packets : list packet) (st : stats * list packet)
  : py (stats * list packet) :=
  match packets with
  | [] => Ok st
  | pkt :: rest => st' ← analyze_step st pkt; analyze_loop rest st'
  end.

Definition analyze_packets (packets : list packet) : py (stats * list packet) :=
  analyze_loop packets
    ({| commands := 0; events := 0; acl := 0; sco := 0; other := 0 |}, []).

End BtsnoopV2.

(** ** [parse_btsnoop_v3.py] *)

Module BtsnoopV3.
Import Capture.

Inductive pkt_type : Set := EVENT | COMMAND | ACL.

#[global] Instance pkt_type_eq_dec : EqDecision pkt_type.
Proof. solve_decision. Defined.

Record packet : Type := {
  pkt_num : Z;
  pkt_timestamp : Z;
  pkt_direction : dir;
  pkt_kind : pkt_type;      (* key 'type' *)
  pkt_flags : Z;
  pkt_data : list byte }.

Definition mk_packet (n : nat) (h : rec_fields) (data : list byte) : packet :=
  let is_cmd_event := truthy (Z.land (flags h) 2) in
  {| pkt_num := Z.of_nat n + 1;
     pkt_timestamp := timestamp h;
     pkt_direction := if truthy (Z.land (flags h) 1) then RX else TX;
     pkt_kind := if is_cmd_event then
                   if truthy (Z.land (flags h) 1) then EVENT else COMMAND
                 else ACL;
     pkt_flags := flags h;
     pkt_data := data |}.

(** Returns [(packets, datalink)]. *)
Definition parse_btsnoop (file : list byte) : py (list packet * Z) :=
  let '(header, f) := read BTSNOOP_HEADER_SIZE file in
  if negb (startswith header BTSNOOP_MAGIC) then Ok ([], 0)
  else
    version ← unpack_I_be (slice header 8 12);
    datalink ← unpack_I_be (slice header 12 16);
    packets ← read_loop mk_packet f [];
    Ok (packets, datalink).

(** [analyze_packets] returns the ACL packets (the counts are printed). *)
Definition analyze_packets (packets : list packet) : list packet :=
  filter (fun pkt => pkt_kind pkt = ACL) packets.

Record data_packet : Type := {
  dp_num : Z;
  dp_direction : dir;
  dp_handle : Z;
  dp_cid : Z;
  dp_pb_flag : Z;
  dp_l2cap_len : Z;
  dp_l2cap_data : list byte }.

(** The body of the first loop of [extract_acl_data]. *)
Definition extract_acl_body (pkt : packet) : py (option data_packet) :=
  let data := pkt_data pkt in
  if len data <? 4 then Ok None else
  handle_flags ← unpack_H_le (slice data 0 2);
  let handle := Z.land handle_flags 0x0FFF in
  let pb_flag := Z.land (Z.shiftr handle_flags 12) 0x03 in
  let bc_flag := Z.land (Z.shiftr handle_flags 14) 0x03 in
  acl_len ← unpack_H_le (slice data 2 4);
  let acl_payload := slice data 4 (4 + acl_len) in
  if len acl_payload >=? 4 then
    l2cap_len ← unpack_H_le (slice acl_payload 0 2);
    l2cap_cid ← unpack_H_le (slice acl_payload 2 4);
    let l2cap_data := slice_from acl_payload 4 in
    Ok (Some {| dp_num := pkt_num pkt; dp_direction := pkt_direction pkt;
                dp_handle := handle; dp_cid := l2cap_cid; dp_pb_flag := pb_flag;
                dp_l2cap_len := l2cap_len; dp_l2cap_data := l2cap_data |})
  else Ok None.

Definition extract_acl_data (packets : list packet) : py (list data_packet) :=
  for_append extract_acl_body packets [].

Record rfcomm_packet : Type := {
  rf_num : Z;
  rf_direction : dir;
  rf_dlci : Z;
  rf_data : list byte }.

(** The body of the loop of [analyze_rfcomm_packets]. *)
Definition analyze_rfcomm_body (pkt : data_packet) : py (option rfcomm_packet) :=
  let data := dp_l2cap_data pkt in
  if len data <? 3 then Ok None else
  addr ← getbyte data 0;
  control ← getbyte data 1;
  let dlci := Z.shiftr addr 2 in
  let ctrl_type := Z.land control 0xEF in
  if ctrl_type =? 0xEF then
    length_byte ← getbyte data 2;
    lf ← (if truthy (Z.land length_byte 1) then
            Ok (Some (Z.shiftr length_byte 1, 3))
          else if len data <? 4 then Ok None
          else
            b3 ← getbyte data 3;
            Ok (Some (Z.lor (Z.shiftr length_byte 1) (Z.shiftl b3 7), 4)));
    match lf with
    | None => Ok None
    | Some (payload_len, payload_start) =>
        if len data >=? payload_start + payload_len then
          let payload := slice data payload_start (payload_start + payload_len) in
          if payload_len >? 0 then
            Ok (Some {| rf_num := dp_num pkt; rf_direction := dp_direction pkt;
                        rf_dlci := dlci; rf_data := payload |})
          else Ok None
        else Ok None
    end
  else Ok None.

Definition analyze_rfcomm_packets (data_packets : list data_packet)
  : py (list rfcomm_packet) :=
  let dynamic_packets := filter (fun p => 0x0040 <= dp_cid p) data_packets in
  match dynamic_packets with
  | [] => Ok []
  | _ => for_append analyze_rfcomm_body dynamic_packets []
  end.

(** [main], up to the printed summary: the RFCOMM payloads, when the
    script gets as far as computing them.  [analyze_hci_events] only
    prints and is left out. *)
Definition main (file : list byte) : py (list rfcomm_packet) :=
  '(packets, datalink) ← parse_btsnoop file;
  let acl_packets := analyze_packets packets in
  match acl_packets with
  | [] => Ok []
  | _ =>
      data_packets ← extract_acl_data acl_packets;
      match data_packets with
      | [] => Ok []
      | _ => analyze_rfcomm_packets data_packets
      end
  end.

End BtsnoopV3.

(** ** Vocabulary of the statements below *)

(** The vendor magic [55 55 AA AA] occupies [data[k:k+4]]. *)
Definition magic_at (data : list byte) (k : Z) : Prop :=
  slice data k (k + 4) = AutelV2.AUTEL_MAGIC.

(** The frame starts with one zero byte. *)
Definition zero_prefixed (data : list byte) : Prop := slice data 0 1 = [x00].

(** Two frames of the same length that agree on every byte outside
    positions [[a, b)]. *)
Definition agree_outside (a b : Z) (d1 d2 : list byte) : Prop :=
  length d1 = length d2 /\
  forall k : nat, ~ (a <= Z.of_nat k < b) -> d1 !! k = d2 !! k.

(** The payload and the check value as the specification words them: the
    payload is [[offset+36, offset+4+total_length-4)] when that interval
    is not empty and ends inside the frame; the check value is the
    little-endian integer in the four bytes after it, when they fit. *)
Definition payload_of (data : list byte) (offset total : Z) : option (list byte) :=
  if (offset + 36 <? offset + 4 + total - 4) && (offset + 4 + total - 4 <=? len data)
  then Some (slice data (offset + 36) (offset + 4 + total - 4)) else None.

Definition check_of (data : list byte) (offset total : Z) : option Z :=
  if (offset + 36 <? offset + 4 + total - 4) && (offset + 4 + total - 4 + 4 <=? len data)
  then Some (le2z (slice data (offset + 4 + total - 4) (offset + 4 + total - 4 + 4)))
  else None.

(** The two shapes of a vendor frame: a sent frame starts with the magic;
    a received frame starts with a zero byte and the magic, or with the
    magic. *)
Definition vendor_form (direction : dir) (data : list byte) : Prop :=
  match direction with
  | TX => magic_at data 0
  | RX => (zero_prefixed data /\ magic_at data 1) \/ magic_at data 0
  end.

(** ** The variable-length field of an information frame, in the
    specification's words *)

(** Keep [payload_len] bytes from [payload_start], unless the length is zero
    or exceeds the bytes that remain after the payload start. *)
Definition spec_uih_take (frame : list byte) (payload_len payload_start : Z)
  : option (list byte) :=
  if (payload_len =? 0) || (len frame - payload_start <? payload_len) then None
  else Some (slice frame payload_start (payload_start + payload_len)).

(** The byte at offset 2 is the length byte: with its low bit set the
    length is [byte >> 1] and the payload starts at offset 3; otherwise a
    second length byte must be present, the length is
    [(byte0 >> 1) | (byte1 << 7)] and the payload starts at offset 4. *)
Definition spec_uih_payload (frame : list byte) : option (list byte) :=
  match frame with
  | _ :: _ :: byte0 :: rest =>
      if Z.testbit (b2z byte0) 0 then
        spec_uih_take frame (Z.shiftr (b2z byte0) 1) 3
      else
        match rest with
        | byte1 :: _ =>
            spec_uih_take frame (Z.lor (Z.shiftr (b2z byte0) 1) (Z.shiftl (b2z byte1) 7)) 4
        | [] => None
        end
  | _ => None
  end.

(** A record body of the flags-only captures: four bytes of ACL header
    (handle and flags, segment length), four bytes of L2CAP header (length,
    channel), the frame that fills the segment, and whatever follows it. *)
Definition acl_record (h0 h1 a0 a1 l0 l1 c0 c1 : byte) (frame extra : list byte)
  : list byte :=
  [h0; h1; a0; a1; l0; l1; c0; c1] ++ frame ++ extra.

(** ** Sample frames *)

(** A sent message: magic, total length 41, session 7, counter 9, payload
    length field 0, session 7, flags FFFFFFFF, status 0, reserved 0, the
    payload ["J2534"] and four check bytes. *)
Definition sent_j2534 : list byte :=
  [x55; x55; xaa; xaa;  x29; x00; x00; x00;  x07; x00; x00; x00;
   x09; x00; x00; x00;  x00; x00; x00; x00;  x07; x00; x00; x00;
   xff; xff; xff; xff;  x00; x00; x00; x00;  x00; x00; x00; x00;
   x4a; x32; x35; x33; x34;  x01; x02; x03; x04].

(** The same message with total length 36: the header, then four more
    bytes. *)
Definition sent_header_only : list byte :=
  [x55; x55; xaa; xaa;  x24; x00; x00; x00;  x07; x00; x00; x00;
   x09; x00; x00; x00;  x00; x00; x00; x00;  x07; x00; x00; x00;
   xff; xff; xff; xff;  x00; x00; x00; x00;  x00; x00; x00; x00;
   x01; x02; x03; x04].

(** An information frame on subchannel 12 with a one-byte length field
    (length 1), and the records that carry it on channel 0x0040. *)
Definition uih_frame : list byte := [x31; xef; x03; x41; x00].

Definition uih_data_packet : BtsnoopV3.data_packet :=
  {| BtsnoopV3.dp_num := 1; BtsnoopV3.dp_direction := TX; BtsnoopV3.dp_handle := 1;
     BtsnoopV3.dp_cid := 0x0040; BtsnoopV3.dp_pb_flag := 0;
     BtsnoopV3.dp_l2cap_len := 5; BtsnoopV3.dp_l2cap_data := uih_frame |}.

Definition uih_acl_packet : AutelV2.packet :=
  {| AutelV2.pkt_timestamp := 77; AutelV2.pkt_direction := TX;
     AutelV2.pkt_kind := AutelV2.ACL;
     AutelV2.pkt_data := acl_record x01 x00 x09 x00 x05 x00 x40 x00 uih_frame [] |}.

(** ** The classification rule chain, in the specification's words

    An ordered list of (predicate, tag) rules, evaluated top to bottom, the
    first match winning; the default synthesizes a tag from status and
    reserved. *)

Definition rule : Type := (AutelV2.parsed -> bool) * string.

(** Tier 1: the ASCII excerpt contains a known substring. *)
Definition ascii_rule (sub : string -> bool) (tag : string) : rule :=
  (fun m => match AutelV2.r_ascii m with
            | Some a => negb (String.eqb a EmptyString) && sub a
            | None => false
            end, tag).

(** Tier 2: the payload starts with a known byte prefix. *)
Definition payload_rule (pre : list byte -> bool) (tag : string) : rule :=
  (fun m => let p := default [] (AutelV2.r_payload m) in negb (len p =? 0) && pre p, tag).

(** Tier 3: the status code and the reserved field, by direction. *)
Definition status_rule (pre : Z -> Z -> bool) (tag : string) : rule :=
  (fun m => pre (AutelV2.get_status m) (AutelV2.get_reserved m), tag).

Definition ascii_tier (direction : dir) : list rule :=
  [ ascii_rule (contains "J2534"%string)
      (if dir_eqb direction RX then "DEVICE_ID_RESPONSE"%string
       else "DEVICE_ID_REQUEST"%string);
    ascii_rule (contains "AUTEL"%string) "VENDOR_ID_RESPONSE"%string;
    ascii_rule (fun a => contains "Mar "%string a || contains "V2."%string a)
      "FIRMWARE_VERSION_RESPONSE"%string;
    ascii_rule (contains "MAXI"%string) "DEVICE_NAME"%string ].

Definition payload_tier : list rule :=
  [ payload_rule (fun p => startswith p [x5e; x01; x00; x00])
      "PASSTHRU_OPEN_RESPONSE"%string;
    payload_rule (fun p => (len p >=? 4) && (le2z (slice p 0 4) =? 0x0000015E))
      "PASSTHRU_RESPONSE"%string ].

Definition status_tier (direction : dir) : list rule :=
  match direction with
  | TX =>
      [ status_rule (fun s r => (s =? 0) && (r =? 0)) "CONNECT_REQUEST"%string;
        status_rule (fun s r => (s =? 1) && (r =? 4)) "PASSTHRU_OPEN"%string;
        status_rule (fun s r => (s =? 1) && (r =? 3)) "PASSTHRU_CLOSE"%string;
        status_rule (fun s _ => s =? 0x0B) "GET_VERSION"%string;
        status_rule (fun s _ => s =? 0x02) "READ_DATA"%string;
        status_rule (fun s _ => s =? 0x05) "WRITE_DATA"%string;
        status_rule (fun s _ => s =? 0x08) "START_MSG_FILTER"%string;
        status_rule (fun s _ => s =? 0x03) "DISCONNECT"%string ]
  | RX => [ status_rule (fun s _ => s =? 0) "SUCCESS_RESPONSE"%string ]
  end.

Definition spec_rules (direction : dir) : list rule :=
  ascii_tier direction ++ payload_tier ++ status_tier direction.

Fixpoint first_match (rules : list rule) (m : AutelV2.parsed) : option string :=
  match rules with
  | [] => None
  | (applies, tag) :: rules' => if applies m then Some tag else first_match rules' m
  end.

Definition spec_default_tag (m : AutelV2.parsed) : string :=
  ("CMD_" ++ format_02X (AutelV2.get_status m) ++ "_"
          ++ format_02X (AutelV2.get_reserved m))%string.

Definition spec_type_tag (m : AutelV2.parsed) (direction : dir) : string :=
  default (spec_default_tag m) (first_match (spec_rules direction) m).

(** The channel identifier of a record body as the fused loop of the
    analyzers reads it: bytes 2..4 of the segment that starts at offset 4
    and whose length is at offset 2. *)
Definition acl_cid (data : list byte) : Z :=
  le2z (slice (slice data 4 (4 + le2z (slice data 2 4))) 2 4).

(** An L2CAP packet on the attribute channel 0x0004 whose payload looks
    like an information frame. *)
Definition att_l2cap_packet : BtsnoopV1.l2cap_packet :=
  {| BtsnoopV1.l2_num := 1; BtsnoopV1.l2_direction := TX; BtsnoopV1.l2_handle := 1;
     BtsnoopV1.l2_cid := 0x0004; BtsnoopV1.l2_payload := uih_frame |}.

(** A well-formed sent vendor message on subchannel 11, and the same on
    subchannel 12. *)
Definition vendor_on_dlci (dlci : Z) : AutelV2.rfcomm_packet :=
  {| AutelV2.rf_timestamp := 5; AutelV2.rf_direction := TX;
     AutelV2.rf_dlci := dlci; AutelV2.rf_data := sent_j2534 |}.

(** A capture file with link type 1002 and one sent data record whose body
    is an H4 type byte 2, an ACL header (handle 1, length 9), an L2CAP
    header (length 5, channel 0x0004) and [uih_frame]. *)
Definition capture_att : list byte :=
  [x62; x74; x73; x6e; x6f; x6f; x70; x00;  x00; x00; x00; x01;  x00; x00; x03; xea;
   x00; x00; x00; x0e;  x00; x00; x00; x0e;  x00; x00; x00; x00;  x00; x00; x00; x00;
   x00; x00; x00; x00; x00; x00; x00; x4d;
   x02;  x01; x00; x09; x00;  x05; x00; x04; x00;  x31; xef; x03; x41; x00].

(** What [main] of the second analyzer appends to [parsed_packets] for a
    packet that parses: the result with its 'timestamp' and 'raw' keys. *)
Definition stamped (pkt : AutelV2.rfcomm_packet) : AutelV2.parsed :=
  AutelV2.set_timestamp_raw (AutelV2.rf_timestamp pkt) (AutelV2.rf_data pkt)
    (AutelV2.parse_autel_packet (AutelV2.rf_data pkt) (AutelV2.rf_direction pkt)).

(** ** Capture streams, for the statements about the reader *)

(** The included-length field of a 24-byte record header. *)
Definition incl_len_of (rec_header : list byte) : Z := be2z (slice rec_header 4 8).

(** A complete record: a 24-byte header and exactly the body it declares. *)
Definition complete_record (r : list byte * list byte) : Prop :=
  length r.1 = 24%nat /\ incl_len_of r.1 = len r.2.

(** What is left at the end of a capture: nothing, a short record header,
    or a full header with a short body. *)
Definition truncated (tail : list byte) : Prop :=
  len tail < 24 \/ len tail - 24 < incl_len_of (firstn 24 tail).

(** The bytes of a sequence of records. *)
Definition stream_of (recs : list (list byte * list byte)) : list byte :=
  concat (map (fun r => r.1 ++ r.2) recs).

(** The decoded fields of a 24-byte record header. *)
Definition fields_of (rec_header : list byte) : Capture.rec_fields :=
  {| Capture.orig_len := be2z (slice rec_header 0 4);
     Capture.incl_len := be2z (slice rec_header 4 8);
     Capture.flags := be2z (slice rec_header 8 12);
     Capture.drops := be2z (slice rec_header 12 16);
     Capture.timestamp := be2z (slice rec_header 16 24) |}.

(** The packets a script builds from complete records, the first of them
    being record number [n]. *)
Fixpoint packets_of {packet} (mk : nat -> Capture.rec_fields -> list byte -> packet)
    (n : nat) (recs : list (list byte * list byte)) : list packet :=
  match recs with
  | [] => []
  | r :: recs' => mk n (fields_of r.1) r.2 :: packets_of mk (S n) recs'
  end.

(** A file header: the magic, version 1, link type [dl3 dl2 dl1 dl0]. *)
Definition file_header (d3 d2 d1 d0 : byte) : list byte :=
  Capture.BTSNOOP_MAGIC ++ [x00; x00; x00; x01] ++ [d3; d2; d1; d0].

(** ** Record kinds, in the specification's words *)

Inductive kind : Set := Command | Data | Sco | Event.

(** Flags-only mode: bit 1 of the flags marks a control record, bit 0 a
    received one; a received control record is an event, a sent one a
    command, and any other record is data. *)
Definition spec_kind_of_flags (flags : Z) : kind :=
  if Z.testbit flags 1 then (if Z.testbit flags 0 then Event else Command) else Data.

(** Body-discriminator mode: the first body byte is the type. *)
Definition spec_kind_of_byte (b : Z) : option kind :=
  if b =? 1 then Some Command else if b =? 2 then Some Data
  else if b =? 3 then Some Sco else if b =? 4 then Some Event else None.

(** The classifier of the specification: the mode is chosen by the link
    type.  It returns the kind and the body that is left for the packet
    layer. *)
Definition spec_classify (datalink flags : Z) (body : list byte)
  : option kind * list byte :=
  if datalink =? 1001 then (Some (spec_kind_of_flags flags), body)
  else match body with
       | b :: rest => (spec_kind_of_byte (b2z b), rest)
       | [] => (None, [])
       end.

(** The kinds of [parse_btsnoop_v3.py] among the specification's. *)
Definition kind_of_v3 (t : BtsnoopV3.pkt_type) : kind :=
  match t with
  | BtsnoopV3.EVENT => Event
  | BtsnoopV3.COMMAND => Command
  | BtsnoopV3.ACL => Data
  end.

(** The counter of [parse_btsnoop_v2.py] that a first body byte increments. *)
Definition bump (b : Z) (s : BtsnoopV2.stats) : BtsnoopV2.stats :=
  match spec_kind_of_byte b with
  | Some Command =>
      {| BtsnoopV2.commands := BtsnoopV2.commands s + 1; BtsnoopV2.events := BtsnoopV2.events s;
         BtsnoopV2.acl := BtsnoopV2.acl s; BtsnoopV2.sco := BtsnoopV2.sco s;
         BtsnoopV2.other := BtsnoopV2.other s |}
  | Some Event =>
      {| BtsnoopV2.commands := BtsnoopV2.commands s; BtsnoopV2.events := BtsnoopV2.events s + 1;
         BtsnoopV2.acl := BtsnoopV2.acl s; BtsnoopV2.sco := BtsnoopV2.sco s;
         BtsnoopV2.other := BtsnoopV2.other s |}
  | Some Data =>
      {| BtsnoopV2.commands := BtsnoopV2.commands s; BtsnoopV2.events := BtsnoopV2.events s;
         BtsnoopV2.acl := BtsnoopV2.acl s + 1; BtsnoopV2.sco := BtsnoopV2.sco s;
         BtsnoopV2.other := BtsnoopV2.other s |}
  | Some Sco =>
      {| BtsnoopV2.commands := BtsnoopV2.commands s; BtsnoopV2.events := BtsnoopV2.events s;
         BtsnoopV2.acl := BtsnoopV2.acl s; BtsnoopV2.sco := BtsnoopV2.sco s + 1;
         BtsnoopV2.other := BtsnoopV2.other s |}
  | None =>
      {| BtsnoopV2.commands := BtsnoopV2.commands s; BtsnoopV2.events := BtsnoopV2.events s;
         BtsnoopV2.acl := BtsnoopV2.acl s; BtsnoopV2.sco := BtsnoopV2.sco s;
         BtsnoopV2.other := BtsnoopV2.other s + 1 |}
  end.

(** A capture with link type 1002 and one received data record (flags 1)
    whose body is an H4 event: type byte 4, event code 0x0E, no
    parameters. *)
Definition h4_event_record : list byte * list byte :=
  ([x00; x00; x00; x03;  x00; x00; x00; x03;  x00; x00; x00; x01;  x00; x00; x00; x00;
    x00; x00; x00; x00; x00; x00; x00; x4d],
   [x04; x0e; x00]).

Definition capture_h4_event : list byte :=
  file_header x00 x00 x03 xea ++ stream_of [h4_event_record].

(** A capture with link type 1001 and one sent data record (flags 0) whose
    body starts directly with the ACL header of handle 2: handle and flags
    [02 00], segment length 9, L2CAP length 5, channel 0x0040, and then
    [uih_frame]. *)
Definition handle2_record : list byte * list byte :=
  ([x00; x00; x00; x0d;  x00; x00; x00; x0d;  x00; x00; x00; x00;  x00; x00; x00; x00;
    x00; x00; x00; x00; x00; x00; x00; x4d],
   [x02; x00; x09; x00;  x05; x00; x40; x00;  x31; xef; x03; x41; x00]).

Definition capture_handle2 : list byte :=
  file_header x00 x00 x03 xe9 ++ stream_of [handle2_record].

(** A capture with link type 1001 and one sent data record whose body has
    an H4 type byte 2 in front of the ACL header (handle 1, segment length
    9), the L2CAP header (length 5, channel 0x0040) and [uih_frame]. *)
Definition typed_record : list byte * list byte :=
  ([x00; x00; x00; x0e;  x00; x00; x00; x0e;  x00; x00; x00; x00;  x00; x00; x00; x00;
    x00; x00; x00; x00; x00; x00; x00; x4d],
   [x02;  x01; x00; x09; x00;  x05; x00; x40; x00;  x31; xef; x03; x41; x00]).

Definition capture_typed_1001 : list byte :=
  file_header x00 x00 x03 xe9 ++ stream_of [typed_record].

(** A record body of the captures with a type byte: the byte 2 in front of
    an [acl_record]. *)
Definition h4_acl_record (h0 h1 a0 a1 l0 l1 c0 c1 : byte) (seg extra : list byte)
  : list byte :=
  x02 :: acl_record h0 h1 a0 a1 l0 l1 c0 c1 seg extra.

(** A sent data record of a flags-only capture whose L2CAP header declares
    100 bytes (64 00) on channel 0x0040 while the segment holds the five
    bytes of [uih_frame]; and the same body behind a type byte. *)
Definition overlong_acl_packet : AutelV2.packet :=
  {| AutelV2.pkt_timestamp := 77; AutelV2.pkt_direction := TX;
     AutelV2.pkt_kind := AutelV2.ACL;
     AutelV2.pkt_data := acl_record x01 x00 x09 x00 x64 x00 x40 x00 uih_frame [] |}.

Definition overlong_h4_packet : BtsnoopV1.packet :=
  {| BtsnoopV1.pkt_num := 1; BtsnoopV1.pkt_timestamp := 77;
     BtsnoopV1.pkt_direction := TX; BtsnoopV1.pkt_is_command := false;
     BtsnoopV1.pkt_data := h4_acl_record x01 x00 x09 x00 x64 x00 x40 x00 uih_frame [];
     BtsnoopV1.pkt_flags := 0 |}.

(** A well-formed record of the same kind: the L2CAP header declares the
    five bytes that are there. *)
Definition exact_h4_packet : BtsnoopV1.packet :=
  {| BtsnoopV1.pkt_num := 1; BtsnoopV1.pkt_timestamp := 77;
     BtsnoopV1.pkt_direction := TX; BtsnoopV1.pkt_is_command := false;
     BtsnoopV1.pkt_data := h4_acl_record x01 x00 x09 x00 x05 x00 x40 x00 uih_frame [];
     BtsnoopV1.pkt_flags := 0 |}.

(** A parsed received message with status 0x0B and reserved 1 and a total
    length of 36 (no payload). *)
Definition received_status_0b : AutelV2.parsed :=
  AutelV2.set_hdr
    {| AutelV2.total_len := 36; AutelV2.session_id := 7; AutelV2.msg_counter := 9;
       AutelV2.payload_len := 0; AutelV2.hflags := 0xFFFFFFFF;
       AutelV2.status := 0x0B; AutelV2.reserved := 1 |}
    (AutelV2.result0 true RX (Some false)).

(** A capture of link type 1001 with one sent data record that carries
    [sent_j2534] in an information frame of subchannel 12 (length byte
    0x5B: 45 bytes, one-byte form) on channel 0x0040. *)
Definition vendor_record : list byte * list byte :=
  ([x00; x00; x00; x39;  x00; x00; x00; x39;  x00; x00; x00; x00;  x00; x00; x00; x00;
    x00; x00; x00; x00; x00; x00; x00; x4d],
   acl_record x01 x00 x35 x00 x31 x00 x40 x00
     ([x31; xef; x5b] ++ sent_j2534 ++ [x9a]) []).

Definition capture_vendor : list byte :=
  file_header x00 x00 x03 xe9 ++ stream_of [vendor_record].

(** ** Vocabulary of the further properties *)

(** The packets that [main] of the second analyzer keeps: the parser
    returns a valid result that is not short. *)
Definition accepted (pkt : AutelV2.rfcomm_packet) : bool :=
  let parsed := AutelV2.parse_autel_packet (AutelV2.rf_data pkt) (AutelV2.rf_direction pkt) in
  AutelV2.r_valid parsed && negb (default false (AutelV2.r_short parsed)).

(** A printable ASCII byte or character, [0x20 .. 0x7E]. *)
Definition printable_byte (b : byte) : bool := (32 <=? b2z b) && (b2z b <? 127).
Definition printable_char (c : ascii) : bool := (32 <=? ord c) && (ord c <? 127).

(** The fixed tags that [identify_message_type] can return for a
    direction. *)
Definition fixed_tags (direction : dir) : list string :=
  match direction with
  | TX => [ "DEVICE_ID_REQUEST"; "VENDOR_ID_RESPONSE"; "FIRMWARE_VERSION_RESPONSE";
            "DEVICE_NAME"; "PASSTHRU_OPEN_RESPONSE"; "CONNECT_REQUEST"; "PASSTHRU_OPEN";
            "PASSTHRU_CLOSE"; "GET_VERSION"; "READ_DATA"; "WRITE_DATA";
            "START_MSG_FILTER"; "DISCONNECT" ]%string
  | RX => [ "DEVICE_ID_RESPONSE"; "VENDOR_ID_RESPONSE"; "FIRMWARE_VERSION_RESPONSE";
            "DEVICE_NAME"; "PASSTHRU_OPEN_RESPONSE"; "SUCCESS_RESPONSE" ]%string
  end.

(** What the grouping loop of [main] keeps in step: every list of
    [sessions] is the part of [parsed_packets] with that session id, and
    none is empty. *)
Definition grouped (st : list AutelV2.parsed * gmap Z (list AutelV2.parsed)) : Prop :=
  forall sid,
    default [] (st.2 !! sid) = filter (fun m => AutelV2.get_session_id m = sid) st.1 /\
    st.2 !! sid <> Some [].

(** ** The packets of one reader in terms of another's *)

(** The dict of [parse_btsnoop.py] for a record, from the dict of
    [parse_btsnoop_v3.py]: 'is_command' is bit 1 of the flags, and 'type'
    is dropped. *)
Definition v1_of_v3 (p : BtsnoopV3.packet) : BtsnoopV1.packet :=
  {| BtsnoopV1.pkt_num := BtsnoopV3.pkt_num p;
     BtsnoopV1.pkt_timestamp := BtsnoopV3.pkt_timestamp p;
     BtsnoopV1.pkt_direction := BtsnoopV3.pkt_direction p;
     BtsnoopV1.pkt_is_command := truthy (Z.land (BtsnoopV3.pkt_flags p) 2);
     BtsnoopV1.pkt_data := BtsnoopV3.pkt_data p;
     BtsnoopV1.pkt_flags := BtsnoopV3.pkt_flags p |}.

(** The dict of [parse_btsnoop_v2.py]: 'type' is dropped. *)
Definition v2_of_v3 (p : BtsnoopV3.packet) : BtsnoopV2.packet :=
  {| BtsnoopV2.pkt_num := BtsnoopV3.pkt_num p;
     BtsnoopV2.pkt_timestamp := BtsnoopV3.pkt_timestamp p;
     BtsnoopV2.pkt_direction := BtsnoopV3.pkt_direction p;
     BtsnoopV2.pkt_flags := BtsnoopV3.pkt_flags p;
     BtsnoopV2.pkt_data := BtsnoopV3.pkt_data p |}.

(** The dict of the analyzers: 'num' and 'flags' are dropped. *)
Definition analyzer_of_v3 (p : BtsnoopV3.packet) : AutelV2.packet :=
  {| AutelV2.pkt_timestamp := BtsnoopV3.pkt_timestamp p;
     AutelV2.pkt_direction := BtsnoopV3.pkt_direction p;
     AutelV2.pkt_kind := match BtsnoopV3.pkt_kind p with
                         | BtsnoopV3.EVENT => AutelV2.EVENT
                         | BtsnoopV3.COMMAND => AutelV2.COMMAND
                         | BtsnoopV3.ACL => AutelV2.ACL
                         end;
     AutelV2.pkt_data := BtsnoopV3.pkt_data p |}.

(** ** [analyze_autel_protocol.py]: the capture reader and the frame
    extraction of the first analyzer

    The packet and frame dicts have the keys of the second analyzer's, so
    its records are used. *)

Module AutelV1Lower.
Import Capture.

Definition mk_packet (_ : nat) (h : rec_fields) (data : list byte) : AutelV2.packet :=
  let is_cmd_event := truthy (Z.land (flags h) 2) in
  {| AutelV2.pkt_timestamp := timestamp h;
     AutelV2.pkt_direction := if truthy (Z.land (flags h) 1) then RX else TX;
     AutelV2.pkt_kind := if is_cmd_event && truthy (Z.land (flags h) 1) then AutelV2.EVENT
                         else if is_cmd_event then AutelV2.COMMAND
                         else AutelV2.ACL;
     AutelV2.pkt_data := data |}.

Definition parse_btsnoop (file : list byte) : py (list AutelV2.packet) :=
  let '(header, f) := read BTSNOOP_HEADER_SIZE file in
  if negb (startswith header BTSNOOP_MAGIC) then Ok []
  else read_loop mk_packet f [].

(** The body of the loop of [extract_rfcomm_data]. *)
Definition extract_rfcomm_body (pkt : AutelV2.packet) : py (option AutelV2.rfcomm_packet) :=
  match AutelV2.pkt_kind pkt with
  | AutelV2.ACL =>
    let data := AutelV2.pkt_data pkt in
    if len data <? 8 then Ok None else
    acl_len ← unpack_H_le (slice data 2 4);
    if len data <? 4 + acl_len then Ok None else
    let acl_payload := slice data 4 (4 + acl_len) in
    if len acl_payload <? 4 then Ok None else
    l2cap_cid ← unpack_H_le (slice acl_payload 2 4);
    let l2cap_data := slice_from acl_payload 4 in
    if l2cap_cid <? 0x0040 then Ok None else
    if len l2cap_data <? 3 then Ok None else
    addr ← getbyte l2cap_data 0;
    control ← getbyte l2cap_data 1;
    let dlci := Z.shiftr addr 2 in
    if negb (Z.land control 0xEF =? 0xEF) then Ok None else
    length_byte ← getbyte l2cap_data 2;
    lf ← (if truthy (Z.land length_byte 1) then
            Ok (Some (Z.shiftr length_byte 1, 3))
          else if len l2cap_data <? 4 then Ok None
          else
            b3 ← getbyte l2cap_data 3;
            Ok (Some (Z.lor (Z.shiftr length_byte 1) (Z.shiftl b3 7), 4)));
    match lf with
    | None => Ok None
    | Some (payload_len, payload_start) =>
        if (len l2cap_data >=? payload_start + payload_len) && (payload_len >? 0) then
          let payload := slice l2cap_data payload_start (payload_start + payload_len) in
          Ok (Some {| AutelV2.rf_timestamp := AutelV2.pkt_timestamp pkt;
                      AutelV2.rf_direction := AutelV2.pkt_direction pkt;
                      AutelV2.rf_dlci := dlci;
                      AutelV2.rf_data := payload |})
        else Ok None
    end
  | _ => Ok None
  end.

Definition extract_rfcomm_data (packets : list AutelV2.packet)
  : py (list AutelV2.rfcomm_packet) :=
  for_append extract_rfcomm_body packets [].

(** [main], up to [classify_command] and the printed report: the frames of
    subchannel 12 with the result of [analyze_autel_packet], and those of
    them that go on to be classified. *)
Definition main (file : list byte)
  : py (list (AutelV2.rfcomm_packet * AutelV1.analysis) *
        list (AutelV2.rfcomm_packet * AutelV1.analysis)) :=
  packets ← parse_btsnoop file;
  rfcomm_packets ← extract_rfcomm_data packets;
  Ok (AutelV1.analyses rfcomm_packets, AutelV1.classified rfcomm_packets).

End AutelV1Lower.

(** ** What an information frame carries *)

(** The subchannel and the payload of an RFCOMM frame: a frame of at least
    three bytes whose control byte is [0xEF] under the mask carries the
    payload selected by its length field, on subchannel [addr >> 2]. *)
Definition uih_decode (frame : list byte) : option (Z * list byte) :=
  match frame with
  | addr :: control :: _ :: _ =>
      if Z.land (b2z control) 0xEF =? 0xEF
      then (fun p => (Z.shiftr (b2z addr) 2, p)) <$> spec_uih_payload frame
      else None
  | _ => None
  end.

(** ** Frames, whichever script extracted them *)

(** The direction, subchannel and payload of an extracted frame. *)
Definition frame_of_analyzer (r : AutelV2.rfcomm_packet) : dir * Z * list byte :=
  (AutelV2.rf_direction r, AutelV2.rf_dlci r, AutelV2.rf_data r).

Definition frame_of_v3 (r : BtsnoopV3.rfcomm_packet) : dir * Z * list byte :=
  (BtsnoopV3.rf_direction r, BtsnoopV3.rf_dlci r, BtsnoopV3.rf_data r).

(** A data record whose body holds the whole segment that its ACL header
    declares (records of another type, or too short for an ACL header,
    are not concerned). *)
Definition segment_complete (p : BtsnoopV3.packet) : bool :=
  match BtsnoopV3.pkt_kind p with
  | BtsnoopV3.ACL =>
      (len (BtsnoopV3.pkt_data p) <? 4) ||
      (4 + le2z (slice (BtsnoopV3.pkt_data p) 2 4) <=? len (BtsnoopV3.pkt_data p))
  | _ => true
  end.

(** ** Packets by their first body byte *)

(** The type byte that [parse_btsnoop_v2.py] reads, when the body is not
    empty. *)
Definition type_byte (p : BtsnoopV2.packet) : option Z :=
  b2z <$> head (BtsnoopV2.pkt_data p).

(** The packets of type [t], in order. *)
Definition typed (t : Z) (packets : list BtsnoopV2.packet) : list BtsnoopV2.packet :=
  filter (fun p => type_byte p = Some t) packets.

(** ** [parse_btsnoop_v2.py]: the ACL stage and the ATT analysis *)

Module BtsnoopV2Data.

(** The dict appended to [data_packets] by [extract_acl_data]. *)
Record data_packet : Type := {
  dp_num : Z;
  dp_direction : dir;
  dp_handle : Z;
  dp_cid : Z;
  dp_pb_flag : Z;
  dp_l2cap_data : list byte }.

(** The body of the first loop of [extract_acl_data]: the ACL header is
    read after the HCI type byte. *)
Definition extract_acl_body (pkt : BtsnoopV2.packet) : py (option data_packet) :=
  let data := BtsnoopV2.pkt_data pkt in
  if len data <? 5 then Ok None else
  handle_flags ← unpack_H_le (slice data 1 3);
  let handle := Z.land handle_flags 0x0FFF in
  let pb_flag := Z.land (Z.shiftr handle_flags 12) 0x03 in
  let bc_flag := Z.land (Z.shiftr handle_flags 14) 0x03 in
  acl_len ← unpack_H_le (slice data 3 5);
  let acl_payload := slice data 5 (5 + acl_len) in
  if len acl_payload >=? 4 then
    l2cap_len ← unpack_H_le (slice acl_payload 0 2);
    l2cap_cid ← unpack_H_le (slice acl_payload 2 4);
    let l2cap_data := slice_from acl_payload 4 in
    Ok (Some {| dp_num := BtsnoopV2.pkt_num pkt;
                dp_direction := BtsnoopV2.pkt_direction pkt;
                dp_handle := handle; dp_cid := l2cap_cid; dp_pb_flag := pb_flag;
                dp_l2cap_data := l2cap_data |})
  else Ok None.

Definition extract_acl_data (packets : list BtsnoopV2.packet) : py (list data_packet) :=
  for_append extract_acl_body packets [].

(** The value of the 'opcode' key of a [gatt_data] item. *)
Inductive gatt_opcode : Set := WRITE | NOTIFY.

(** The dict appended to [gatt_data] by [analyze_att_packets]. *)
Record gatt_item : Type := {
  g_num : Z;
  g_direction : dir;
  g_opcode : gatt_opcode;
  g_handle : Z;
  g_value : list byte }.

(** The body of the loop of [analyze_att_packets]; a read response
    (opcode [0x0B]) is only printed. *)
Definition analyze_att_body (pkt : data_packet) : py (option gatt_item) :=
  let data := dp_l2cap_data pkt in
  if len data <? 1 then Ok None else
  opcode ← getbyte data 0;
  if ((opcode =? 0x12) || (opcode =? 0x52)) && (len data >=? 3) then
    handle ← unpack_H_le (slice data 1 3);
    let value := slice_from data 3 in
    Ok (Some {| g_num := dp_num pkt; g_direction := dp_direction pkt;
                g_opcode := WRITE; g_handle := handle; g_value := value |})
  else if (opcode =? 0x1B) && (len data >=? 3) then
    handle ← unpack_H_le (slice data 1 3);
    let value := slice_from data 3 in
    Ok (Some {| g_num := dp_num pkt; g_direction := dp_direction pkt;
                g_opcode := NOTIFY; g_handle := handle; g_value := value |})
  else if (opcode =? 0x0B) && (len data >=? 1) then
    let value := slice_from data 1 in
    Ok None
  else Ok None.

Definition analyze_att_packets (data_packets : list data_packet) : py (list gatt_item) :=
  let att_packets := filter (fun p => dp_cid p = 0x0004) data_packets in
  match att_packets with
  | [] => Ok []
  | _ => for_append analyze_att_body att_packets []
  end.

End BtsnoopV2Data.

(** ** The channel table of [extract_acl_data]

    [parse_btsnoop_v2.py] and [parse_btsnoop_v3.py] count the data packets
    of every channel in a dict [channels], keyed by channel identifier,
    with the keys 'count', 'tx' and 'rx'.  The loop is the same in both
    scripts and reads only the 'cid' and 'direction' of a data packet. *)

Module Channels.

Record info : Set := { count : Z; tx : Z; rx : Z }.

Section Table.
Context {data_packet : Type} (cid : data_packet -> Z) (direction : data_packet -> dir).

(** One turn of the loop.  [channels[cid]] is read after the key has been
    added, so the lookups cannot fail. *)
Definition channels_step (channels : gmap Z info) (pkt : data_packet) : gmap Z info :=
  let c := cid pkt in
  let channels :=
    match channels !! c with
    | None => <[c := {| count := 0; tx := 0; rx := 0 |}]> channels
    | Some _ => channels
    end in
  let i := default {| count := 0; tx := 0; rx := 0 |} (channels !! c) in
  let i := {| count := count i + 1; tx := tx i; rx := rx i |} in
  let channels := <[c := i]> channels in
  let i := default {| count := 0; tx := 0; rx := 0 |} (channels !! c) in
  <[c := match direction pkt with
         | TX => {| count := count i; tx := tx i + 1; rx := rx i |}
         | RX => {| count := count i; tx := tx i; rx := rx i + 1 |}
         end]> channels.

Definition channels (data_packets : list data_packet) : gmap Z info :=
  fold_left channels_step data_packets ∅.

End Table.

End Channels.

(** The third parser's data packet without its 'l2cap_len' key, which
    [parse_btsnoop_v2.py] does not store. *)
Definition v2_data_of_v3 (dp : BtsnoopV3.data_packet) : BtsnoopV2Data.data_packet :=
  {| BtsnoopV2Data.dp_num := BtsnoopV3.dp_num dp;
     BtsnoopV2Data.dp_direction := BtsnoopV3.dp_direction dp;
     BtsnoopV2Data.dp_handle := BtsnoopV3.dp_handle dp;
     BtsnoopV2Data.dp_cid := BtsnoopV3.dp_cid dp;
     BtsnoopV2Data.dp_pb_flag := BtsnoopV3.dp_pb_flag dp;
     BtsnoopV2Data.dp_l2cap_data := BtsnoopV3.dp_l2cap_data dp |}.

(** The packets of one channel, and those of one channel and direction. *)
Definition on_channel {P} (cid : P -> Z) (c : Z) (l : list P) : list P :=
  filter (fun p => cid p = c) l.

Definition in_direction {P} (direction : P -> dir) (d : dir) (l : list P) : list P :=
  filter (fun p => Is_true (dir_eqb (direction p) d)) l.

(** What the channel table holds after the data packets [l]. *)
Definition counted {P} (cid : P -> Z) (direction : P -> dir)
    (channels : gmap Z Channels.info) (l : list P) : Prop :=
  forall c,
    match channels !! c with
    | Some i =>
        Channels.count i = len (on_channel cid c l) /\
        Channels.tx i = len (in_direction direction TX (on_channel cid c l)) /\
        Channels.rx i = len (in_direction direction RX (on_channel cid c l)) /\
        Channels.count i = Channels.tx i + Channels.rx i /\
        0 < Channels.count i
    | None => on_channel cid c l = []
    end.

(** The bytes of the file taken up by the records of the packets: a
    24-byte record header and the body, for each. *)
Definition record_bytes (packets : list BtsnoopV3.packet) : Z :=
  fold_right (fun p acc => 24 + len (BtsnoopV3.pkt_data p) + acc) 0 packets.

(** An upper-case hexadecimal digit. *)
Definition hex_digit (c : ascii) : bool :=
  let n := ord c in ((48 <=? n) && (n <=? 57)) || ((65 <=? n) && (n <=? 70)).

(** The value of an upper-case hexadecimal digit, and of a pair of them. *)
Definition hex_value (c : ascii) : Z :=
  let n := ord c in if n <=? 57 then n - 48 else n - 55.

Definition unhex2 (s : string) : option Z :=
  match s with
  | String h (String l EmptyString) => Some (16 * hex_value h + hex_value l)
  | _ => None
  end.

(** ** [get_cid_name] of [parse_btsnoop_v2.py] and [parse_btsnoop_v3.py] *)

Module CidNames.

(** The dict [names]. *)
Definition names : gmap Z string :=
  <[0x0001 := "L2CAP Signaling"%string]>
  (<[0x0002 := "Connectionless"%string]>
  (<[0x0003 := "AMP Manager"%string]>
  (<[0x0004 := "ATT (BLE)"%string]>
  (<[0x0005 := "L2CAP LE Signaling"%string]>
  (<[0x0006 := "SMP (BLE Security)"%string]> ∅))))).

Definition get_cid_name (cid : Z) : string :=
  match names !! cid with
  | Some name => name
  | None => if cid >=? 0x0040 then "Dynamic Channel"%string else "Reserved"%string
  end.

End CidNames.

(** ** Sample captures for the subchannel filter *)

(** A sent data record with timestamp 5 that carries [sent_j2534] in an
    information frame with address byte [addr] on channel 0x0040; the
    frame that the analyzers extract from it is [vendor_on_dlci] of
    [addr >> 2]. *)
Definition vendor_record_at (addr : byte) : list byte * list byte :=
  ([x00; x00; x00; x39;  x00; x00; x00; x39;  x00; x00; x00; x00;  x00; x00; x00; x00;
    x00; x00; x00; x00; x00; x00; x00; x05],
   acl_record x01 x00 x35 x00 x31 x00 x40 x00
     ([addr; xef; x5b] ++ sent_j2534 ++ [x9a]) []).

(** A capture with the message on subchannel 12 (address byte 0x31), and
    one with the message on subchannel 11 (address byte 0x2D) before it. *)
Definition capture_subchannel_12 : list byte :=
  file_header x00 x00 x03 xe9 ++ stream_of [vendor_record_at x31].

Definition capture_two_subchannels : list byte :=
  file_header x00 x00 x03 xe9 ++ stream_of [vendor_record_at x2d; vendor_record_at x31].

(** * Properties *)

Example slice_mid : slice [x00; x01; x02; x03; x04] 1 3 = [x01; x02].
Proof. reflexivity. Qed.
Example slice_clamped : slice [x00; x01; x02] 2 9 = [x02].
Proof. reflexivity. Qed.
Example format_02X_b : format_02X 11 = "0B"%string.
Proof. reflexivity. Qed.
Example format_02X_wide : format_02X 0x8003 = "8003"%string.
Proof. reflexivity. Qed.
Example bytes_hex_upper_ex : bytes_hex_upper [x5e; x01; xff] = "5E01FF"%string.
Proof. reflexivity. Qed.
Example contains_ex : contains "V2." "Mar 01 2020 V2.13" = true.
Proof. reflexivity. Qed.

(** ** Python primitives *)

Section PyFacts.

Lemma b2z_range (b : byte) : 0 <= b2z b < 256.
Proof. unfold b2z. pose proof (Byte.to_N_bounded b). lia. Qed.

Lemma len_nonneg {A} (l : list A) : 0 <= len l.
Proof. unfold len. lia. Qed.

Lemma le2z_nonneg (bs : list byte) : 0 <= le2z bs.
Proof. induction bs as [|b bs IH]; simpl; [lia|]. pose proof (b2z_range b). lia. Qed.

Lemma le2z_bound (bs : list byte) : le2z bs < 256 ^ len bs.
Proof.
  induction bs as [|b bs IH]; simpl; [reflexivity|].
  unfold len in *. simpl length. rewrite Nat2Z.inj_succ, Z.pow_succ_r by lia.
  pose proof (b2z_range b). lia.
Qed.

(** A slice with both ends inside the list. *)
Lemma slice_inside {A} (l : list A) (i j : Z) :
  0 <= i -> i <= j -> j <= len l ->
  slice l i j = firstn (Z.to_nat (j - i)) (skipn (Z.to_nat i) l).
Proof.
  intros Hi Hij Hj. unfold slice, norm_index.
  destruct (Z.ltb_spec i 0), (Z.ltb_spec j 0); try lia.
  rewrite !Z.min_l by lia. reflexivity.
Qed.

Lemma slice_length {A} (l : list A) (i j : Z) :
  0 <= i -> i <= j -> j <= len l -> length (slice l i j) = Z.to_nat (j - i).
Proof.
  intros Hi Hij Hj. rewrite slice_inside by assumption.
  rewrite length_firstn, length_skipn. unfold len in Hj. lia.
Qed.

Lemma slice_len {A} (l : list A) (i j : Z) :
  0 <= i -> i <= j -> j <= len l -> len (slice l i j) = j - i.
Proof. intros. unfold len. rewrite slice_length by assumption. lia. Qed.

(** Elements of a slice with non-negative ends. *)
Lemma slice_lookup {A} (l : list A) (i j : Z) (k : nat) :
  0 <= i -> 0 <= j ->
  slice l i j !! k =
    if Z.of_nat k <? Z.min j (len l) - Z.min i (len l)
    then l !! (Z.to_nat i + k)%nat else None.
Proof.
  intros Hi Hj. unfold slice, norm_index.
  destruct (Z.ltb_spec i 0), (Z.ltb_spec j 0); try lia.
  destruct (Z.ltb_spec (Z.of_nat k) (Z.min j (len l) - Z.min i (len l))) as [Hk|Hk].
  - rewrite lookup_take_lt by lia. rewrite lookup_drop.
    f_equal. unfold len in *. lia.
  - apply lookup_ge_None. rewrite length_firstn. lia.
Qed.

(** Two lists that agree on [[i, j)] and have the same length have the same
    slice there. *)
Lemma slice_ext {A} (l1 l2 : list A) (i j : Z) :
  0 <= i -> 0 <= j -> length l1 = length l2 ->
  (forall k : nat, i <= Z.of_nat k < j -> l1 !! k = l2 !! k) ->
  slice l1 i j = slice l2 i j.
Proof.
  intros Hi Hj Hlen Hagree. apply list_eq. intros k.
  rewrite !slice_lookup by assumption. unfold len. rewrite Hlen.
  destruct (Z.ltb_spec (Z.of_nat k)
    (Z.min j (Z.of_nat (length l2)) - Z.min i (Z.of_nat (length l2)))); [|reflexivity].
  apply Hagree. lia.
Qed.

Lemma unpack_le_ok (n : nat) (b : list byte) :
  length b = n -> unpack_le n b = Ok (le2z b).
Proof. intros H. unfold unpack_le. rewrite H, Nat.eqb_refl. reflexivity. Qed.

Lemma unpack_le_slice (n : nat) (data : list byte) (i : Z) :
  0 <= i -> i + Z.of_nat n <= len data ->
  unpack_le n (slice data i (i + Z.of_nat n)) = Ok (le2z (slice data i (i + Z.of_nat n))).
Proof. intros. apply unpack_le_ok. rewrite slice_length by lia. lia. Qed.

Lemma bytes_eqb_eq (a b : list byte) : bytes_eqb a b = true <-> a = b.
Proof.
  revert b. induction a as [|x a IH]; intros [|y b]; simpl; split;
    try congruence; try discriminate.
  - intros [Hxy Hab]%andb_prop. apply Byte.byte_dec_bl in Hxy. apply IH in Hab.
    congruence.
  - intros [= -> ->]. rewrite (Byte.byte_dec_lb eq_refl). simpl. apply IH. reflexivity.
Qed.

(** [startswith] compares the first [len p] bytes. *)
Lemma startswith_firstn (b p : list byte) :
  startswith b p = true <-> firstn (length p) b = p.
Proof.
  revert b. induction p as [|y p IH]; intros b; simpl.
  - split; reflexivity.
  - destruct b as [|x b]; simpl; [split; discriminate|].
    rewrite andb_true_iff, IH. split.
    + intros [Hxy ->]. apply Byte.byte_dec_bl in Hxy. congruence.
    + intros [= -> Hp]. rewrite Hp. split; [apply Byte.byte_dec_lb|]; reflexivity.
Qed.

Lemma slice_prefix {A} (l : list A) (n : nat) :
  slice l 0 (Z.of_nat n) = firstn n l.
Proof.
  unfold slice, norm_index. simpl (0 <? 0).
  destruct (Z.ltb_spec (Z.of_nat n) 0); [lia|]. cbv iota.
  rewrite (Z.min_l 0) by apply len_nonneg. simpl skipn. rewrite Z.sub_0_r.
  unfold len. destruct (Nat.le_gt_cases n (length l)).
  - rewrite Z.min_l by lia. rewrite Nat2Z.id. reflexivity.
  - rewrite Z.min_r by lia. rewrite Nat2Z.id.
    rewrite firstn_all, firstn_all2 by lia. reflexivity.
Qed.

Lemma startswith_slice (b p : list byte) :
  startswith b p = true <-> slice b 0 (len p) = p.
Proof. unfold len. rewrite slice_prefix. apply startswith_firstn. Qed.

(** [startswith] only looks at the first [len p] positions. *)
Lemma startswith_ext (b1 b2 p : list byte) :
  (forall k : nat, (k < length p)%nat -> b1 !! k = b2 !! k) ->
  startswith b1 p = startswith b2 p.
Proof.
  revert b1 b2. induction p as [|y p IH]; intros b1 b2 Hk; simpl; [reflexivity|].
  pose proof (Hk 0%nat ltac:(simpl; lia)) as H0.
  destruct b1 as [|x1 b1], b2 as [|x2 b2]; simpl in H0; try discriminate; [reflexivity|].
  injection H0 as ->. f_equal. apply IH. intros k Hlt.
  apply (Hk (S k)). simpl. lia.
Qed.

(** A loop whose body never raises returns the items its body yields, in
    order. *)
Lemma for_append_ok {A B} (body : A -> py (option B)) (f : A -> option B)
    (l : list A) (acc : list B) :
  (forall x, In x l -> body x = Ok (f x)) ->
  for_append body l acc = Ok (acc ++ omap f l).
Proof.
  revert acc. induction l as [|x l IH]; intros acc Hb; simpl.
  - rewrite app_nil_r. reflexivity.
  - rewrite (Hb x) by (left; reflexivity). simpl.
    rewrite IH by (intros; apply Hb; right; assumption).
    destruct (f x); simpl; [rewrite <- app_assoc|]; reflexivity.
Qed.

End PyFacts.

(** ** The vendor message parser of [analyze_autel_protocol_v2.py] *)

Section AutelV2Facts.
Import AutelV2.

Lemma magic_offset_range data direction offset :
  magic_offset data direction = Some offset -> offset = 0 \/ offset = 1.
Proof.
  unfold magic_offset. destruct direction.
  - destruct (startswith data AUTEL_MAGIC); simpl; intros [= <-]; auto.
  - destruct (startswith data (x00 :: AUTEL_MAGIC)); [intros [= <-]; auto|].
    destruct (startswith data AUTEL_MAGIC); intros [= <-]; auto.
Qed.

Lemma startswith_magic_at data : startswith data AUTEL_MAGIC = true <-> magic_at data 0.
Proof. apply (startswith_slice data AUTEL_MAGIC). Qed.

Lemma startswith_zero_magic data :
  startswith data (x00 :: AUTEL_MAGIC) = true <-> zero_prefixed data /\ magic_at data 1.
Proof.
  rewrite startswith_firstn. unfold zero_prefixed, magic_at, AUTEL_MAGIC.
  change 1 with (Z.of_nat 1) at 1. rewrite slice_prefix.
  split.
  - intros H. assert (5 <= len data).
    { apply (f_equal length) in H. rewrite length_firstn in H. unfold len.
      simpl length in H. lia. }
    rewrite slice_inside by lia.
    destruct data as [|a [|b [|c [|d [|e rest]]]]]; try discriminate.
    simpl in H. injection H as -> -> -> -> ->. split; reflexivity.
  - intros [H0 H1].
    destruct data as [|a [|b [|c [|d [|e rest]]]]];
      try (vm_compute in H1; discriminate); try (vm_compute in H0; discriminate).
    simpl in H0. injection H0 as ->.
    rewrite slice_inside in H1 by (unfold len; simpl length; lia).
    simpl in H1. injection H1 as -> -> -> ->. reflexivity.
Qed.

Lemma magic_offset_magic_at data direction offset :
  magic_offset data direction = Some offset -> magic_at data offset.
Proof.
  unfold magic_offset. destruct direction.
  - destruct (startswith data AUTEL_MAGIC) eqn:E; simpl; intros [= <-].
    apply startswith_magic_at, E.
  - destruct (startswith data (x00 :: AUTEL_MAGIC)) eqn:E1.
    + intros [= <-]. apply startswith_zero_magic in E1. apply E1.
    + destruct (startswith data AUTEL_MAGIC) eqn:E; intros [= <-].
      apply startswith_magic_at, E.
Qed.

(** With 36 bytes after the offset every field of the header decodes. *)
Lemma unpack_header_ok data offset :
  0 <= offset -> offset + 36 <= len data ->
  unpack_header data offset =
    Ok {| total_len := le2z (slice data (offset + 4) (offset + 8));
          session_id := le2z (slice data (offset + 8) (offset + 12));
          msg_counter := le2z (slice data (offset + 12) (offset + 16));
          payload_len := le2z (slice data (offset + 16) (offset + 20));
          hflags := le2z (slice data (offset + 24) (offset + 28));
          status := le2z (slice data (offset + 28) (offset + 32));
          reserved := le2z (slice data (offset + 32) (offset + 36)) |}.
Proof.
  intros Ho Hlen. unfold unpack_header, unpack_I_le.
  repeat (rewrite unpack_le_ok by (rewrite slice_length by lia; lia); simpl).
  reflexivity.
Qed.

Lemma parse_autel_packet_parsed data direction offset :
  magic_offset data direction = Some offset ->
  offset + 40 <= len data ->
  let r := parse_autel_packet data direction in
  let total := le2z (slice data (offset + 4) (offset + 8)) in
  r_valid r = true /\ r_short r = Some false /\ r_error r = None /\
  unpack_header data offset = Ok (default (Build_header 0 0 0 0 0 0 0) (r_hdr r)) /\
  is_Some (r_hdr r) /\
  r_payload r = payload_of data offset total /\
  r_crc r = check_of data offset total /\
  r_ascii r = r_payload r ≫= ascii_excerpt.
Proof.
  intros Hoff Hlen. pose proof (magic_offset_range _ _ _ Hoff) as Hr.
  cbv zeta. unfold parse_autel_packet. rewrite Hoff.
  destruct (Z.ltb_spec (len data) (offset + 40)); [lia|].
  unfold try_block, unpack_I_le. rewrite unpack_header_ok by lia.
  unfold payload_of, check_of. cbn [total_len].
  set (total := le2z (slice data (offset + 4) (offset + 8))).
  assert (0 <= total) by apply le2z_nonneg.
  rewrite (Z.gtb_ltb (offset + 4 + total - 4)).
  destruct (Z.ltb_spec (offset + 36) (offset + 4 + total - 4)) as [Hne|Hne];
    simpl andb.
  - destruct (Z.leb_spec (offset + 4 + total - 4) (len data)) as [Hin|Hin].
    + destruct (Z.leb_spec (offset + 4 + total - 4 + 4) (len data)) as [Hc|Hc].
      * rewrite unpack_le_ok by (rewrite slice_length by lia; lia).
        destruct (ascii_excerpt _) eqn:Ea; simpl; rewrite ?Ea; repeat split; eauto.
      * destruct (ascii_excerpt _) eqn:Ea; simpl; rewrite ?Ea; repeat split; eauto.
    + destruct (Z.leb_spec (offset + 4 + total - 4 + 4) (len data)); [lia|].
      simpl. repeat split; eauto.
  - simpl. repeat split; eauto.
Qed.

(** The header stored in the result is the one decoded at the offset. *)
Lemma parse_autel_packet_header data direction offset h :
  magic_offset data direction = Some offset ->
  offset + 40 <= len data ->
  r_hdr (parse_autel_packet data direction) = Some h ->
  total_len h = le2z (slice data (offset + 4) (offset + 8)) /\
  payload_len h = le2z (slice data (offset + 16) (offset + 20)).
Proof.
  intros Hoff Hlen Hh.
  destruct (parse_autel_packet_parsed _ _ _ Hoff Hlen) as (_ & _ & _ & Hu & _).
  rewrite Hh in Hu. simpl in Hu.
  pose proof (magic_offset_range _ _ _ Hoff).
  rewrite unpack_header_ok in Hu by lia. injection Hu as <-. split; reflexivity.
Qed.

Lemma magic_offset_ext data data' direction :
  (forall k : nat, (k < 5)%nat -> data !! k = data' !! k) ->
  magic_offset data' direction = magic_offset data direction.
Proof.
  intros Hk. unfold magic_offset.
  rewrite (startswith_ext data' data AUTEL_MAGIC)
    by (intros k Hlt; symmetry; apply Hk; simpl in Hlt; lia).
  rewrite (startswith_ext data' data (x00 :: AUTEL_MAGIC))
    by (intros k Hlt; symmetry; apply Hk; simpl in Hlt; lia).
  reflexivity.
Qed.

Lemma payload_of_ext data data' offset total :
  0 <= offset -> 0 <= total ->
  agree_outside (offset + 16) (offset + 20) data data' ->
  payload_of data' offset total = payload_of data offset total /\
  check_of data' offset total = check_of data offset total.
Proof.
  intros Ho Ht [Hlen Hagree]. unfold payload_of, check_of, len.
  rewrite <- Hlen.
  destruct (Z.ltb_spec (offset + 36) (offset + 4 + total - 4)) as [Hne|Hne];
    simpl; [|split; reflexivity].
  rewrite (slice_ext data' data (offset + 36) (offset + 4 + total - 4))
    by (try lia; intros; symmetry; apply Hagree; lia).
  rewrite (slice_ext data' data (offset + 4 + total - 4) (offset + 4 + total - 4 + 4))
    by (try lia; intros; symmetry; apply Hagree; lia).
  split; reflexivity.
Qed.

End AutelV2Facts.

(** C1.  For a parsed, non-short vendor message the payload is the slice
    [[offset+36, offset+4+total_length-4)] of the frame, taken exactly when
    that interval is not empty and ends inside the frame; the check value
    is the little-endian 32-bit integer in the four bytes after that slice
    whenever they fit in the frame; and both depend on the total length
    only, not on the payload length field: a frame that differs from
    [data] in the four bytes of that field alone gives the same payload
    and the same check value. *)
Theorem parse_autel_packet_payload_slice data direction offset :
  AutelV2.magic_offset data direction = Some offset ->
  offset + 40 <= len data ->
  let r := AutelV2.parse_autel_packet data direction in
  exists h,
    AutelV2.r_hdr r = Some h /\
    AutelV2.total_len h = le2z (slice data (offset + 4) (offset + 8)) /\
    AutelV2.payload_len h = le2z (slice data (offset + 16) (offset + 20)) /\
    AutelV2.r_payload r = payload_of data offset (AutelV2.total_len h) /\
    AutelV2.r_crc r = check_of data offset (AutelV2.total_len h) /\
    forall data',
      agree_outside (offset + 16) (offset + 20) data data' ->
      AutelV2.r_payload (AutelV2.parse_autel_packet data' direction) = AutelV2.r_payload r /\
      AutelV2.r_crc (AutelV2.parse_autel_packet data' direction) = AutelV2.r_crc r.
Proof.
  intros Hoff Hlen r.
  destruct (parse_autel_packet_parsed _ _ _ Hoff Hlen)
    as (_ & _ & _ & _ & [h Hh] & Hp & Hc & _).
  destruct (parse_autel_packet_header _ _ _ _ Hoff Hlen Hh) as [Ht Hpl].
  exists h. subst r. rewrite Ht. repeat split; try assumption.
  - intros. rewrite Hp.
    pose proof (magic_offset_range _ _ _ Hoff) as Ho.
    assert (Hoff' : AutelV2.magic_offset data' direction = Some offset).
    { rewrite <- Hoff. apply magic_offset_ext. intros k Hk. apply H. lia. }
    assert (Hlen' : offset + 40 <= len data').
    { unfold len in *. destruct H as [<- _]. exact Hlen. }
    destruct (parse_autel_packet_parsed _ _ _ Hoff' Hlen')
      as (_ & _ & _ & _ & _ & Hp' & _).
    rewrite Hp'.
    rewrite (slice_ext data' data (offset + 4) (offset + 8))
      by (destruct H as [Hl Ha]; try lia; intros; symmetry; apply Ha; lia).
    apply payload_of_ext; [lia|apply le2z_nonneg|exact H].
  - intros. rewrite Hc.
    pose proof (magic_offset_range _ _ _ Hoff) as Ho.
    assert (Hoff' : AutelV2.magic_offset data' direction = Some offset).
    { rewrite <- Hoff. apply magic_offset_ext. intros k Hk. apply H. lia. }
    assert (Hlen' : offset + 40 <= len data').
    { unfold len in *. destruct H as [<- _]. exact Hlen. }
    destruct (parse_autel_packet_parsed _ _ _ Hoff' Hlen')
      as (_ & _ & _ & _ & _ & _ & Hc' & _).
    rewrite Hc'.
    rewrite (slice_ext data' data (offset + 4) (offset + 8))
      by (destruct H as [Hl Ha]; try lia; intros; symmetry; apply Ha; lia).
    apply payload_of_ext; [lia|apply le2z_nonneg|exact H].
Qed.

(** The sample message with payload length field 0 and total length 41
    yields the five payload bytes and the check value 0x04030201. *)
Lemma parse_autel_packet_payload_slice_witness :
  exists h,
    AutelV2.r_hdr (AutelV2.parse_autel_packet sent_j2534 TX) = Some h /\
    AutelV2.payload_len h = 0 /\
    AutelV2.r_payload (AutelV2.parse_autel_packet sent_j2534 TX)
      = Some [x4a; x32; x35; x33; x34] /\
    AutelV2.r_crc (AutelV2.parse_autel_packet sent_j2534 TX) = Some 0x04030201.
Proof.
  destruct (parse_autel_packet_payload_slice sent_j2534 TX 0)
    as (h & Hh & Ht & Hpl & Hp & Hc & _).
  - reflexivity.
  - unfold len. simpl. lia.
  - exists h. rewrite Hp, Hc, Ht, Hpl. repeat split; try assumption; reflexivity.
Defined.

(** C10.  A parsed message whose total length is at most 36, so that the
    payload interval is empty, carries no payload, no check value and no
    ASCII excerpt, although a non-short frame always has at least four
    bytes after the header. *)
Theorem header_only_message_is_bare data direction offset h :
  AutelV2.magic_offset data direction = Some offset ->
  offset + 40 <= len data ->
  AutelV2.r_hdr (AutelV2.parse_autel_packet data direction) = Some h ->
  AutelV2.total_len h <= 36 ->
  let r := AutelV2.parse_autel_packet data direction in
  offset + 4 + AutelV2.total_len h - 4 <= offset + 36 /\
  len (slice data (offset + 36) (offset + 40)) = 4 /\
  AutelV2.r_payload r = None /\
  AutelV2.r_crc r = None /\
  AutelV2.r_ascii r = None.
Proof.
  intros Hoff Hlen Hh Ht r. subst r.
  destruct (parse_autel_packet_parsed _ _ _ Hoff Hlen)
    as (_ & _ & _ & _ & _ & Hp & Hc & Ha).
  destruct (parse_autel_packet_header _ _ _ _ Hoff Hlen Hh) as [Ht' _].
  pose proof (magic_offset_range _ _ _ Hoff).
  rewrite Ha, Hp, Hc, <- Ht'. unfold payload_of, check_of.
  destruct (Z.ltb_spec (offset + 36) (offset + 4 + AutelV2.total_len h - 4)); [lia|].
  simpl. rewrite slice_len by lia. repeat split; lia.
Qed.

Lemma header_only_message_is_bare_witness :
  let r := AutelV2.parse_autel_packet sent_header_only TX in
  slice sent_header_only 36 40 = [x01; x02; x03; x04] /\
  AutelV2.r_payload r = None /\ AutelV2.r_crc r = None /\ AutelV2.r_ascii r = None.
Proof.
  destruct (header_only_message_is_bare sent_header_only TX 0
              (AutelV2.Build_header 36 7 9 0 0xFFFFFFFF 0 0))
    as (_ & _ & Hp & Hc & Ha).
  - reflexivity.
  - unfold len. simpl. lia.
  - reflexivity.
  - simpl. lia.
  - split; [reflexivity|]. repeat split; assumption.
Defined.

(** ** Magic resolution in the two analyzers *)

Section MagicFacts.

Lemma parse_autel_packet_no_error data direction :
  AutelV2.r_error (AutelV2.parse_autel_packet data direction) = None.
Proof.
  destruct (AutelV2.magic_offset data direction) as [offset|] eqn:Hoff.
  - destruct (Z.lt_ge_cases (len data) (offset + 40)) as [Hs|Hs].
    + unfold AutelV2.parse_autel_packet. rewrite Hoff.
      apply Z.ltb_lt in Hs. rewrite Hs. reflexivity.
    + apply (parse_autel_packet_parsed _ _ _ Hoff). lia.
  - unfold AutelV2.parse_autel_packet. rewrite Hoff. reflexivity.
Qed.

Lemma parse_autel_packet_valid data direction :
  AutelV2.r_valid (AutelV2.parse_autel_packet data direction) = true <->
  is_Some (AutelV2.magic_offset data direction).
Proof.
  unfold AutelV2.parse_autel_packet.
  destruct (AutelV2.magic_offset data direction) as [offset|] eqn:Hoff.
  - split; [eauto|intros _].
    destruct (len data <? offset + 40); [reflexivity|].
    destruct (AutelV2.try_block _ _ _) as [r [e|]] eqn:Et; simpl.
    all: unfold AutelV2.try_block in Et;
      destruct (AutelV2.unpack_header data offset);
      repeat match type of Et with
             | context [if ?c then _ else _] => destruct c
             | context [match ?c with _ => _ end] => destruct c
             end;
      injection Et as <-; try discriminate; reflexivity.
  - split; [discriminate|intros [? [=]]].
Qed.

Lemma is_Some_None_False {A} : is_Some (@None A) -> False.
Proof. intros [? [=]]. Qed.

Ltac form_crush :=
  intros;
  repeat match goal with
         | H : is_Some None |- _ => destruct (is_Some_None_False H)
         | H : _ /\ _ |- _ => destruct H
         | H : false = true |- _ => discriminate H
         | H : Some _ = Some _ |- _ => injection H as H
         | H : TX = RX |- _ => discriminate H
         | H : None = Some _ |- _ => discriminate H
         end;
  try solve [eexists; reflexivity]; try reflexivity; try lia; auto.

Lemma magic_offset_v2_form data direction :
  is_Some (AutelV2.magic_offset data direction) <-> vendor_form direction data.
Proof.
  unfold AutelV2.magic_offset, vendor_form. destruct direction.
  - rewrite <- startswith_magic_at.
    destruct (startswith data AutelV2.AUTEL_MAGIC); simpl; split; form_crush.
  - rewrite <- startswith_magic_at, <- startswith_zero_magic.
    destruct (startswith data (x00 :: AutelV2.AUTEL_MAGIC)); [split; form_crush|].
    destruct (startswith data AutelV2.AUTEL_MAGIC); split; form_crush.
    all: try (intros [|]; form_crush).
Qed.

Lemma magic_offset_v2_one data direction :
  AutelV2.magic_offset data direction = Some 1 <->
  direction = RX /\ zero_prefixed data /\ magic_at data 1.
Proof.
  unfold AutelV2.magic_offset. destruct direction.
  - destruct (startswith data AutelV2.AUTEL_MAGIC); simpl; split; form_crush.
  - rewrite <- startswith_zero_magic.
    destruct (startswith data (x00 :: AutelV2.AUTEL_MAGIC)); [split; form_crush|].
    destruct (startswith data AutelV2.AUTEL_MAGIC); split; form_crush.
Qed.

Lemma zero_magic_eqb data :
  bytes_eqb (slice data 0 1) [x00] && bytes_eqb (slice data 1 5) AutelV1.AUTEL_MAGIC = true
  <-> zero_prefixed data /\ magic_at data 1.
Proof. rewrite andb_true_iff, !bytes_eqb_eq. reflexivity. Qed.

Lemma magic_offset_v1_form data direction :
  is_Some (AutelV1.magic_offset data direction) <->
  vendor_form direction data /\ (direction = RX -> 5 <= len data).
Proof.
  unfold AutelV1.magic_offset, vendor_form. destruct direction.
  - rewrite <- startswith_magic_at. change AutelV1.AUTEL_MAGIC with AutelV2.AUTEL_MAGIC.
    destruct (startswith data AutelV2.AUTEL_MAGIC); simpl; split; form_crush.
    all: try (split; form_crush).
  - rewrite <- startswith_magic_at, <- zero_magic_eqb.
    change AutelV1.AUTEL_MAGIC with AutelV2.AUTEL_MAGIC.
    destruct (Z.ltb_spec (len data) 5).
    + split; [form_crush|intros [_ Hl]; specialize (Hl eq_refl); lia].
    + destruct (bytes_eqb (slice data 0 1) [x00] &&
                bytes_eqb (slice data 1 5) AutelV2.AUTEL_MAGIC);
        [split; form_crush|].
      destruct (startswith data AutelV2.AUTEL_MAGIC); split; form_crush.
      all: try (intros [[|] _]; form_crush).
Qed.

Lemma magic_offset_v1_range data direction offset :
  AutelV1.magic_offset data direction = Some offset ->
  (offset = 4 \/ offset = 5) /\ magic_at data (offset - 4) /\
  (offset = 5 <-> direction = RX /\ zero_prefixed data /\ magic_at data 1).
Proof.
  unfold AutelV1.magic_offset. change AutelV1.AUTEL_MAGIC with AutelV2.AUTEL_MAGIC.
  destruct direction.
  - destruct (startswith data AutelV2.AUTEL_MAGIC) eqn:E; simpl; intros [= <-].
    apply startswith_magic_at in E. repeat split; form_crush.
  - destruct (len data <? 5); [discriminate|].
    destruct (bytes_eqb (slice data 0 1) [x00] &&
              bytes_eqb (slice data 1 5) AutelV2.AUTEL_MAGIC) eqn:E1.
    + intros [= <-]. apply zero_magic_eqb in E1. repeat split; form_crush.
    + destruct (startswith data AutelV2.AUTEL_MAGIC) eqn:E; intros [= <-].
      apply startswith_magic_at in E. repeat split; form_crush.
      apply not_true_iff_false in E1. exfalso. apply E1.
      apply zero_magic_eqb. auto.
Qed.

Lemma analyze_autel_packet_valid data direction :
  AutelV1.a_valid (AutelV1.analyze_autel_packet data direction) = true <->
  is_Some (AutelV1.magic_offset data direction).
Proof.
  unfold AutelV1.analyze_autel_packet.
  destruct (AutelV1.magic_offset data direction) as [offset|].
  - split; [eauto|intros _].
    destruct (len data <? offset + 36); [reflexivity|].
    destruct (AutelV1.unpack_header data offset); [|reflexivity].
    destruct (len data >? offset + 36); reflexivity.
  - split; [discriminate|intros [? [=]]].
Qed.

End MagicFacts.

(** C2, as it holds in the code.  Both analyzers resolve the magic by
    direction: a sent frame is a vendor message exactly when the magic is
    at position 0, a received frame when a zero byte precedes the magic
    (tried first) or the magic is at position 0; a frame of neither shape
    is the bare invalid result, with no error recorded.  In
    [analyze_autel_protocol_v2.py] the resolved offset is the position of
    the magic, 0 or 1.  In [analyze_autel_protocol.py] the resolved offset
    is 4 or 5 and is the position just past the magic, which sits at
    [data[offset-4:offset]]; that analyzer also rejects a received frame of
    fewer than five bytes. *)
Theorem magic_resolution data direction :
  let r := AutelV2.parse_autel_packet data direction in
  let a := AutelV1.analyze_autel_packet data direction in
  (AutelV2.r_valid r = true <-> vendor_form direction data) /\
  (forall offset, AutelV2.magic_offset data direction = Some offset ->
     AutelV2.r_valid r = true /\ magic_at data offset /\
     (offset = 0 \/ offset = 1) /\
     (offset = 1 <-> direction = RX /\ zero_prefixed data /\ magic_at data 1)) /\
  (~ vendor_form direction data -> r = AutelV2.result0 false direction None) /\
  AutelV2.r_error r = None /\
  (AutelV1.a_valid a = true <->
     vendor_form direction data /\ (direction = RX -> 5 <= len data)) /\
  (forall offset, AutelV1.magic_offset data direction = Some offset ->
     AutelV1.a_valid a = true /\ magic_at data (offset - 4) /\
     (offset = 4 \/ offset = 5) /\
     (offset = 5 <-> direction = RX /\ zero_prefixed data /\ magic_at data 1)) /\
  (AutelV1.a_valid a = false -> a = AutelV1.result0 false None None).
Proof.
  cbv zeta.
  split; [|split; [|split; [|split; [|split; [|split]]]]].
  - rewrite parse_autel_packet_valid. apply magic_offset_v2_form.
  - intros offset Hoff.
    split; [|split; [|split]].
    + apply parse_autel_packet_valid. rewrite Hoff. eauto.
    + eapply magic_offset_magic_at, Hoff.
    + eapply magic_offset_range, Hoff.
    + rewrite <- magic_offset_v2_one. rewrite Hoff. split; congruence.
  - intros Hn. rewrite <- magic_offset_v2_form in Hn.
    unfold AutelV2.parse_autel_packet.
    destruct (AutelV2.magic_offset data direction); [|reflexivity].
    exfalso. apply Hn. eauto.
  - apply parse_autel_packet_no_error.
  - rewrite analyze_autel_packet_valid. apply magic_offset_v1_form.
  - intros offset Hoff.
    destruct (magic_offset_v1_range _ _ _ Hoff) as (Hr & Hm & H5).
    split; [|split; [|split]]; try assumption.
    apply analyze_autel_packet_valid. rewrite Hoff. eauto.
  - intros Hv. unfold AutelV1.analyze_autel_packet in *.
    destruct (AutelV1.magic_offset data direction) as [offset|]; [|reflexivity].
    destruct (len data <? offset + 36); [discriminate|].
    destruct (AutelV1.unpack_header data offset); [|discriminate].
    destruct (len data >? offset + 36); discriminate.
Qed.

Lemma magic_resolution_witness :
  magic_at sent_j2534 0 /\ magic_at sent_j2534 (4 - 4).
Proof.
  destruct (magic_resolution sent_j2534 TX) as (_ & H2 & _ & _ & _ & H1 & _).
  split; [apply (H2 0 eq_refl)|apply (H1 4 eq_refl)].
Defined.

(** C2 as stated fails on [analyze_autel_protocol.py].  For the sample sent
    message that analyzer produces a parsed result with offset 4, and the
    four bytes at [data[4:8]] are the total length, not the magic.  And a
    received frame that consists of the magic alone has the magic at
    position 0 but is invalid for that analyzer (it is a valid, short
    message for the second one). *)
Lemma first_analyzer_offset_is_past_magic :
  (AutelV1.a_valid (AutelV1.analyze_autel_packet sent_j2534 TX) = true /\
   AutelV1.a_short (AutelV1.analyze_autel_packet sent_j2534 TX) = Some false /\
   AutelV1.magic_offset sent_j2534 TX = Some 4 /\
   ~ magic_at sent_j2534 4) /\
  (vendor_form RX AutelV1.AUTEL_MAGIC /\
   AutelV1.a_valid (AutelV1.analyze_autel_packet AutelV1.AUTEL_MAGIC RX) = false /\
   AutelV2.r_valid (AutelV2.parse_autel_packet AutelV2.AUTEL_MAGIC RX) = true).
Proof.
  split.
  - repeat split; try reflexivity. unfold magic_at. vm_compute. discriminate.
  - split; [right; reflexivity|]. split; reflexivity.
Qed.

(** ** The RFCOMM length field *)

Section UihFacts.

Lemma len_cons {A} (x : A) (l : list A) : len (x :: l) = 1 + len l.
Proof. unfold len. simpl length. lia. Qed.

Lemma len_app {A} (l k : list A) : len (l ++ k) = len l + len k.
Proof. unfold len. rewrite length_app. lia. Qed.

Lemma len_nil {A} : len (@nil A) = 0.
Proof. reflexivity. Qed.

Lemma truthy_low_bit (x : Z) : truthy (Z.land x 1) = Z.testbit x 0.
Proof.
  unfold truthy. change 1 with (Z.ones 1). rewrite Z.land_ones by lia.
  rewrite Z.bit0_odd, Z.pow_1_r, Zmod_odd. destruct (Z.odd x); reflexivity.
Qed.

Lemma spec_uih_take_length frame n start p :
  0 <= start -> 0 <= n -> spec_uih_take frame n start = Some p ->
  0 < n /\ start + n <= len frame /\ len p = n /\ p = slice frame start (start + n).
Proof.
  intros Hs Hn. unfold spec_uih_take.
  destruct (Z.eqb_spec n 0); [discriminate|].
  destruct (Z.ltb_spec (len frame - start) n); [discriminate|].
  simpl. intros [= <-]. rewrite slice_len by lia. repeat split; lia.
Qed.

(** The last test of the three loops, against the specification's. *)
Lemma take_v2 {B} (frame : list byte) (n start : Z) (mk : list byte -> B) :
  0 <= n ->
  (if (len frame >=? start + n) && (n >? 0)
   then Ok (Some (mk (slice frame start (start + n)))) else Ok None)
  = Ok (mk <$> spec_uih_take frame n start).
Proof.
  intros Hn. unfold spec_uih_take. rewrite Z.geb_leb, Z.gtb_ltb.
  destruct (Z.leb_spec (start + n) (len frame)), (Z.ltb_spec 0 n),
    (Z.eqb_spec n 0), (Z.ltb_spec (len frame - start) n); simpl; try reflexivity; lia.
Qed.

Lemma take_v3 {B} (frame : list byte) (n start : Z) (mk : list byte -> B) :
  0 <= n ->
  (if len frame >=? start + n
   then if n >? 0 then Ok (Some (mk (slice frame start (start + n)))) else Ok None
   else Ok None)
  = Ok (mk <$> spec_uih_take frame n start).
Proof.
  intros Hn. unfold spec_uih_take. rewrite Z.geb_leb, Z.gtb_ltb.
  destruct (Z.leb_spec (start + n) (len frame)), (Z.ltb_spec 0 n),
    (Z.eqb_spec n 0), (Z.ltb_spec (len frame - start) n); simpl; try reflexivity; lia.
Qed.

Lemma analyze_rfcomm_body_uih pkt addr control lb rest :
  BtsnoopV3.dp_l2cap_data pkt = addr :: control :: lb :: rest ->
  Z.land (b2z control) 0xEF = 0xEF ->
  BtsnoopV3.analyze_rfcomm_body pkt =
    Ok ((fun p => {| BtsnoopV3.rf_num := BtsnoopV3.dp_num pkt;
                     BtsnoopV3.rf_direction := BtsnoopV3.dp_direction pkt;
                     BtsnoopV3.rf_dlci := Z.shiftr (b2z addr) 2;
                     BtsnoopV3.rf_data := p |})
        <$> spec_uih_payload (addr :: control :: lb :: rest)).
Proof.
  intros Hd Hc. unfold BtsnoopV3.analyze_rfcomm_body. rewrite Hd.
  assert (Hl : len (addr :: control :: lb :: rest) = 3 + len rest)
    by (rewrite !len_cons; lia).
  pose proof (len_nonneg rest).
  destruct (Z.ltb_spec (len (addr :: control :: lb :: rest)) 3); [lia|].
  cbn [getbyte getitem nth_error fmap py_fmap mbind py_bind].
  rewrite Hc. cbn [Z.eqb Pos.eqb]. rewrite truthy_low_bit.
  cbn [spec_uih_payload].
  destruct (Z.testbit (b2z lb) 0).
  - cbn [mbind py_bind]. apply take_v3. apply Z.shiftr_nonneg, b2z_range.
  - destruct rest as [|b1 rest'].
    + rewrite Hl. reflexivity.
    + assert (Hl' : len (addr :: control :: lb :: b1 :: rest') = 4 + len rest')
        by (rewrite !len_cons; lia).
      pose proof (len_nonneg rest').
      destruct (Z.ltb_spec (len (addr :: control :: lb :: b1 :: rest')) 4); [lia|].
      cbn [getbyte getitem nth_error fmap py_fmap mbind py_bind].
      apply take_v3.
      pose proof (b2z_range lb). pose proof (b2z_range b1).
      apply Z.lor_nonneg. split; [apply Z.shiftr_nonneg|apply Z.shiftl_nonneg]; lia.
Qed.

Lemma slice_app_middle {A} (pre mid post : list A) (i j : Z) :
  i = len pre -> j = len pre + len mid -> slice (pre ++ mid ++ post) i j = mid.
Proof.
  intros -> ->. rewrite slice_inside.
  - replace (Z.to_nat (len pre)) with (length pre) by (unfold len; lia).
    replace (Z.to_nat (len pre + len mid - len pre)) with (length mid)
      by (unfold len; lia).
    rewrite drop_app_length. apply take_app_length.
  - apply len_nonneg.
  - pose proof (len_nonneg mid). lia.
  - rewrite !len_app. pose proof (len_nonneg post). lia.
Qed.

Lemma slice_from_app {A} (pre post : list A) (i : Z) :
  i = len pre -> slice_from (pre ++ post) i = post.
Proof.
  intros ->. unfold slice_from, norm_index. pose proof (len_nonneg pre).
  pose proof (len_nonneg post).
  destruct (Z.ltb_spec (len pre) 0); [lia|].
  rewrite len_app, Z.min_l by lia.
  replace (Z.to_nat (len pre)) with (length pre) by (unfold len; lia).
  apply drop_app_length.
Qed.

Lemma extract_rfcomm_body_uih pkt h0 h1 a0 a1 l0 l1 c0 c1 addr control lb rest extra :
  AutelV2.pkt_kind pkt = AutelV2.ACL ->
  AutelV2.pkt_data pkt =
    acl_record h0 h1 a0 a1 l0 l1 c0 c1 (addr :: control :: lb :: rest) extra ->
  le2z [a0; a1] = 4 + len (addr :: control :: lb :: rest) ->
  0x0040 <= le2z [c0; c1] ->
  Z.land (b2z control) 0xEF = 0xEF ->
  AutelV2.extract_rfcomm_body pkt =
    Ok ((fun p => {| AutelV2.rf_timestamp := AutelV2.pkt_timestamp pkt;
                     AutelV2.rf_direction := AutelV2.pkt_direction pkt;
                     AutelV2.rf_dlci := Z.shiftr (b2z addr) 2;
                     AutelV2.rf_data := p |})
        <$> spec_uih_payload (addr :: control :: lb :: rest)).
Proof.
  intros Hk Hd Hacl Hcid Hc. unfold AutelV2.extract_rfcomm_body. rewrite Hk, Hd.
  set (frame := addr :: control :: lb :: rest) in *.
  assert (Hl : len frame = 3 + len rest) by (unfold frame; rewrite !len_cons; lia).
  pose proof (len_nonneg rest). pose proof (len_nonneg extra).
  assert (Hlen : len (acl_record h0 h1 a0 a1 l0 l1 c0 c1 frame extra)
                 = 8 + len frame + len extra).
  { unfold acl_record. rewrite !len_app. change (len [h0; h1; a0; a1; l0; l1; c0; c1]) with 8. lia. }
  destruct (Z.ltb_spec (len (acl_record h0 h1 a0 a1 l0 l1 c0 c1 frame extra)) 8); [lia|].
  rewrite (slice_app_middle [h0; h1] [a0; a1] ([l0; l1; c0; c1] ++ frame ++ extra))
    by reflexivity.
  unfold unpack_H_le. rewrite (unpack_le_ok 2 [a0; a1]) by reflexivity.
  cbn [mbind py_bind]. rewrite Hacl.
  destruct (Z.ltb_spec (len (acl_record h0 h1 a0 a1 l0 l1 c0 c1 frame extra))
                       (4 + (4 + len frame))); [lia|].
  replace (slice (acl_record h0 h1 a0 a1 l0 l1 c0 c1 frame extra) 4 (4 + (4 + len frame)))
    with ([l0; l1; c0; c1] ++ frame).
  2:{ symmetry.
      apply (slice_app_middle [h0; h1; a0; a1] ([l0; l1; c0; c1] ++ frame) extra);
        [reflexivity|]. rewrite len_app. change (len [h0; h1; a0; a1]) with 4.
      change (len [l0; l1; c0; c1]) with 4. lia. }
  assert (Hpl : len ([l0; l1; c0; c1] ++ frame) = 4 + len frame)
    by (rewrite len_app; change (len [l0; l1; c0; c1]) with 4; lia).
  destruct (Z.ltb_spec (len ([l0; l1; c0; c1] ++ frame)) 4); [lia|].
  rewrite (slice_app_middle [l0; l1] [c0; c1] frame) by reflexivity.
  rewrite (unpack_le_ok 2 [c0; c1]) by reflexivity.
  cbn [mbind py_bind].
  rewrite (slice_from_app [l0; l1; c0; c1] frame) by reflexivity.
  destruct (Z.ltb_spec (le2z [c0; c1]) 64); [lia|].
  destruct (Z.ltb_spec (len frame) 3); [lia|].
  cbn [orb]. subst frame.
  cbn [getbyte getitem nth_error fmap py_fmap mbind py_bind].
  rewrite Hc. cbn [Z.eqb Pos.eqb negb]. rewrite truthy_low_bit.
  cbn [spec_uih_payload].
  destruct (Z.testbit (b2z lb) 0).
  - cbn [mbind py_bind]. apply take_v2. apply Z.shiftr_nonneg, b2z_range.
  - destruct rest as [|b1 rest'].
    + rewrite Hl. reflexivity.
    + assert (Hl' : len (addr :: control :: lb :: b1 :: rest') = 4 + len rest')
        by (rewrite !len_cons; lia).
      pose proof (len_nonneg rest').
      destruct (Z.ltb_spec (len (addr :: control :: lb :: b1 :: rest')) 4); [lia|].
      cbn [getbyte getitem nth_error fmap py_fmap mbind py_bind].
      apply take_v2.
      pose proof (b2z_range lb). pose proof (b2z_range b1).
      apply Z.lor_nonneg. split; [apply Z.shiftr_nonneg|apply Z.shiftl_nonneg]; lia.
Qed.

End UihFacts.

(** C3.  For an information frame (at least three bytes, control byte
    [0xEF] under the mask) both decoders agree with the specification's
    decode of the variable-length field: with the low bit of the byte at
    offset 2 set, the payload length is that byte shifted right by one and
    the payload starts at offset 3; otherwise a second length byte must be
    present, the length is [(byte0 >> 1) | (byte1 << 7)] and the payload
    starts at offset 4; nothing is emitted when the length is zero or
    exceeds the bytes left after the payload start. *)
Theorem uih_length_field_decode (addr control lb : byte) (rest : list byte) :
  Z.land (b2z control) 0xEF = 0xEF ->
  let frame := addr :: control :: lb :: rest in
  (forall pkt, BtsnoopV3.dp_l2cap_data pkt = frame ->
     BtsnoopV3.analyze_rfcomm_body pkt =
       Ok ((fun p => {| BtsnoopV3.rf_num := BtsnoopV3.dp_num pkt;
                        BtsnoopV3.rf_direction := BtsnoopV3.dp_direction pkt;
                        BtsnoopV3.rf_dlci := Z.shiftr (b2z addr) 2;
                        BtsnoopV3.rf_data := p |}) <$> spec_uih_payload frame)) /\
  (forall pkt h0 h1 a0 a1 l0 l1 c0 c1 extra,
     AutelV2.pkt_kind pkt = AutelV2.ACL ->
     AutelV2.pkt_data pkt = acl_record h0 h1 a0 a1 l0 l1 c0 c1 frame extra ->
     le2z [a0; a1] = 4 + len frame ->
     0x0040 <= le2z [c0; c1] ->
     AutelV2.extract_rfcomm_body pkt =
       Ok ((fun p => {| AutelV2.rf_timestamp := AutelV2.pkt_timestamp pkt;
                        AutelV2.rf_direction := AutelV2.pkt_direction pkt;
                        AutelV2.rf_dlci := Z.shiftr (b2z addr) 2;
                        AutelV2.rf_data := p |}) <$> spec_uih_payload frame)) /\
  (Z.testbit (b2z lb) 0 = true ->
     let payload_len := Z.shiftr (b2z lb) 1 in
     spec_uih_payload frame =
       if (payload_len =? 0) || (len frame - 3 <? payload_len) then None
       else Some (slice frame 3 (3 + payload_len))) /\
  (Z.testbit (b2z lb) 0 = false -> rest = [] -> spec_uih_payload frame = None) /\
  (forall byte1 rest',
     Z.testbit (b2z lb) 0 = false -> rest = byte1 :: rest' ->
     let payload_len := Z.lor (Z.shiftr (b2z lb) 1) (Z.shiftl (b2z byte1) 7) in
     spec_uih_payload frame =
       if (payload_len =? 0) || (len frame - 4 <? payload_len) then None
       else Some (slice frame 4 (4 + payload_len))) /\
  (forall p, spec_uih_payload frame = Some p ->
     0 < len p /\
     (Z.testbit (b2z lb) 0 = true -> len p = Z.shiftr (b2z lb) 1) /\
     (forall byte1 rest', Z.testbit (b2z lb) 0 = false -> rest = byte1 :: rest' ->
        len p = Z.lor (Z.shiftr (b2z lb) 1) (Z.shiftl (b2z byte1) 7))).
Proof.
  intros Hc frame. subst frame.
  split; [|split; [|split; [|split; [|split]]]].
  - intros pkt Hd. apply analyze_rfcomm_body_uih; assumption.
  - intros. eapply extract_rfcomm_body_uih; eassumption.
  - intros Hb. cbn [spec_uih_payload]. rewrite Hb. reflexivity.
  - intros Hb ->. cbn [spec_uih_payload]. rewrite Hb. reflexivity.
  - intros byte1 rest' Hb ->. cbn [spec_uih_payload]. rewrite Hb. reflexivity.
  - intros p. cbn [spec_uih_payload].
    pose proof (b2z_range lb) as Hlb.
    destruct (Z.testbit (b2z lb) 0).
    + intros Hp. apply spec_uih_take_length in Hp;
        [|lia|apply Z.shiftr_nonneg; lia].
      destruct Hp as (Hn & _ & Hl & _). split; [lia|]. split; [auto|discriminate].
    + destruct rest as [|b1 rest']; [discriminate|].
      intros Hp. pose proof (b2z_range b1).
      apply spec_uih_take_length in Hp;
        [|lia|apply Z.lor_nonneg; split;
              [apply Z.shiftr_nonneg|apply Z.shiftl_nonneg]; lia].
      destruct Hp as (Hn & _ & Hl & _). split; [lia|]. split; [discriminate|].
      intros ? ? _ [= <- <-]. exact Hl.
Qed.

Lemma uih_length_field_decode_witness :
  BtsnoopV3.analyze_rfcomm_body uih_data_packet =
    Ok (Some {| BtsnoopV3.rf_num := 1; BtsnoopV3.rf_direction := TX;
                BtsnoopV3.rf_dlci := 12; BtsnoopV3.rf_data := [x41] |}) /\
  AutelV2.extract_rfcomm_body uih_acl_packet =
    Ok (Some {| AutelV2.rf_timestamp := 77; AutelV2.rf_direction := TX;
                AutelV2.rf_dlci := 12; AutelV2.rf_data := [x41] |}).
Proof.
  destruct (uih_length_field_decode x31 xef x03 [x41; x00] eq_refl)
    as (H3 & H2 & _).
  split.
  - rewrite (H3 uih_data_packet eq_refl). reflexivity.
  - rewrite (H2 uih_acl_packet x01 x00 x09 x00 x05 x00 x40 x00 [] eq_refl eq_refl
               eq_refl ltac:(vm_compute; discriminate)).
    reflexivity.
Defined.

(** ** Classification *)

Section ClassifyFacts.

Lemma first_match_tag rules m tag :
  first_match rules m = Some tag -> In tag (map snd rules).
Proof.
  induction rules as [|[applies t] rules IH]; simpl; [discriminate|].
  destruct (applies m); [intros [= ->]; auto|auto].
Qed.

Lemma spec_rules_tags_nonempty direction tag :
  In tag (map snd (spec_rules direction)) -> tag <> EmptyString.
Proof.
  unfold spec_rules, ascii_tier, payload_tier, status_tier.
  destruct direction; simpl; intros H;
    repeat (destruct H as [<-|H]; [discriminate|]); destruct H.
Qed.

End ClassifyFacts.

(** C8.  [identify_message_type] never raises and returns the tag of the
    first rule of the chain that applies, in the order ASCII substring
    rules, payload prefix rules, then the status rules of the direction
    (a received message with status 0 is [SUCCESS_RESPONSE] there); when
    no rule applies the tag is synthesized from status and reserved; the
    tag is never empty. *)
Theorem identify_message_type_rule_chain (pkt_data : AutelV2.parsed) (direction : dir) :
  AutelV2.identify_message_type pkt_data direction = Ok (spec_type_tag pkt_data direction) /\
  spec_type_tag pkt_data direction <> EmptyString /\
  (first_match (spec_rules direction) pkt_data = None ->
   spec_type_tag pkt_data direction =
     ("CMD_" ++ format_02X (AutelV2.get_status pkt_data) ++ "_"
             ++ format_02X (AutelV2.get_reserved pkt_data))%string).
Proof.
  split; [|split].
  - unfold AutelV2.identify_message_type, spec_type_tag, spec_rules.
    cbn [first_match app ascii_rule payload_rule status_rule fst snd].
    assert (Htail :
      forall payload : list byte,
        payload = default [] (AutelV2.r_payload pkt_data) ->
        (if negb (len payload =? 0)
         then
           if startswith payload [x5e; x01; x00; x00]
           then Ok (Some "PASSTHRU_OPEN_RESPONSE"%string)
           else if len payload >=? 4
                then unpack_I_le (slice payload 0 4) ≫= (fun first_word : Z =>
                       if first_word =? 350
                       then Ok (Some "PASSTHRU_RESPONSE"%string) else Ok None)
                else Ok None
         else Ok None)
        = Ok (if negb (len payload =? 0) && startswith payload [x5e; x01; x00; x00]
              then Some "PASSTHRU_OPEN_RESPONSE"%string
              else if negb (len payload =? 0) &&
                      ((len payload >=? 4) && (le2z (slice payload 0 4) =? 350))
                   then Some "PASSTHRU_RESPONSE"%string else None)).
    { intros payload _. destruct (negb (len payload =? 0)); cbn [andb]; [|reflexivity].
      destruct (startswith payload [x5e; x01; x00; x00]); [reflexivity|].
      destruct (Z.geb_spec (len payload) 4); cbn [andb]; [|reflexivity].
      unfold unpack_I_le. rewrite unpack_le_ok by (rewrite slice_length by lia; lia).
      cbn [mbind py_bind]. destruct (le2z (slice payload 0 4) =? 350); reflexivity. }
    assert (Hrest :
      (let status := AutelV2.get_status pkt_data in
       let reserved := AutelV2.get_reserved pkt_data in
       let payload := default [] (AutelV2.r_payload pkt_data) in
       (if negb (len payload =? 0)
        then
          if startswith payload [x5e; x01; x00; x00]
          then Ok (Some "PASSTHRU_OPEN_RESPONSE"%string)
          else if len payload >=? 4
               then unpack_I_le (slice payload 0 4) ≫= (fun first_word : Z =>
                      if first_word =? 350
                      then Ok (Some "PASSTHRU_RESPONSE"%string) else Ok None)
               else Ok None
        else Ok None) ≫= (fun by_payload : option string =>
       match by_payload with
       | Some tag => Ok tag
       | None =>
           let by_direction : option string :=
             match direction with
             | TX =>
                 if (status =? 0) && (reserved =? 0) then Some "CONNECT_REQUEST"%string
                 else if (status =? 1) && (reserved =? 4) then Some "PASSTHRU_OPEN"%string
                 else if (status =? 1) && (reserved =? 3) then Some "PASSTHRU_CLOSE"%string
                 else if status =? 11 then Some "GET_VERSION"%string
                 else if status =? 2 then Some "READ_DATA"%string
                 else if status =? 5 then Some "WRITE_DATA"%string
                 else if status =? 8 then Some "START_MSG_FILTER"%string
                 else if status =? 3 then Some "DISCONNECT"%string
                 else None
             | RX => if status =? 0 then Some "SUCCESS_RESPONSE"%string else None
             end in
           match by_direction with
           | Some tag => Ok tag
           | None =>
               Ok ("CMD_" ++ format_02X status ++ "_" ++ format_02X reserved)%string
           end
       end))
      = Ok (default (spec_default_tag pkt_data)
              (first_match (payload_tier ++ status_tier direction) pkt_data))).
    { cbv zeta. rewrite (Htail _ eq_refl). cbn [mbind py_bind].
      unfold payload_tier, status_tier.
      cbn [first_match app ascii_rule payload_rule status_rule fst snd].
      set (payload := default [] (AutelV2.r_payload pkt_data)).
      destruct (negb (len payload =? 0) && startswith payload [x5e; x01; x00; x00]);
        [reflexivity|].
      destruct (negb (len payload =? 0) &&
                ((len payload >=? 4) && (le2z (slice payload 0 4) =? 350)));
        [reflexivity|].
      unfold spec_default_tag.
      destruct direction; cbn [first_match status_rule fst snd];
        repeat match goal with
               | |- context [if ?c then _ else _] => destruct c; [reflexivity|]
               end; reflexivity. }
    unfold ascii_tier. cbn [first_match app ascii_rule fst snd].
    destruct (AutelV2.r_ascii pkt_data) as [a|].
    + destruct (negb (String.eqb a EmptyString)); cbn [andb].
      * destruct (contains "J2534" a); [reflexivity|].
        destruct (contains "AUTEL" a); [reflexivity|].
        destruct (contains "Mar " a || contains "V2." a); [reflexivity|].
        destruct (contains "MAXI" a); [reflexivity|].
        exact Hrest.
      * exact Hrest.
    + exact Hrest.
  - unfold spec_type_tag.
    destruct (first_match (spec_rules direction) pkt_data) as [tag|] eqn:E; simpl.
    + eapply spec_rules_tags_nonempty, first_match_tag, E.
    + discriminate.
  - intros E. unfold spec_type_tag. rewrite E. reflexivity.
Qed.

(** A received message with status 0x0B and reserved 1, without payload:
    no rule applies and the tag is synthesized. *)
Lemma identify_message_type_rule_chain_witness :
  AutelV2.identify_message_type received_status_0b RX = Ok "CMD_0B_01"%string.
Proof.
  destruct (identify_message_type_rule_chain received_status_0b RX) as (H & _ & Hd).
  rewrite H, (Hd eq_refl). reflexivity.
Defined.

(** ** The fused lower layers of [analyze_autel_protocol_v2.py] *)

Section ExtractFacts.

(** Whatever [extract_rfcomm_body] emits comes from a record of the shape
    [acl_record]: the segment length covers the L2CAP header and the
    frame, the channel is dynamic and the frame is an information frame. *)
Lemma extract_rfcomm_body_inv pkt out :
  AutelV2.extract_rfcomm_body pkt = Ok (Some out) ->
  exists h0 h1 a0 a1 l0 l1 c0 c1 addr control lb rest extra,
    AutelV2.pkt_kind pkt = AutelV2.ACL /\
    AutelV2.pkt_data pkt =
      acl_record h0 h1 a0 a1 l0 l1 c0 c1 (addr :: control :: lb :: rest) extra /\
    le2z [a0; a1] = 4 + len (addr :: control :: lb :: rest) /\
    0x0040 <= le2z [c0; c1] /\
    Z.land (b2z control) 0xEF = 0xEF /\
    AutelV2.rf_dlci out = Z.shiftr (b2z addr) 2 /\
    spec_uih_payload (addr :: control :: lb :: rest) = Some (AutelV2.rf_data out).
Proof.
  intros H. pose proof H as H'. unfold AutelV2.extract_rfcomm_body in H.
  destruct (AutelV2.pkt_kind pkt) eqn:Hk; try discriminate.
  destruct (Z.ltb_spec (len (AutelV2.pkt_data pkt)) 8) as [|H8]; [discriminate|].
  destruct (AutelV2.pkt_data pkt)
    as [|h0 [|h1 [|a0 [|a1 [|l0 [|l1 [|c0 [|c1 tail]]]]]]]] eqn:Hd;
    try (exfalso; unfold len in H8; simpl in H8; lia).
  rewrite (slice_app_middle [h0; h1] [a0; a1] (l0 :: l1 :: c0 :: c1 :: tail))
    in H by reflexivity.
  unfold unpack_H_le in H. rewrite (unpack_le_ok 2 [a0; a1]) in H by reflexivity.
  cbn [mbind py_bind] in H.
  set (data := h0 :: h1 :: a0 :: a1 :: l0 :: l1 :: c0 :: c1 :: tail) in *.
  assert (Hlen : len data = 8 + len tail) by (unfold data; rewrite !len_cons; lia).
  pose proof (le2z_nonneg [a0; a1]) as Ha0.
  destruct (Z.ltb_spec (len data) (4 + le2z [a0; a1])) as [|Hfit]; [discriminate|].
  rewrite slice_len in H by lia.
  replace (4 + le2z [a0; a1] - 4) with (le2z [a0; a1]) in H by lia.
  destruct (Z.ltb_spec (le2z [a0; a1]) 4) as [|H4]; [discriminate|].
  set (n := Z.to_nat (le2z [a0; a1] - 4)).
  assert (Htail : tail = firstn n tail ++ skipn n tail)
    by (symmetry; apply firstn_skipn).
  assert (Hn : len (firstn n tail) = le2z [a0; a1] - 4).
  { unfold len. rewrite length_firstn. unfold len in Hlen, Hfit. lia. }
  set (frame := firstn n tail) in *. set (extra := skipn n tail) in *.
  assert (Hdata : data = acl_record h0 h1 a0 a1 l0 l1 c0 c1 frame extra).
  { unfold data, acl_record. simpl. rewrite <- Htail. reflexivity. }
  clearbody frame extra data. rewrite Hdata in *. clear Hdata data.
  replace (slice (acl_record h0 h1 a0 a1 l0 l1 c0 c1 frame extra) 4 (4 + le2z [a0; a1]))
    with ([l0; l1; c0; c1] ++ frame) in H.
  2:{ symmetry.
      apply (slice_app_middle [h0; h1; a0; a1] ([l0; l1; c0; c1] ++ frame) extra);
        [reflexivity|]. rewrite len_app. change (len [h0; h1; a0; a1]) with 4.
      change (len [l0; l1; c0; c1]) with 4. lia. }
  rewrite (slice_app_middle [l0; l1] [c0; c1] frame) in H by reflexivity.
  rewrite (unpack_le_ok 2 [c0; c1]) in H by reflexivity.
  cbn [mbind py_bind] in H.
  rewrite (slice_from_app [l0; l1; c0; c1] frame) in H by reflexivity.
  destruct (Z.ltb_spec (le2z [c0; c1]) 64) as [|Hcid]; [discriminate|].
  destruct (Z.ltb_spec (len frame) 3) as [|H3]; [discriminate|].
  cbn [orb] in H.
  destruct frame as [|addr [|control [|lb rest]]];
    try (exfalso; unfold len in H3; simpl in H3; lia).
  cbn [getbyte getitem nth_error fmap py_fmap mbind py_bind] in H.
  destruct (Z.eqb_spec (Z.land (b2z control) 239) 239) as [Hc|]; [|discriminate].
  clear H.
  exists h0, h1, a0, a1, l0, l1, c0, c1, addr, control, lb, rest, extra.
  assert (Hacl : le2z [a0; a1] = 4 + len (addr :: control :: lb :: rest)) by lia.
  rewrite (extract_rfcomm_body_uih pkt h0 h1 a0 a1 l0 l1 c0 c1 addr control lb rest extra
             Hk Hd Hacl Hcid Hc) in H'.
  destruct (spec_uih_payload (addr :: control :: lb :: rest)) as [p|];
    [|discriminate].
  injection H' as <-. repeat split; try assumption; reflexivity.
Qed.

(** [extract_rfcomm_body] never raises. *)
Lemma extract_rfcomm_body_total pkt :
  exists o, AutelV2.extract_rfcomm_body pkt = Ok o.
Proof.
  unfold AutelV2.extract_rfcomm_body.
  destruct (AutelV2.pkt_kind pkt); eauto.
  destruct (Z.ltb_spec (len (AutelV2.pkt_data pkt)) 8) as [|H8]; eauto.
  unfold unpack_H_le. rewrite unpack_le_ok by (rewrite slice_length by lia; lia).
  cbn [mbind py_bind].
  set (acl_len := le2z (slice (AutelV2.pkt_data pkt) 2 4)).
  assert (0 <= acl_len) by apply le2z_nonneg.
  destruct (Z.ltb_spec (len (AutelV2.pkt_data pkt)) (4 + acl_len)); eauto.
  set (acl_payload := slice (AutelV2.pkt_data pkt) 4 (4 + acl_len)).
  destruct (Z.ltb_spec (len acl_payload) 4); eauto.
  rewrite unpack_le_ok by (rewrite slice_length by lia; lia).
  cbn [mbind py_bind].
  set (l2cap_data := slice_from acl_payload 4).
  destruct (le2z (slice acl_payload 2 4) <? 64); cbn [orb]; eauto.
  destruct (Z.ltb_spec (len l2cap_data) 3); eauto.
  destruct l2cap_data as [|addr [|control [|lb rest]]];
    try (exfalso; unfold len in *; simpl in *; lia).
  cbn [getbyte getitem nth_error fmap py_fmap mbind py_bind].
  destruct (negb (Z.land (b2z control) 239 =? 239)); eauto.
  destruct (truthy (Z.land (b2z lb) 1)); cbn [mbind py_bind].
  - destruct ((len (addr :: control :: lb :: rest) >=? 3 + Z.shiftr (b2z lb) 1) &&
              (Z.shiftr (b2z lb) 1 >? 0)); eauto.
  - destruct (Z.ltb_spec (len (addr :: control :: lb :: rest)) 4); eauto.
    destruct rest as [|b3 rest]; [exfalso; unfold len in *; simpl in *; lia|].
    cbn [getbyte getitem nth_error fmap py_fmap mbind py_bind].
    match goal with |- context [if ?c then _ else _] => destruct c end; eauto.
Qed.

End ExtractFacts.

(** ** Which frames reach the later layers *)

Section GateFacts.

Lemma for_append_inv {A B} (body : A -> py (option B)) (l : list A) (acc out : list B) :
  for_append body l acc = Ok out ->
  forall r, In r out -> In r acc \/ exists x, In x l /\ body x = Ok (Some r).
Proof.
  revert acc. induction l as [|x l IH]; intros acc; simpl.
  - intros [= <-] r Hr. auto.
  - destruct (body x) as [o|] eqn:Hx; [|discriminate]. simpl.
    intros Hout r Hr. destruct (IH _ Hout r Hr) as [Hacc|(y & Hy & Hby)].
    + destruct o as [b|]; [|auto].
      apply in_app_or in Hacc. destruct Hacc as [|[<-|[]]]; [auto|].
      right. exists x. auto.
    + right. exists y. auto.
Qed.

Lemma acl_cid_acl_record h0 h1 a0 a1 l0 l1 c0 c1 frame extra :
  le2z [a0; a1] = 4 + len frame ->
  acl_cid (acl_record h0 h1 a0 a1 l0 l1 c0 c1 frame extra) = le2z [c0; c1].
Proof.
  intros Ha. unfold acl_cid.
  assert (E1 : slice (acl_record h0 h1 a0 a1 l0 l1 c0 c1 frame extra) 2 4 = [a0; a1]).
  { apply (slice_app_middle [h0; h1] [a0; a1] ([l0; l1; c0; c1] ++ frame ++ extra));
      reflexivity. }
  rewrite E1, Ha.
  assert (E2 : slice (acl_record h0 h1 a0 a1 l0 l1 c0 c1 frame extra) 4
                 (4 + (4 + len frame)) = [l0; l1; c0; c1] ++ frame).
  { apply (slice_app_middle [h0; h1; a0; a1] ([l0; l1; c0; c1] ++ frame) extra);
      [reflexivity|].
    rewrite len_app. change (len [h0; h1; a0; a1]) with 4.
    change (len [l0; l1; c0; c1]) with 4. lia. }
  rewrite E2. f_equal.
  apply (slice_app_middle [l0; l1] [c0; c1] frame); reflexivity.
Qed.

Lemma analyze_rfcomm_packets_filter data_packets :
  BtsnoopV3.analyze_rfcomm_packets data_packets =
  for_append BtsnoopV3.analyze_rfcomm_body
    (filter (fun p => 0x0040 <= BtsnoopV3.dp_cid p) data_packets) [].
Proof.
  unfold BtsnoopV3.analyze_rfcomm_packets.
  destruct (filter _ data_packets); reflexivity.
Qed.

Lemma extract_rfcomm_body_v1_cid pkt out :
  BtsnoopV1.extract_rfcomm_body pkt = Ok (Some out) -> 0x0003 < BtsnoopV1.l2_cid pkt.
Proof.
  unfold BtsnoopV1.extract_rfcomm_body.
  destruct (Z.leb_spec (BtsnoopV1.l2_cid pkt) 3); [discriminate|]. lia.
Qed.

End GateFacts.

(** C5, as it holds in the code.  In [analyze_autel_protocol_v2.py] and in
    [parse_btsnoop_v3.py] every emitted information-frame payload comes
    from a packet whose channel identifier is at least 0x0040, and a packet
    on a lower channel contributes nothing.  In [parse_btsnoop.py] the
    gate is [cid <= 0x0003]: every emitted payload comes from a channel
    above 0x0003, so channels 0x0004 to 0x003F are processed as well. *)
Theorem dynamic_channel_gate :
  (forall packets out r,
     AutelV2.extract_rfcomm_data packets = Ok out -> In r out ->
     exists pkt, In pkt packets /\ AutelV2.extract_rfcomm_body pkt = Ok (Some r) /\
                 0x0040 <= acl_cid (AutelV2.pkt_data pkt)) /\
  (forall data_packets out r,
     BtsnoopV3.analyze_rfcomm_packets data_packets = Ok out -> In r out ->
     exists p, In p data_packets /\ BtsnoopV3.analyze_rfcomm_body p = Ok (Some r) /\
               0x0040 <= BtsnoopV3.dp_cid p) /\
  (forall data_packets p,
     BtsnoopV3.dp_cid p < 0x0040 ->
     BtsnoopV3.analyze_rfcomm_packets (p :: data_packets) =
     BtsnoopV3.analyze_rfcomm_packets data_packets) /\
  (forall l2cap_packets out r,
     BtsnoopV1.extract_rfcomm_data l2cap_packets = Ok out -> In r out ->
     exists p, In p l2cap_packets /\ BtsnoopV1.extract_rfcomm_body p = Ok (Some r) /\
               0x0003 < BtsnoopV1.l2_cid p) /\
  (forall p, BtsnoopV1.l2_cid p <= 0x0003 -> BtsnoopV1.extract_rfcomm_body p = Ok None).
Proof.
  split; [|split; [|split; [|split]]].
  - intros packets out r Hout Hr.
    destruct (for_append_inv _ _ _ _ Hout r Hr) as [[]|(pkt & Hin & Hb)].
    exists pkt. split; [assumption|]. split; [assumption|].
    destruct (extract_rfcomm_body_inv _ _ Hb)
      as (h0 & h1 & a0 & a1 & l0 & l1 & c0 & c1 & addr & control & lb & rest & extra &
          _ & Hd & Ha & Hcid & _).
    rewrite Hd, acl_cid_acl_record by assumption. exact Hcid.
  - intros data_packets out r Hout Hr. rewrite analyze_rfcomm_packets_filter in Hout.
    destruct (for_append_inv _ _ _ _ Hout r Hr) as [[]|(p & Hin & Hb)].
    apply list_elem_of_In, list_elem_of_filter in Hin. destruct Hin as [Hc Hin].
    exists p. split; [apply list_elem_of_In, Hin|]. split; assumption.
  - intros data_packets p Hp. rewrite !analyze_rfcomm_packets_filter.
    rewrite filter_cons_False by lia. reflexivity.
  - intros l2cap_packets out r Hout Hr.
    destruct (for_append_inv _ _ _ _ Hout r Hr) as [[]|(p & Hin & Hb)].
    exists p. split; [assumption|]. split; [assumption|].
    eapply extract_rfcomm_body_v1_cid, Hb.
  - intros p Hp. unfold BtsnoopV1.extract_rfcomm_body.
    destruct (Z.leb_spec (BtsnoopV1.l2_cid p) 3); [reflexivity|lia].
Qed.

Lemma dynamic_channel_gate_witness :
  0x0040 <= acl_cid (AutelV2.pkt_data uih_acl_packet) /\
  0x0040 <= BtsnoopV3.dp_cid uih_data_packet.
Proof.
  destruct dynamic_channel_gate as (H2 & H3 & _).
  destruct (H2 [uih_acl_packet] _ _ eq_refl (or_introl eq_refl))
    as (pkt & [<-|[]] & _ & Hc2).
  destruct (H3 [uih_data_packet] _ _ eq_refl (or_introl eq_refl))
    as (p & [<-|[]] & _ & Hc3).
  split; assumption.
Defined.

(** C5 as stated fails on [parse_btsnoop.py]: a packet on channel 0x0004,
    below 0x0040, yields an RFCOMM payload. *)
Lemma first_parser_passes_channel_4 :
  BtsnoopV1.l2_cid att_l2cap_packet < 0x0040 /\
  BtsnoopV1.extract_rfcomm_data [att_l2cap_packet] =
    Ok [{| BtsnoopV1.rf_num := 1; BtsnoopV1.rf_direction := TX;
           BtsnoopV1.rf_dlci := 12; BtsnoopV1.rf_data := [x41] |}] /\
  BtsnoopV1.main capture_att =
    Ok ([att_l2cap_packet],
        [{| BtsnoopV1.rf_num := 1; BtsnoopV1.rf_direction := TX;
            BtsnoopV1.rf_dlci := 12; BtsnoopV1.rf_data := [x41] |}]).
Proof. split; [simpl; lia|]. split; vm_compute; reflexivity. Qed.

(** ** The subchannel filter of the analyzers *)

Section CorrelateFacts.
Import AutelV2.

Lemma correlate_step_packets st pkt m :
  In m (correlate_step st pkt).1 -> In m st.1 \/ m = stamped pkt.
Proof.
  destruct st as [pp ss]. unfold correlate_step.
  destruct (r_valid _ && negb _); simpl; [|auto].
  intros [|[<-|[]]]%in_app_or; auto.
Qed.

Lemma correlate_step_sessions st pkt :
  (forall sid ms m, st.2 !! sid = Some ms -> In m ms -> In m st.1) ->
  forall sid ms m, (correlate_step st pkt).2 !! sid = Some ms -> In m ms ->
                   In m (correlate_step st pkt).1.
Proof.
  destruct st as [pp ss]. unfold correlate_step. simpl. intros Hinv.
  destruct (r_valid _ && negb _); simpl; [|exact Hinv].
  intros sid ms m Hs Hm. apply in_or_app.
  destruct (decide (sid = get_session_id (stamped pkt))) as [->|Hne].
  - unfold stamped in Hs. rewrite lookup_insert_eq in Hs. injection Hs as <-.
    apply in_app_or in Hm. destruct Hm as [Hm|[<-|[]]]; [|right; left; reflexivity].
    left. destruct (ss !! _) as [ms0|] eqn:E; simpl in Hm; [|destruct Hm].
    eapply Hinv; eassumption.
  - unfold stamped in Hne. rewrite lookup_insert_ne in Hs by congruence.
    left. eapply Hinv; eassumption.
Qed.

Lemma correlate_fold l st :
  (forall m, In m (fold_left correlate_step l st).1 ->
     In m st.1 \/ exists pkt, In pkt l /\ m = stamped pkt) /\
  ((forall sid ms m, st.2 !! sid = Some ms -> In m ms -> In m st.1) ->
   forall sid ms m, (fold_left correlate_step l st).2 !! sid = Some ms -> In m ms ->
                    In m (fold_left correlate_step l st).1).
Proof.
  revert st. induction l as [|pkt l IH]; intros st; simpl.
  - split; auto.
  - destruct (IH (correlate_step st pkt)) as [IH1 IH2]. split.
    + intros m Hm. destruct (IH1 m Hm) as [H|(q & Hq & ->)].
      * apply correlate_step_packets in H. destruct H as [H|H]; [auto|].
        right. exists pkt. auto.
      * eauto.
    + intros Hinv. apply IH2. apply correlate_step_sessions, Hinv.
Qed.

Lemma dlci12_skip l1 p l2 :
  rf_dlci p <> 12 -> dlci12 (l1 ++ p :: l2) = dlci12 (l1 ++ l2).
Proof.
  intros Hp. unfold dlci12. rewrite !filter_app, filter_cons_False by assumption.
  reflexivity.
Qed.

End CorrelateFacts.

(** ** The capture reader *)

Section CaptureFacts.
Import Capture.

Lemma read_loop_step {packet} (mk : nat -> rec_fields -> list byte -> packet) f packets :
  read_loop mk f packets =
  match read_record f with
  | Raise e => Raise e
  | Ok None => Ok packets
  | Ok (Some (h, data, f')) => read_loop mk f' (packets ++ [mk (length packets) h data])
  end.
Proof.
  rewrite read_loop_equation_1. unfold inspect.
  assert (G : forall b (Hb : read_record f = b),
            read_loop_unfold_clause_1 mk f (exist _ b Hb) packets =
            match b with
            | Raise e => Raise e
            | Ok None => Ok packets
            | Ok (Some (h, data, f')) =>
                read_loop mk f' (packets ++ [mk (length packets) h data])
            end).
  { intros [[[[h data] f']|]|e] Hb.
    - apply read_loop_clause_1_equation_1.
    - apply read_loop_clause_1_equation_2.
    - apply read_loop_clause_1_equation_3. }
  apply G.
Qed.

Lemma unpack_IIIIQ_ok b : length b = 24%nat -> unpack_IIIIQ b = Ok (fields_of b).
Proof. intros H. unfold unpack_IIIIQ. rewrite H. reflexivity. Qed.

(** One turn of the loop in front of a complete record. *)
Lemma read_record_complete r rest :
  complete_record r ->
  read_record ((r.1 ++ r.2) ++ rest) = Ok (Some (fields_of r.1, r.2, rest)).
Proof.
  destruct r as [hdr body]. intros [Hh Hb]. simpl in *.
  unfold read_record, read, RECORD_HEADER_SIZE.
  change (Z.to_nat 24) with 24%nat. rewrite <- Hh.
  rewrite <- !app_assoc, take_app_length, drop_app_length.
  unfold len at 1. rewrite Hh. simpl (_ <? _).
  rewrite unpack_IIIIQ_ok by assumption. cbn [mbind py_bind].
  change (incl_len (fields_of hdr)) with (incl_len_of hdr). rewrite Hb.
  unfold len. rewrite Nat2Z.id, take_app_length, drop_app_length.
  destruct (Z.ltb_spec (Z.of_nat (length body)) (Z.of_nat (length body)));
    [lia|reflexivity].
Qed.

(** One turn of the loop in front of a truncated tail. *)
Lemma read_record_truncated tail : truncated tail -> read_record tail = Ok None.
Proof.
  intros Ht. unfold read_record, read, RECORD_HEADER_SIZE.
  change (Z.to_nat 24) with 24%nat.
  destruct (Z.ltb_spec (len (firstn 24 tail)) 24) as [|H24]; [reflexivity|].
  assert (Hl : length (firstn 24 tail) = 24%nat).
  { unfold len in H24. rewrite length_firstn in *. lia. }
  rewrite unpack_IIIIQ_ok by assumption. cbn [mbind py_bind].
  change (incl_len (fields_of (firstn 24 tail))) with (incl_len_of (firstn 24 tail)).
  destruct Ht as [Ht|Ht].
  - unfold len in Ht. rewrite length_firstn in Hl. lia.
  - destruct (Z.ltb_spec (len (firstn (Z.to_nat (incl_len_of (firstn 24 tail)))
                                      (skipn 24 tail)))
                         (incl_len_of (firstn 24 tail))); [reflexivity|].
    exfalso. unfold len in *. rewrite length_firstn, length_skipn in *. lia.
Qed.

Lemma read_loop_stream {packet} (mk : nat -> rec_fields -> list byte -> packet)
    recs tail packets :
  Forall complete_record recs -> truncated tail ->
  read_loop mk (stream_of recs ++ tail) packets =
  Ok (packets ++ packets_of mk (length packets) recs).
Proof.
  intros Hrecs Ht. revert packets.
  induction Hrecs as [|r recs Hr _ IH]; intros packets.
  - simpl. rewrite read_loop_step, read_record_truncated by assumption.
    rewrite app_nil_r. reflexivity.
  - unfold stream_of. simpl. rewrite <- app_assoc.
    rewrite read_loop_step, read_record_complete by assumption.
    fold (stream_of recs). rewrite IH. rewrite length_app. simpl.
    rewrite <- app_assoc. simpl. repeat f_equal. lia.
Qed.

(** Every stream is a sequence of complete records and a truncated tail. *)
Lemma stream_decomposition (s : list byte) :
  exists recs tail,
    s = stream_of recs ++ tail /\ Forall complete_record recs /\ truncated tail.
Proof.
  remember (length s) as n eqn:Hn. revert s Hn.
  induction n as [n IH] using lt_wf_ind. intros s Hn.
  destruct (Z.lt_ge_cases (len s) 24) as [Hs|Hs].
  { exists [], s. split; [reflexivity|]. split; [constructor|left; exact Hs]. }
  destruct (Z.lt_ge_cases (len s - 24) (incl_len_of (firstn 24 s))) as [Hb|Hb].
  { exists [], s. split; [reflexivity|]. split; [constructor|right; exact Hb]. }
  set (hdr := firstn 24 s) in *.
  assert (Hbe : 0 <= incl_len_of hdr).
  { unfold incl_len_of, be2z. generalize (slice hdr 4 8).
    assert (G : forall l acc, 0 <= acc ->
              0 <= fold_left (fun acc b => 256 * acc + b2z b) l acc).
    { induction l as [|b l IHl]; intros acc Hacc; simpl; [assumption|].
      apply IHl. pose proof (b2z_range b). lia. }
    intros l. apply G. lia. }
  set (k := Z.to_nat (incl_len_of hdr)).
  set (body := firstn k (skipn 24 s)).
  set (rest := skipn k (skipn 24 s)).
  assert (Es : s = (hdr ++ body) ++ rest).
  { unfold hdr, body, rest. rewrite <- app_assoc, !firstn_skipn. reflexivity. }
  assert (Hh : length hdr = 24%nat).
  { unfold hdr. rewrite length_firstn. unfold len in Hs. lia. }
  assert (Hk : length body = k).
  { unfold body. rewrite length_firstn, length_skipn. unfold len in *. lia. }
  destruct (IH (length rest)) with (s := rest) as (recs & tail & Er & Hrecs & Ht).
  { rewrite Hn. apply (f_equal length) in Es. rewrite !length_app in Es. lia. }
  { reflexivity. }
  exists ((hdr, body) :: recs), tail. split; [|split].
  - unfold stream_of in *. simpl. rewrite <- !app_assoc. rewrite <- app_assoc in Es.
    rewrite Es at 1. rewrite Er. reflexivity.
  - constructor; [|assumption]. split; [exact Hh|]. simpl. unfold len. lia.
  - exact Ht.
Qed.

End CaptureFacts.

Lemma capture_reader_v3_stream fh recs tail :
  length fh = 16%nat -> startswith fh Capture.BTSNOOP_MAGIC = true ->
  Forall complete_record recs -> truncated tail ->
  BtsnoopV3.parse_btsnoop (fh ++ stream_of recs ++ tail) =
    Ok (packets_of BtsnoopV3.mk_packet 0 recs, be2z (slice fh 12 16)) /\
  length (packets_of BtsnoopV3.mk_packet 0 recs) = length recs.
Proof.
  intros Hfh Hmagic Hrecs Ht. split.
  - unfold BtsnoopV3.parse_btsnoop, Capture.read.
    change (Z.to_nat Capture.BTSNOOP_HEADER_SIZE) with 16%nat. rewrite <- Hfh.
    rewrite take_app_length, drop_app_length. rewrite Hmagic. cbn [negb].
    unfold unpack_I_be, unpack_be.
    rewrite !slice_length by (unfold len; lia).
    change (Z.to_nat (12 - 8) =? 4)%nat with true.
    change (Z.to_nat (16 - 12) =? 4)%nat with true. cbn [mbind py_bind].
    rewrite read_loop_stream by assumption. reflexivity.
  - clear. generalize 0%nat. induction recs as [|r recs IH]; intros n; simpl;
      [reflexivity|]. rewrite IH. reflexivity.
Qed.

(** ** Record kinds *)

Section KindFacts.
Import Capture.

Lemma truthy_bit1 (x : Z) : truthy (Z.land x 2) = Z.testbit x 1.
Proof.
  unfold truthy.
  replace (Z.land x 2) with (Z.land (x mod 4) 2).
  2:{ change 4 with (2 ^ 2). rewrite <- Z.land_ones by lia.
      rewrite <- Z.land_assoc. reflexivity. }
  rewrite <- (Z.mod_pow2_bits_low x 2 1) by lia. change (2 ^ 2) with 4.
  pose proof (Z.mod_pos_bound x 4 ltac:(lia)) as Hr.
  assert (Hc : x mod 4 = 0 \/ x mod 4 = 1 \/ x mod 4 = 2 \/ x mod 4 = 3) by lia.
  destruct Hc as [-> |[-> |[-> | ->]]]; reflexivity.
Qed.

Lemma mk_packet_v3_kind n h data :
  kind_of_v3 (BtsnoopV3.pkt_kind (BtsnoopV3.mk_packet n h data)) = spec_kind_of_flags (flags h) /\
  BtsnoopV3.pkt_data (BtsnoopV3.mk_packet n h data) = data.
Proof.
  unfold BtsnoopV3.mk_packet, spec_kind_of_flags.
  cbn [BtsnoopV3.pkt_kind BtsnoopV3.pkt_data].
  rewrite truthy_bit1, truthy_low_bit.
  destruct (Z.testbit (flags h) 1), (Z.testbit (flags h) 0); split; reflexivity.
Qed.

Lemma parse_btsnoop_v1_stream fh recs tail :
  length fh = 16%nat -> startswith fh BTSNOOP_MAGIC = true ->
  Forall complete_record recs -> truncated tail ->
  BtsnoopV1.parse_btsnoop (fh ++ stream_of recs ++ tail) =
    Ok (packets_of BtsnoopV1.mk_packet 0 recs).
Proof.
  intros Hfh Hmagic Hrecs Ht. unfold BtsnoopV1.parse_btsnoop, read.
  change (Z.to_nat BTSNOOP_HEADER_SIZE) with 16%nat. rewrite <- Hfh.
  rewrite take_app_length, drop_app_length. rewrite Hmagic. cbn [negb].
  unfold unpack_I_be, unpack_be.
  rewrite !slice_length by (unfold len; lia).
  change (Z.to_nat (12 - 8) =? 4)%nat with true.
  change (Z.to_nat (16 - 12) =? 4)%nat with true. cbn [mbind py_bind].
  rewrite read_loop_stream by assumption. reflexivity.
Qed.

Lemma parse_btsnoop_v2_stream fh recs tail :
  length fh = 16%nat -> startswith fh BTSNOOP_MAGIC = true ->
  Forall complete_record recs -> truncated tail ->
  BtsnoopV2.parse_btsnoop (fh ++ stream_of recs ++ tail) =
    Ok (packets_of BtsnoopV2.mk_packet 0 recs).
Proof.
  intros Hfh Hmagic Hrecs Ht. unfold BtsnoopV2.parse_btsnoop, read.
  change (Z.to_nat BTSNOOP_HEADER_SIZE) with 16%nat. rewrite <- Hfh.
  rewrite take_app_length, drop_app_length. rewrite Hmagic. cbn [negb].
  unfold unpack_I_be, unpack_be.
  rewrite !slice_length by (unfold len; lia).
  change (Z.to_nat (12 - 8) =? 4)%nat with true.
  change (Z.to_nat (16 - 12) =? 4)%nat with true. cbn [mbind py_bind].
  rewrite read_loop_stream by assumption. reflexivity.
Qed.

Lemma packets_of_v3_kinds n recs :
  map (fun p => kind_of_v3 (BtsnoopV3.pkt_kind p)) (packets_of BtsnoopV3.mk_packet n recs) =
    map (fun r => spec_kind_of_flags (be2z (slice r.1 8 12))) recs /\
  map BtsnoopV3.pkt_data (packets_of BtsnoopV3.mk_packet n recs) = map snd recs.
Proof.
  revert n. induction recs as [|r recs IH]; intros n; cbn [packets_of map];
    [split; reflexivity|].
  destruct (IH (S n)) as [IH1 IH2]. rewrite IH1, IH2.
  destruct (mk_packet_v3_kind n (fields_of r.1) r.2) as [-> ->]. split; reflexivity.
Qed.

(** In [parse_btsnoop.py] an emitted L2CAP packet comes from a body whose
    first byte is 2; the ACL header is read after that byte. *)
Lemma extract_l2cap_body_type pkt out :
  BtsnoopV1.extract_l2cap_body pkt = Ok (Some out) ->
  exists rest,
    BtsnoopV1.pkt_data pkt = x02 :: rest /\
    BtsnoopV1.l2_handle out = Z.land (le2z (slice rest 0 2)) 0x0FFF.
Proof.
  unfold BtsnoopV1.extract_l2cap_body.
  destruct (BtsnoopV1.pkt_data pkt) as [|b rest] eqn:Hd; [intros [=]|].
  destruct (Z.ltb_spec (len (b :: rest)) 1); [intros [=]|].
  cbn [getbyte getitem nth_error fmap py_fmap mbind py_bind].
  unfold BtsnoopV1.HCI_ACL_DATA.
  destruct (Z.eqb_spec (b2z b) 2) as [Hb|]; [|intros [=]].
  destruct (Z.gtb_spec (len (b :: rest)) 5) as [H5|]; [|intros [=]].
  cbn [andb]. rewrite len_cons in H5.
  assert (Hs : forall i j, 1 <= i -> i <= j -> j <= 1 + len rest ->
             slice (b :: rest) i j = slice rest (i - 1) (j - 1)).
  { intros i j Hi Hij Hj. rewrite !slice_inside by (rewrite ?len_cons; lia).
    replace (Z.to_nat i) with (S (Z.to_nat (i - 1))) by lia. simpl.
    f_equal. lia. }
  rewrite !Hs by lia. unfold unpack_H_le.
  rewrite (unpack_le_ok 2 (slice rest (1 - 1) (3 - 1)))
    by (rewrite slice_length by lia; lia).
  rewrite (unpack_le_ok 2 (slice rest (3 - 1) (5 - 1)))
    by (rewrite slice_length by lia; lia).
  cbn [mbind py_bind]. intros Hout.
  assert (Hbyte : b = x02).
  { destruct b; try reflexivity; vm_compute in Hb; discriminate. }
  exists rest. split; [rewrite Hbyte; reflexivity|].
  revert Hout.
  repeat match goal with
         | |- (?m ≫= _) = _ -> _ => destruct m; cbn [mbind py_bind]; [|intros [=]]
         | |- (if ?c then _ else _) = _ -> _ => destruct c; [|intros [=]]
         end.
  intros [= <-]. reflexivity.
Qed.

Lemma analyze_step_byte s acl_packets pkt b rest :
  BtsnoopV2.pkt_data pkt = b :: rest ->
  BtsnoopV2.analyze_step (s, acl_packets) pkt =
    Ok (bump (b2z b) s,
        if b2z b =? 2 then acl_packets ++ [pkt] else acl_packets).
Proof.
  intros Hd. unfold BtsnoopV2.analyze_step. rewrite Hd.
  pose proof (len_nonneg rest).
  destruct (Z.ltb_spec (len (b :: rest)) 1); [rewrite len_cons in *; lia|].
  cbn [getbyte getitem nth_error fmap py_fmap mbind py_bind].
  unfold bump, spec_kind_of_byte, BtsnoopV2.HCI_COMMAND, BtsnoopV2.HCI_EVENT,
    BtsnoopV2.HCI_ACL_DATA, BtsnoopV2.HCI_SCO_DATA.
  destruct (Z.eqb_spec (b2z b) 1); [destruct (Z.eqb_spec (b2z b) 2); [lia|reflexivity]|].
  destruct (Z.eqb_spec (b2z b) 4).
  { destruct (Z.eqb_spec (b2z b) 2); [lia|].
    destruct (Z.eqb_spec (b2z b) 3); [lia|reflexivity]. }
  destruct (Z.eqb_spec (b2z b) 2); [reflexivity|].
  destruct (Z.eqb_spec (b2z b) 3); reflexivity.
Qed.

End KindFacts.

(** C7.  After a well-formed 16-byte file header, [parse_btsnoop] of
    [parse_btsnoop_v3.py] returns, without raising, one packet for each
    record whose 24-byte header and whole body are in the file, in file
    order, whatever truncated record header or body follows them.  The
    packets are numbered from 1; each holds the whole body of its record
    as data, the flags and the timestamp of its record header, and the
    direction and type that bits 0 and 1 of the flags give.  The truncated
    rest adds no packet and changes none: the result is that of the file
    cut after the last complete record; with no record at all the list is
    empty.  Every byte stream is such a sequence of complete records
    followed by a truncated rest, so this describes the reader on every
    file with that header. *)
Theorem capture_reader_yields_complete_records
    (fh : list byte) (recs : list (list byte * list byte)) (tail : list byte) :
  length fh = 16%nat ->
  startswith fh Capture.BTSNOOP_MAGIC = true ->
  Forall complete_record recs ->
  truncated tail ->
  (exists packets,
     BtsnoopV3.parse_btsnoop (fh ++ stream_of recs ++ tail) =
       Ok (packets, be2z (slice fh 12 16)) /\
     packets = packets_of BtsnoopV3.mk_packet 0 recs /\
     length packets = length recs /\
     map BtsnoopV3.pkt_num packets =
       map (fun i => Z.of_nat i + 1) (seq 0 (length recs)) /\
     map BtsnoopV3.pkt_data packets = map snd recs /\
     map BtsnoopV3.pkt_flags packets = map (fun r => be2z (slice r.1 8 12)) recs /\
     map BtsnoopV3.pkt_timestamp packets = map (fun r => be2z (slice r.1 16 24)) recs /\
     map BtsnoopV3.pkt_direction packets =
       map (fun r => if Z.testbit (be2z (slice r.1 8 12)) 0 then RX else TX) recs /\
     map BtsnoopV3.pkt_kind packets =
       map (fun r => if Z.testbit (be2z (slice r.1 8 12)) 1
                     then if Z.testbit (be2z (slice r.1 8 12)) 0
                          then BtsnoopV3.EVENT else BtsnoopV3.COMMAND
                     else BtsnoopV3.ACL) recs) /\
  BtsnoopV3.parse_btsnoop (fh ++ stream_of recs ++ tail) =
    BtsnoopV3.parse_btsnoop (fh ++ stream_of recs) /\
  (recs = [] -> BtsnoopV3.parse_btsnoop (fh ++ tail) = Ok ([], be2z (slice fh 12 16))) /\
  (forall s : list byte, exists recs' tail',
     s = stream_of recs' ++ tail' /\ Forall complete_record recs' /\ truncated tail').
Proof.
  intros Hfh Hmagic Hrecs Ht.
  destruct (capture_reader_v3_stream fh recs tail Hfh Hmagic Hrecs Ht) as [Hp Hl].
  assert (Hnil : truncated []) by (left; unfold len; simpl; lia).
  split; [|split; [|split]].
  - exists (packets_of BtsnoopV3.mk_packet 0 recs).
    split; [exact Hp|]. split; [reflexivity|]. split; [exact Hl|].
    clear. generalize 0%nat.
    induction recs as [|r recs IH]; intros n; cbn [packets_of length seq map];
      [repeat split|].
    destruct (IH (S n)) as (IH1 & IH2 & IH3 & IH4 & IH5 & IH6).
    rewrite IH1, IH2, IH3, IH4, IH5, IH6.
    unfold BtsnoopV3.mk_packet at 1 2 3 4 5 6.
    cbn [BtsnoopV3.pkt_num BtsnoopV3.pkt_data BtsnoopV3.pkt_flags BtsnoopV3.pkt_timestamp
         BtsnoopV3.pkt_direction BtsnoopV3.pkt_kind fields_of Capture.flags
         Capture.timestamp].
    rewrite truthy_bit1, truthy_low_bit. repeat split; reflexivity.
  - rewrite Hp.
    destruct (capture_reader_v3_stream fh recs [] Hfh Hmagic Hrecs Hnil) as [Hp' _].
    rewrite app_nil_r in Hp'. rewrite Hp'. reflexivity.
  - intros ->.
    apply (capture_reader_v3_stream fh [] tail Hfh Hmagic); [constructor|exact Ht].
  - apply stream_decomposition.
Qed.

(** Scenario A, the 16-byte header alone; and the capture with one record
    followed by two bytes of a second record header. *)
Lemma capture_reader_yields_complete_records_witness :
  BtsnoopV3.parse_btsnoop (file_header x00 x00 x03 xe9) = Ok ([], 1001) /\
  exists packets,
    BtsnoopV3.parse_btsnoop (capture_vendor ++ [x00; x00]) = Ok (packets, 1001) /\
    map BtsnoopV3.pkt_num packets = [1] /\
    map BtsnoopV3.pkt_data packets = [vendor_record.2] /\
    BtsnoopV3.parse_btsnoop (capture_vendor ++ [x00; x00]) =
      BtsnoopV3.parse_btsnoop capture_vendor.
Proof.
  split.
  - destruct (capture_reader_yields_complete_records (file_header x00 x00 x03 xe9) [] [])
      as (_ & _ & H & _).
    + reflexivity.
    + reflexivity.
    + constructor.
    + left. unfold len. simpl. lia.
    + rewrite app_nil_r in H. rewrite (H eq_refl). reflexivity.
  - destruct (capture_reader_yields_complete_records (file_header x00 x00 x03 xe9)
                [vendor_record] [x00; x00])
      as ((packets & Hp & _ & _ & Hn & Hd & _) & Hcut & _).
    + reflexivity.
    + reflexivity.
    + constructor; [split; reflexivity|constructor].
    + left. unfold len. simpl. lia.
    + exists packets. split; [exact Hp|]. split; [exact Hn|]. split; [exact Hd|].
      exact Hcut.
Defined.

(** In [parse_btsnoop_v3.py] the ACL header is read from the start of the
    body. *)
Lemma extract_acl_body_handle pkt out :
  BtsnoopV3.extract_acl_body pkt = Ok (Some out) ->
  BtsnoopV3.dp_handle out = Z.land (le2z (slice (BtsnoopV3.pkt_data pkt) 0 2)) 0x0FFF.
Proof.
  unfold BtsnoopV3.extract_acl_body.
  destruct (Z.ltb_spec (len (BtsnoopV3.pkt_data pkt)) 4); [intros [=]|].
  unfold unpack_H_le.
  rewrite (unpack_le_ok 2 (slice (BtsnoopV3.pkt_data pkt) 0 2))
    by (rewrite slice_length by lia; lia).
  cbn [mbind py_bind].
  repeat match goal with
         | |- (?m ≫= _) = _ -> _ => destruct m; cbn [mbind py_bind]; [|intros [=]]
         | |- (if ?c then _ else _) = _ -> _ => destruct c; [|intros [=]]
         end.
  intros [= <-]. reflexivity.
Qed.

(** C6, as it holds in the code.  No script chooses a mode from the link
    type of the file header.  [parse_btsnoop_v3.py] derives the kind of
    every record from its flags alone and leaves the body whole (the ACL
    header is read at offset 0), whatever the link type;
    [parse_btsnoop.py] and [parse_btsnoop_v2.py] use the first body byte
    as the type (1 command, 2 data, 3 SCO, 4 event) and read the ACL
    header after it, whatever the link type. *)
Theorem link_type_does_not_select_mode
    (fh : list byte) (recs : list (list byte * list byte)) (tail : list byte) :
  length fh = 16%nat ->
  startswith fh Capture.BTSNOOP_MAGIC = true ->
  Forall complete_record recs ->
  truncated tail ->
  (exists packets,
     BtsnoopV3.parse_btsnoop (fh ++ stream_of recs ++ tail) =
       Ok (packets, be2z (slice fh 12 16)) /\
     map (fun p => kind_of_v3 (BtsnoopV3.pkt_kind p)) packets =
       map (fun r => spec_kind_of_flags (be2z (slice r.1 8 12))) recs /\
     map BtsnoopV3.pkt_data packets = map snd recs /\
     forall pkt out, BtsnoopV3.extract_acl_body pkt = Ok (Some out) ->
       BtsnoopV3.dp_handle out =
         Z.land (le2z (slice (BtsnoopV3.pkt_data pkt) 0 2)) 0x0FFF) /\
  (BtsnoopV1.parse_btsnoop (fh ++ stream_of recs ++ tail) =
     Ok (packets_of BtsnoopV1.mk_packet 0 recs) /\
   forall pkt out, BtsnoopV1.extract_l2cap_body pkt = Ok (Some out) ->
     exists rest,
       BtsnoopV1.pkt_data pkt = x02 :: rest /\
       BtsnoopV1.l2_handle out = Z.land (le2z (slice rest 0 2)) 0x0FFF) /\
  (BtsnoopV2.parse_btsnoop (fh ++ stream_of recs ++ tail) =
     Ok (packets_of BtsnoopV2.mk_packet 0 recs) /\
   forall s acl_packets pkt b rest,
     BtsnoopV2.pkt_data pkt = b :: rest ->
     BtsnoopV2.analyze_step (s, acl_packets) pkt =
       Ok (bump (b2z b) s, if b2z b =? 2 then acl_packets ++ [pkt] else acl_packets)).
Proof.
  intros Hfh Hmagic Hrecs Ht. split; [|split].
  - exists (packets_of BtsnoopV3.mk_packet 0 recs).
    destruct (capture_reader_v3_stream fh recs tail Hfh Hmagic Hrecs Ht) as [Hp _].
    destruct (packets_of_v3_kinds 0 recs) as [Hk Hd].
    split; [exact Hp|]. split; [exact Hk|]. split; [exact Hd|].
    apply extract_acl_body_handle.
  - split; [apply parse_btsnoop_v1_stream; assumption|].
    apply extract_l2cap_body_type.
  - split; [apply parse_btsnoop_v2_stream; assumption|].
    intros s acl_packets pkt b rest Hd. apply (analyze_step_byte s acl_packets pkt b rest Hd).
Qed.

(** A capture that declares link type 1002: [parse_btsnoop_v3.py] still
    classifies its record by the flags and keeps the whole body. *)
Lemma link_type_does_not_select_mode_witness :
  exists p,
    BtsnoopV3.parse_btsnoop capture_h4_event = Ok ([p], 1002) /\
    kind_of_v3 (BtsnoopV3.pkt_kind p) = Data /\
    BtsnoopV3.pkt_data p = [x04; x0e; x00].
Proof.
  destruct (link_type_does_not_select_mode (file_header x00 x00 x03 xea)
              [h4_event_record] [])
    as ((packets & Hp & Hk & Hd & _) & _).
  - reflexivity.
  - reflexivity.
  - repeat constructor.
  - left. unfold len. simpl. lia.
  - destruct packets as [|p [|q packets]]; try discriminate.
    exists p. split; [|split].
    + rewrite app_nil_r in Hp. exact Hp.
    + injection Hk as ->. reflexivity.
    + injection Hd as ->. reflexivity.
Defined.

(** C6 as stated fails.  With link type 1002 the specification takes the
    first body byte 4 as the type (an event) and removes it, while
    [parse_btsnoop_v3.py] classifies the record as data and keeps the
    byte.  With link type 1001 the specification keeps the body whole,
    while [parse_btsnoop.py] takes the first byte 2 as the type and reads
    handle 1 from the bytes after it. *)
Lemma link_type_is_not_consulted :
  (let p := BtsnoopV3.mk_packet 0 (fields_of h4_event_record.1) h4_event_record.2 in
   BtsnoopV3.parse_btsnoop capture_h4_event = Ok ([p], 1002) /\
   spec_classify 1002 (BtsnoopV3.pkt_flags p) h4_event_record.2
     = (Some Event, [x0e; x00]) /\
   (Some (kind_of_v3 (BtsnoopV3.pkt_kind p)), BtsnoopV3.pkt_data p)
     = (Some Data, [x04; x0e; x00])) /\
  (let p := BtsnoopV1.mk_packet 0 (fields_of typed_record.1) typed_record.2 in
   let l := {| BtsnoopV1.l2_num := 1; BtsnoopV1.l2_direction := TX;
               BtsnoopV1.l2_handle := 1; BtsnoopV1.l2_cid := 0x0040;
               BtsnoopV1.l2_payload := uih_frame |} in
   BtsnoopV1.parse_btsnoop capture_typed_1001 = Ok [p] /\
   spec_classify 1001 (BtsnoopV1.pkt_flags p) typed_record.2
     = (Some Data, typed_record.2) /\
   BtsnoopV1.extract_l2cap_body p = Ok (Some l) /\
   Z.land (le2z (slice typed_record.2 0 2)) 0x0FFF = 0x0102).
Proof.
  split; cbv zeta; repeat split; vm_compute; reflexivity.
Qed.

(** ** The packet layer *)

Section PacketFacts.

(** [parse_btsnoop.py]: a record of the shape [h4_acl_record] whose segment
    length covers the L2CAP header and [seg]. *)
Lemma extract_l2cap_body_shape pkt h0 h1 a0 a1 l0 l1 c0 c1 seg extra :
  BtsnoopV1.pkt_data pkt = h4_acl_record h0 h1 a0 a1 l0 l1 c0 c1 seg extra ->
  le2z [a0; a1] = 4 + len seg ->
  BtsnoopV1.extract_l2cap_body pkt =
    Ok (if len seg >=? le2z [l0; l1] then
          Some {| BtsnoopV1.l2_num := BtsnoopV1.pkt_num pkt;
                  BtsnoopV1.l2_direction := BtsnoopV1.pkt_direction pkt;
                  BtsnoopV1.l2_handle := Z.land (le2z [h0; h1]) 0x0FFF;
                  BtsnoopV1.l2_cid := le2z [c0; c1];
                  BtsnoopV1.l2_payload := slice seg 0 (le2z [l0; l1]) |}
        else None).
Proof.
  intros Hd Ha. unfold BtsnoopV1.extract_l2cap_body. rewrite Hd.
  set (data := h4_acl_record h0 h1 a0 a1 l0 l1 c0 c1 seg extra).
  pose proof (len_nonneg seg). pose proof (len_nonneg extra).
  assert (Hlen : len data = 9 + len seg + len extra).
  { unfold data, h4_acl_record, acl_record. rewrite len_cons, !len_app.
    change (len [h0; h1; a0; a1; l0; l1; c0; c1]) with 8. lia. }
  destruct (Z.ltb_spec (len data) 1); [lia|].
  assert (E0 : getbyte data 0 = Ok (b2z x02)) by reflexivity.
  rewrite E0. cbn [mbind py_bind].
  change (b2z x02 =? BtsnoopV1.HCI_ACL_DATA) with true.
  destruct (Z.gtb_spec (len data) 5); [|lia]. cbn [andb].
  assert (E1 : slice data 1 3 = [h0; h1]).
  { apply (slice_app_middle [x02] [h0; h1]
             ([a0; a1; l0; l1; c0; c1] ++ seg ++ extra)); reflexivity. }
  assert (E2 : slice data 3 5 = [a0; a1]).
  { apply (slice_app_middle [x02; h0; h1] [a0; a1]
             ([l0; l1; c0; c1] ++ seg ++ extra)); reflexivity. }
  rewrite E1, E2. unfold unpack_H_le.
  rewrite (unpack_le_ok 2 [h0; h1]), (unpack_le_ok 2 [a0; a1]) by reflexivity.
  cbn [mbind py_bind]. rewrite Ha.
  destruct (Z.geb_spec (len data) (5 + (4 + len seg))); [|lia].
  destruct (Z.geb_spec (4 + len seg) 4); [|lia]. cbn [andb].
  assert (E3 : slice data 5 (5 + (4 + len seg)) = [l0; l1; c0; c1] ++ seg).
  { apply (slice_app_middle [x02; h0; h1; a0; a1] ([l0; l1; c0; c1] ++ seg) extra);
      [reflexivity|]. rewrite len_app. change (len [x02; h0; h1; a0; a1]) with 5.
    change (len [l0; l1; c0; c1]) with 4. lia. }
  rewrite E3.
  assert (E4 : slice ([l0; l1; c0; c1] ++ seg) 0 2 = [l0; l1]).
  { apply (slice_app_middle [] [l0; l1] ([c0; c1] ++ seg)); reflexivity. }
  assert (E5 : slice ([l0; l1; c0; c1] ++ seg) 2 4 = [c0; c1]).
  { apply (slice_app_middle [l0; l1] [c0; c1] seg); reflexivity. }
  rewrite E4, E5.
  rewrite (unpack_le_ok 2 [l0; l1]), (unpack_le_ok 2 [c0; c1]) by reflexivity.
  cbn [mbind py_bind].
  assert (Hl4 : len ([l0; l1; c0; c1] ++ seg) = 4 + len seg)
    by (rewrite len_app; change (len [l0; l1; c0; c1]) with 4; lia).
  rewrite Hl4. pose proof (le2z_nonneg [l0; l1]).
  destruct (Z.geb_spec (4 + len seg) (4 + le2z [l0; l1])),
           (Z.geb_spec (len seg) (le2z [l0; l1])); try lia; [|reflexivity].
  do 3 f_equal.
  rewrite !slice_inside by lia.
  replace (Z.to_nat 4) with (length [l0; l1; c0; c1]) by reflexivity.
  rewrite drop_app_length. cbn [skipn Z.to_nat]. f_equal. lia.
Qed.

(** Whatever [extract_l2cap_data] emits comes from a record of that shape
    whose declared L2CAP length fits in the segment. *)
Lemma extract_l2cap_body_inv pkt out :
  BtsnoopV1.extract_l2cap_body pkt = Ok (Some out) ->
  exists h0 h1 a0 a1 l0 l1 c0 c1 seg extra,
    BtsnoopV1.pkt_data pkt = h4_acl_record h0 h1 a0 a1 l0 l1 c0 c1 seg extra /\
    le2z [a0; a1] = 4 + len seg /\
    le2z [l0; l1] <= len seg /\
    BtsnoopV1.l2_cid out = le2z [c0; c1] /\
    BtsnoopV1.l2_payload out = slice seg 0 (le2z [l0; l1]).
Proof.
  intros H. pose proof H as H'.
  destruct (extract_l2cap_body_type _ _ H) as (body & Hd & _).
  unfold BtsnoopV1.extract_l2cap_body in H. rewrite Hd in H. revert H.
  destruct (Z.ltb_spec (len (x02 :: body)) 1); [intros [=]|].
  cbn [getbyte getitem nth_error fmap py_fmap mbind py_bind].
  change (b2z x02 =? BtsnoopV1.HCI_ACL_DATA) with true.
  destruct (Z.gtb_spec (len (x02 :: body)) 5) as [H5|]; [|intros [=]]. cbn [andb].
  rewrite len_cons in H5.
  destruct body as [|h0 [|h1 [|a0 [|a1 tail]]]];
    try (exfalso; unfold len in H5; simpl in H5; lia).
  assert (E1 : slice (x02 :: h0 :: h1 :: a0 :: a1 :: tail) 1 3 = [h0; h1]).
  { apply (slice_app_middle [x02] [h0; h1] (a0 :: a1 :: tail)); reflexivity. }
  assert (E2 : slice (x02 :: h0 :: h1 :: a0 :: a1 :: tail) 3 5 = [a0; a1]).
  { apply (slice_app_middle [x02; h0; h1] [a0; a1] tail); reflexivity. }
  rewrite E1, E2. unfold unpack_H_le.
  rewrite (unpack_le_ok 2 [h0; h1]), (unpack_le_ok 2 [a0; a1]) by reflexivity.
  cbn [mbind py_bind].
  assert (Hlen : len (x02 :: h0 :: h1 :: a0 :: a1 :: tail) = 5 + len tail)
    by (rewrite !len_cons; lia).
  rewrite Hlen.
  destruct (Z.geb_spec (5 + len tail) (5 + le2z [a0; a1])) as [Hfit|]; [|intros [=]].
  destruct (Z.geb_spec (le2z [a0; a1]) 4) as [H4|]; [|intros [=]].
  intros _.
  set (n := Z.to_nat (le2z [a0; a1])).
  assert (Hn : len (firstn n tail) = le2z [a0; a1]).
  { unfold len in *. rewrite length_firstn. lia. }
  destruct (firstn n tail) as [|l0 [|l1 [|c0 [|c1 seg]]]] eqn:Hinner;
    try (exfalso; unfold len in Hn; cbn [length] in Hn; lia).
  assert (Hseg : le2z [a0; a1] = 4 + len seg) by (rewrite !len_cons in Hn; lia).
  assert (Hdata : BtsnoopV1.pkt_data pkt =
            h4_acl_record h0 h1 a0 a1 l0 l1 c0 c1 seg (skipn n tail)).
  { rewrite Hd. unfold h4_acl_record, acl_record. simpl.
    rewrite <- (firstn_skipn n tail) at 1. rewrite Hinner. reflexivity. }
  rewrite (extract_l2cap_body_shape _ _ _ _ _ _ _ _ _ _ _ Hdata Hseg) in H'.
  destruct (Z.geb_spec (len seg) (le2z [l0; l1])); [|discriminate].
  injection H' as <-.
  exists h0, h1, a0, a1, l0, l1, c0, c1, seg, (skipn n tail).
  repeat split; try assumption; try reflexivity; lia.
Qed.

(** [extract_l2cap_body] never raises. *)
Lemma extract_l2cap_body_total pkt :
  exists o, BtsnoopV1.extract_l2cap_body pkt = Ok o.
Proof.
  unfold BtsnoopV1.extract_l2cap_body.
  destruct (Z.ltb_spec (len (BtsnoopV1.pkt_data pkt)) 1); eauto.
  destruct (BtsnoopV1.pkt_data pkt) as [|b body] eqn:Hd;
    [exfalso; unfold len in *; simpl in *; lia|].
  cbn [getbyte getitem nth_error fmap py_fmap mbind py_bind].
  destruct (b2z b =? BtsnoopV1.HCI_ACL_DATA); cbn [andb]; eauto.
  destruct (Z.gtb_spec (len (b :: body)) 5); eauto.
  unfold unpack_H_le.
  rewrite !unpack_le_ok by (rewrite slice_length by lia; lia).
  cbn [mbind py_bind].
  set (acl_len := le2z (slice (b :: body) 3 5)).
  destruct (Z.geb_spec (len (b :: body)) (5 + acl_len)); cbn [andb]; eauto.
  destruct (Z.geb_spec acl_len 4); eauto.
  rewrite !unpack_le_ok
    by (rewrite slice_length; rewrite ?slice_len; lia).
  cbn [mbind py_bind].
  match goal with |- context [if ?c then _ else _] => destruct c end; eauto.
Qed.

End PacketFacts.

Section InnerLengthFacts.

Lemma slice_length_ext {A} (l1 l2 : list A) (i j : Z) :
  length l1 = length l2 -> length (slice l1 i j) = length (slice l2 i j).
Proof.
  intros H. unfold slice, len. rewrite !length_firstn, !length_skipn, H. reflexivity.
Qed.

Lemma slice_from_lookup {A} (l : list A) (i : Z) (k : nat) :
  0 <= i -> slice_from l i !! k = l !! (Z.to_nat (Z.min i (len l)) + k)%nat.
Proof.
  intros Hi. unfold slice_from, norm_index.
  destruct (Z.ltb_spec i 0); [lia|]. apply lookup_drop.
Qed.

Lemma slice_from_ext {A} (l1 l2 : list A) (i : Z) :
  0 <= i -> length l1 = length l2 ->
  (forall k : nat, i <= Z.of_nat k -> l1 !! k = l2 !! k) ->
  slice_from l1 i = slice_from l2 i.
Proof.
  intros Hi Hlen Hagree. apply list_eq. intros k.
  rewrite !slice_from_lookup by assumption. unfold len. rewrite Hlen.
  destruct (Z.le_gt_cases i (Z.of_nat (length l2))).
  - apply Hagree. lia.
  - rewrite !lookup_ge_None_2 by lia. reflexivity.
Qed.

(** The fused loop of the second analyzer never looks at bytes 4 and 5 of
    the record body, the L2CAP length field. *)
Lemma extract_rfcomm_body_ignores_inner_length pkt pkt' :
  AutelV2.pkt_kind pkt = AutelV2.pkt_kind pkt' ->
  AutelV2.pkt_timestamp pkt = AutelV2.pkt_timestamp pkt' ->
  AutelV2.pkt_direction pkt = AutelV2.pkt_direction pkt' ->
  agree_outside 4 6 (AutelV2.pkt_data pkt) (AutelV2.pkt_data pkt') ->
  AutelV2.extract_rfcomm_body pkt = AutelV2.extract_rfcomm_body pkt'.
Proof.
  intros Hk Hts Hdir [Hlen Hagree]. unfold AutelV2.extract_rfcomm_body.
  rewrite Hk, Hts, Hdir. destruct (AutelV2.pkt_kind pkt'); try reflexivity.
  set (d := AutelV2.pkt_data pkt) in *. set (d' := AutelV2.pkt_data pkt') in *.
  assert (Hl : len d = len d') by (unfold len; rewrite Hlen; reflexivity).
  rewrite Hl. destruct (Z.ltb_spec (len d') 8); [reflexivity|].
  rewrite (slice_ext d d' 2 4) by (try lia; intros; apply Hagree; lia).
  unfold unpack_H_le. rewrite (unpack_le_ok 2 (slice d' 2 4))
    by (rewrite slice_length by lia; lia).
  cbn [mbind py_bind].
  set (acl_len := le2z (slice d' 2 4)).
  assert (0 <= acl_len) by apply le2z_nonneg.
  destruct (Z.ltb_spec (len d') (4 + acl_len)); [reflexivity|].
  set (P := slice d 4 (4 + acl_len)). set (P' := slice d' 4 (4 + acl_len)).
  assert (HlP : length P = length P') by (apply slice_length_ext, Hlen).
  assert (HPk : forall k : nat, 2 <= Z.of_nat k -> P !! k = P' !! k).
  { intros k Hk2. unfold P, P'. rewrite !slice_lookup by lia. rewrite Hl.
    destruct (_ <? _); [|reflexivity]. apply Hagree. lia. }
  assert (HlenP : len P = len P') by (unfold len; rewrite HlP; reflexivity).
  rewrite HlenP.
  rewrite (slice_ext P P' 2 4) by (try lia; intros; apply HPk; lia).
  rewrite (slice_from_ext P P' 4) by (try lia; intros; apply HPk; lia).
  reflexivity.
Qed.

Lemma extract_rfcomm_body_outer_shortfall pkt :
  len (AutelV2.pkt_data pkt) < 4 + le2z (slice (AutelV2.pkt_data pkt) 2 4) ->
  AutelV2.extract_rfcomm_body pkt = Ok None.
Proof.
  intros Hs. unfold AutelV2.extract_rfcomm_body.
  destruct (AutelV2.pkt_kind pkt); try reflexivity.
  destruct (Z.ltb_spec (len (AutelV2.pkt_data pkt)) 8); [reflexivity|].
  unfold unpack_H_le. rewrite unpack_le_ok by (rewrite slice_length by lia; lia).
  cbn [mbind py_bind].
  destruct (Z.ltb_spec (len (AutelV2.pkt_data pkt))
              (4 + le2z (slice (AutelV2.pkt_data pkt) 2 4))); [reflexivity|lia].
Qed.

End InnerLengthFacts.

(** C4, as it holds in the code.  [extract_l2cap_data] of
    [parse_btsnoop.py] never raises and is a filtering map of its loop
    body.  A data record whose segment holds a 16-bit little-endian length
    and channel identifier and at least as many bytes as that length
    declares is emitted, with that channel and exactly the declared number
    of bytes as payload; a record whose declared inner length exceeds the
    bytes of the segment is skipped; and nothing else is emitted.  The
    fused loop of [analyze_autel_protocol_v2.py] never raises, skips a
    record whose segment length exceeds the bytes of the body, and emits
    the payload of an information frame on a dynamic channel, but it does
    not read the inner length: bytes 4 and 5 of the body have no influence
    on what it emits. *)
Theorem packet_layer_lengths :
  (forall pkt, exists o, BtsnoopV1.extract_l2cap_body pkt = Ok o) /\
  (forall packets, exists f,
     (forall pkt, BtsnoopV1.extract_l2cap_body pkt = Ok (f pkt)) /\
     BtsnoopV1.extract_l2cap_data packets = Ok (omap f packets)) /\
  (forall pkt h0 h1 a0 a1 l0 l1 c0 c1 seg extra,
     BtsnoopV1.pkt_data pkt = h4_acl_record h0 h1 a0 a1 l0 l1 c0 c1 seg extra ->
     le2z [a0; a1] = 4 + len seg ->
     le2z [l0; l1] <= len seg ->
     BtsnoopV1.extract_l2cap_body pkt =
       Ok (Some {| BtsnoopV1.l2_num := BtsnoopV1.pkt_num pkt;
                   BtsnoopV1.l2_direction := BtsnoopV1.pkt_direction pkt;
                   BtsnoopV1.l2_handle := Z.land (le2z [h0; h1]) 0x0FFF;
                   BtsnoopV1.l2_cid := le2z [c0; c1];
                   BtsnoopV1.l2_payload := slice seg 0 (le2z [l0; l1]) |}) /\
     len (slice seg 0 (le2z [l0; l1])) = le2z [l0; l1]) /\
  (forall pkt out,
     BtsnoopV1.extract_l2cap_body pkt = Ok (Some out) ->
     exists h0 h1 a0 a1 l0 l1 c0 c1 seg extra,
       BtsnoopV1.pkt_data pkt = h4_acl_record h0 h1 a0 a1 l0 l1 c0 c1 seg extra /\
       le2z [a0; a1] = 4 + len seg /\
       le2z [l0; l1] <= len seg /\
       BtsnoopV1.l2_cid out = le2z [c0; c1] /\
       BtsnoopV1.l2_payload out = slice seg 0 (le2z [l0; l1]) /\
       len (BtsnoopV1.l2_payload out) = le2z [l0; l1]) /\
  (forall pkt h0 h1 a0 a1 l0 l1 c0 c1 seg extra,
     BtsnoopV1.pkt_data pkt = h4_acl_record h0 h1 a0 a1 l0 l1 c0 c1 seg extra ->
     le2z [a0; a1] = 4 + len seg ->
     len seg < le2z [l0; l1] ->
     BtsnoopV1.extract_l2cap_body pkt = Ok None) /\
  (forall pkt, exists o, AutelV2.extract_rfcomm_body pkt = Ok o) /\
  (forall packets, exists f,
     (forall pkt, AutelV2.extract_rfcomm_body pkt = Ok (f pkt)) /\
     AutelV2.extract_rfcomm_data packets = Ok (omap f packets)) /\
  (forall pkt h0 h1 a0 a1 l0 l1 c0 c1 addr control lb rest extra,
     AutelV2.pkt_kind pkt = AutelV2.ACL ->
     AutelV2.pkt_data pkt =
       acl_record h0 h1 a0 a1 l0 l1 c0 c1 (addr :: control :: lb :: rest) extra ->
     le2z [a0; a1] = 4 + len (addr :: control :: lb :: rest) ->
     0x0040 <= le2z [c0; c1] ->
     Z.land (b2z control) 0xEF = 0xEF ->
     AutelV2.extract_rfcomm_body pkt =
       Ok ((fun p => {| AutelV2.rf_timestamp := AutelV2.pkt_timestamp pkt;
                        AutelV2.rf_direction := AutelV2.pkt_direction pkt;
                        AutelV2.rf_dlci := Z.shiftr (b2z addr) 2;
                        AutelV2.rf_data := p |})
          <$> spec_uih_payload (addr :: control :: lb :: rest))) /\
  (forall pkt,
     len (AutelV2.pkt_data pkt) < 4 + le2z (slice (AutelV2.pkt_data pkt) 2 4) ->
     AutelV2.extract_rfcomm_body pkt = Ok None) /\
  (forall pkt pkt',
     AutelV2.pkt_kind pkt = AutelV2.pkt_kind pkt' ->
     AutelV2.pkt_timestamp pkt = AutelV2.pkt_timestamp pkt' ->
     AutelV2.pkt_direction pkt = AutelV2.pkt_direction pkt' ->
     agree_outside 4 6 (AutelV2.pkt_data pkt) (AutelV2.pkt_data pkt') ->
     AutelV2.extract_rfcomm_body pkt = AutelV2.extract_rfcomm_body pkt').
Proof.
  split; [|split; [|split; [|split; [|split; [|split; [|split; [|split; [|split]]]]]]]].
  - apply extract_l2cap_body_total.
  - intros packets.
    exists (fun x => match BtsnoopV1.extract_l2cap_body x with
                     | Ok o => o
                     | Raise _ => None
                     end).
    assert (H : forall pkt, BtsnoopV1.extract_l2cap_body pkt =
                  Ok match BtsnoopV1.extract_l2cap_body pkt with
                     | Ok o => o
                     | Raise _ => None
                     end).
    { intros pkt. destruct (extract_l2cap_body_total pkt) as [o ->]. reflexivity. }
    split; [exact H|].
    apply (for_append_ok BtsnoopV1.extract_l2cap_body _ packets []). intros x _. apply H.
  - intros pkt h0 h1 a0 a1 l0 l1 c0 c1 seg extra Hd Ha Hfit.
    rewrite (extract_l2cap_body_shape _ _ _ _ _ _ _ _ _ _ _ Hd Ha).
    pose proof (le2z_nonneg [l0; l1]).
    destruct (Z.geb_spec (len seg) (le2z [l0; l1])); [|lia].
    split; [reflexivity|]. rewrite slice_len; lia.
  - intros pkt out Hout.
    destruct (extract_l2cap_body_inv _ _ Hout)
      as (h0 & h1 & a0 & a1 & l0 & l1 & c0 & c1 & seg & extra &
          Hd & Ha & Hfit & Hcid & Hp).
    exists h0, h1, a0, a1, l0, l1, c0, c1, seg, extra.
    repeat split; try assumption.
    rewrite Hp, slice_len; pose proof (le2z_nonneg [l0; l1]); lia.
  - intros pkt h0 h1 a0 a1 l0 l1 c0 c1 seg extra Hd Ha Hlong.
    rewrite (extract_l2cap_body_shape _ _ _ _ _ _ _ _ _ _ _ Hd Ha).
    destruct (Z.geb_spec (len seg) (le2z [l0; l1])); [lia|reflexivity].
  - apply extract_rfcomm_body_total.
  - intros packets.
    exists (fun x => match AutelV2.extract_rfcomm_body x with
                     | Ok o => o
                     | Raise _ => None
                     end).
    assert (H : forall pkt, AutelV2.extract_rfcomm_body pkt =
                  Ok match AutelV2.extract_rfcomm_body pkt with
                     | Ok o => o
                     | Raise _ => None
                     end).
    { intros pkt. destruct (extract_rfcomm_body_total pkt) as [o ->]. reflexivity. }
    split; [exact H|].
    apply (for_append_ok AutelV2.extract_rfcomm_body _ packets []). intros x _. apply H.
  - intros. eapply extract_rfcomm_body_uih; eassumption.
  - apply extract_rfcomm_body_outer_shortfall.
  - apply extract_rfcomm_body_ignores_inner_length.
Qed.

(** The well-formed record is emitted with the five bytes it declares; the
    record that declares 100 bytes is skipped by [parse_btsnoop.py]. *)
Lemma packet_layer_lengths_witness :
  let out := {| BtsnoopV1.l2_num := 1; BtsnoopV1.l2_direction := TX;
                BtsnoopV1.l2_handle := 1; BtsnoopV1.l2_cid := 0x0040;
                BtsnoopV1.l2_payload := uih_frame |} in
  BtsnoopV1.extract_l2cap_body exact_h4_packet = Ok (Some out) /\
  len (BtsnoopV1.l2_payload out) = 5 /\
  BtsnoopV1.extract_l2cap_body overlong_h4_packet = Ok None.
Proof.
  destruct packet_layer_lengths as (_ & _ & Hemit & _ & Hskip & _).
  intros out.
  destruct (Hemit exact_h4_packet x01 x00 x09 x00 x05 x00 x40 x00 uih_frame []
              eq_refl eq_refl) as [E Hl].
  { vm_compute. discriminate. }
  split; [exact E|]. split; [exact Hl|].
  apply (Hskip overlong_h4_packet x01 x00 x09 x00 x64 x00 x40 x00 uih_frame []
           eq_refl eq_refl). vm_compute. reflexivity.
Defined.

(** C4 as stated fails on [analyze_autel_protocol_v2.py]: the record whose
    inner header declares 100 bytes, with five bytes present, is not
    skipped; the frame in those five bytes is decoded and its payload
    emitted. *)
Lemma second_analyzer_ignores_inner_length :
  le2z [x64; x00] = 100 /\
  len uih_frame = 5 /\
  AutelV2.extract_rfcomm_data [overlong_acl_packet] =
    Ok [{| AutelV2.rf_timestamp := 77; AutelV2.rf_direction := TX;
           AutelV2.rf_dlci := 12; AutelV2.rf_data := [x41] |}].
Proof. repeat split; reflexivity. Qed.

(** ** The whole pipeline on a sample capture *)

Example main_on_capture_vendor :
  AutelV2.main capture_vendor =
    Ok ([stamped {| AutelV2.rf_timestamp := 77; AutelV2.rf_direction := TX;
                    AutelV2.rf_dlci := 12; AutelV2.rf_data := sent_j2534 |}],
        {[ 7 := [stamped {| AutelV2.rf_timestamp := 77; AutelV2.rf_direction := TX;
                            AutelV2.rf_dlci := 12; AutelV2.rf_data := sent_j2534 |}] ]},
        ["DEVICE_ID_REQUEST"%string]).
Proof. vm_compute. reflexivity. Qed.

(** * Further properties of the scripts *)

(** ** The result of [parse_autel_packet] *)

Section ResultFacts.
Import AutelV2.

Lemma parse_autel_packet_misc data direction :
  r_direction (parse_autel_packet data direction) = direction /\
  r_timestamp (parse_autel_packet data direction) = None /\
  r_raw (parse_autel_packet data direction) = None.
Proof.
  unfold parse_autel_packet.
  destruct (magic_offset data direction) as [offset|]; [|repeat split].
  destruct (len data <? offset + 40); [repeat split|].
  unfold try_block. destruct (unpack_header data offset); [|repeat split].
  repeat match goal with
         | |- context [if ?c then _ else _] => destruct c
         | |- context [match ?c with Ok _ => _ | Raise _ => _ end] => destruct c
         | |- context [match ?c with Some _ => _ | None => _ end] => destruct c
         end; repeat split.
Qed.

Lemma parsed_ext (r r' : parsed) :
  r_valid r = r_valid r' -> r_direction r = r_direction r' ->
  r_short r = r_short r' -> r_hdr r = r_hdr r' -> r_payload r = r_payload r' ->
  r_crc r = r_crc r' -> r_ascii r = r_ascii r' -> r_error r = r_error r' ->
  r_timestamp r = r_timestamp r' -> r_raw r = r_raw r' -> r = r'.
Proof. destruct r, r'. simpl. congruence. Qed.

Lemma payload_of_length data offset total p :
  0 <= offset -> payload_of data offset total = Some p ->
  36 < total /\ len p = total - 36.
Proof.
  intros Ho. unfold payload_of.
  destruct (Z.ltb_spec (offset + 36) (offset + 4 + total - 4)); [|discriminate].
  destruct (Z.leb_spec (offset + 4 + total - 4) (len data)); [|discriminate].
  simpl. intros [= <-]. rewrite slice_len by lia. lia.
Qed.

Lemma slice_cons_shift {A} (x : A) (l : list A) (i j : Z) :
  1 <= i -> 1 <= j -> slice (x :: l) i j = slice l (i - 1) (j - 1).
Proof.
  intros Hi Hj. apply list_eq. intros k.
  rewrite !slice_lookup by lia. rewrite len_cons.
  replace (Z.min j (1 + len l) - Z.min i (1 + len l))
    with (Z.min (j - 1) (len l) - Z.min (i - 1) (len l)) by lia.
  destruct (_ <? _); [|reflexivity].
  replace (Z.to_nat i + k)%nat with (S (Z.to_nat (i - 1) + k)) by lia. reflexivity.
Qed.

End ResultFacts.

(** X1.  [parse_autel_packet] never records an error and keeps its result
    in one of three shapes: invalid with nothing else set, short with
    nothing else set, or parsed with a header.  A check value or an ASCII
    excerpt is only present together with a payload, a payload only with a
    header, and a payload that is present has exactly [total_len - 36]
    bytes, at least one. *)
Theorem parse_autel_packet_result_shape (data : list byte) (direction : dir) :
  let r := AutelV2.parse_autel_packet data direction in
  AutelV2.r_error r = None /\
  AutelV2.r_direction r = direction /\
  (AutelV2.r_valid r = false -> r = AutelV2.result0 false direction None) /\
  (AutelV2.r_short r = Some true -> r = AutelV2.result0 true direction (Some true)) /\
  (is_Some (AutelV2.r_hdr r) <->
     AutelV2.r_valid r = true /\ AutelV2.r_short r = Some false) /\
  (is_Some (AutelV2.r_crc r) -> is_Some (AutelV2.r_payload r)) /\
  (is_Some (AutelV2.r_ascii r) -> is_Some (AutelV2.r_payload r)) /\
  (forall p, AutelV2.r_payload r = Some p ->
     exists h, AutelV2.r_hdr r = Some h /\ 0 < len p /\
               len p = AutelV2.total_len h - 36).
Proof.
  cbv zeta. split; [apply parse_autel_packet_no_error|].
  split; [apply parse_autel_packet_misc|].
  destruct (AutelV2.magic_offset data direction) as [offset|] eqn:Hoff.
  - destruct (Z.lt_ge_cases (len data) (offset + 40)) as [Hs|Hs].
    + assert (E : AutelV2.parse_autel_packet data direction =
                  AutelV2.result0 true direction (Some true)).
      { unfold AutelV2.parse_autel_packet. rewrite Hoff.
        apply Z.ltb_lt in Hs. rewrite Hs. reflexivity. }
      rewrite E. simpl. repeat split; intros;
        repeat match goal with
               | H : is_Some None |- _ => destruct (is_Some_None_False H)
               | H : _ /\ _ |- _ => destruct H
               end; try discriminate; try reflexivity.
    + destruct (parse_autel_packet_parsed _ _ _ Hoff Hs)
        as (Hv & Hsh & _ & _ & [h Hh] & Hp & Hc & Ha).
      destruct (parse_autel_packet_header _ _ _ _ Hoff Hs Hh) as [Ht _].
      pose proof (magic_offset_range _ _ _ Hoff) as Ho.
      rewrite Hv, Hsh, Hh, Ha, Hc. split; [discriminate|]. split; [discriminate|].
      split; [split; eauto|].
      assert (Hcp : is_Some (check_of data offset
                      (le2z (slice data (offset + 4) (offset + 8)))) ->
                    is_Some (AutelV2.r_payload (AutelV2.parse_autel_packet data direction))).
      { rewrite Hp. unfold check_of, payload_of.
        destruct (Z.ltb_spec (offset + 36)
                    (offset + 4 + le2z (slice data (offset + 4) (offset + 8)) - 4));
          simpl; [|intros [? [=]]].
        destruct (Z.leb_spec (offset + 4 + le2z (slice data (offset + 4) (offset + 8))
                              - 4 + 4) (len data)); [|intros [? [=]]].
        destruct (Z.leb_spec (offset + 4 + le2z (slice data (offset + 4) (offset + 8)) - 4)
                    (len data)); [eauto|lia]. }
      split; [exact Hcp|]. split.
      * destruct (AutelV2.r_payload _); [eauto|intros [? [=]]].
      * intros p Hpp. exists h. split; [reflexivity|]. rewrite Hpp in Hp.
        symmetry in Hp. apply payload_of_length in Hp; [|lia]. rewrite Ht. lia.
  - assert (E : AutelV2.parse_autel_packet data direction =
                AutelV2.result0 false direction None).
    { unfold AutelV2.parse_autel_packet. rewrite Hoff. reflexivity. }
    rewrite E. simpl. repeat split; intros;
      repeat match goal with
             | H : is_Some None |- _ => destruct (is_Some_None_False H)
             | H : _ /\ _ |- _ => destruct H
             end; try discriminate; try reflexivity.
Qed.

(** X2.  Every header field of a parsed message, and its check value, is
    an unsigned 32-bit number. *)
Theorem parsed_fields_are_32_bit (data : list byte) (direction : dir) (h : AutelV2.header) :
  AutelV2.r_hdr (AutelV2.parse_autel_packet data direction) = Some h ->
  (0 <= AutelV2.total_len h < 2 ^ 32) /\ (0 <= AutelV2.session_id h < 2 ^ 32) /\
  (0 <= AutelV2.msg_counter h < 2 ^ 32) /\ (0 <= AutelV2.payload_len h < 2 ^ 32) /\
  (0 <= AutelV2.hflags h < 2 ^ 32) /\ (0 <= AutelV2.status h < 2 ^ 32) /\
  (0 <= AutelV2.reserved h < 2 ^ 32) /\
  (forall c, AutelV2.r_crc (AutelV2.parse_autel_packet data direction) = Some c ->
             0 <= c < 2 ^ 32).
Proof.
  intros Hh.
  destruct (AutelV2.magic_offset data direction) as [offset|] eqn:Hoff.
  2:{ unfold AutelV2.parse_autel_packet in Hh. rewrite Hoff in Hh. discriminate. }
  destruct (Z.lt_ge_cases (len data) (offset + 40)) as [Hs|Hs].
  { unfold AutelV2.parse_autel_packet in Hh. rewrite Hoff in Hh.
    apply Z.ltb_lt in Hs. rewrite Hs in Hh. discriminate. }
  destruct (parse_autel_packet_parsed _ _ _ Hoff Hs) as (_ & _ & _ & Hu & _ & _ & Hc & _).
  pose proof (magic_offset_range _ _ _ Hoff) as Ho.
  rewrite Hh in Hu. simpl in Hu. rewrite unpack_header_ok in Hu by lia.
  injection Hu as <-. cbn [AutelV2.total_len AutelV2.session_id AutelV2.msg_counter
    AutelV2.payload_len AutelV2.hflags AutelV2.status AutelV2.reserved].
  assert (B : forall i, 0 <= i -> i + 4 <= len data ->
              0 <= le2z (slice data i (i + 4)) < 2 ^ 32).
  { intros i Hi Hl. split; [apply le2z_nonneg|].
    pose proof (le2z_bound (slice data i (i + 4))) as Hb.
    rewrite slice_len in Hb by lia. replace (i + 4 - i) with 4 in Hb by lia.
    exact Hb. }
  repeat split; try apply le2z_nonneg;
    try (match goal with
         | |- le2z (slice data (offset + ?a) (offset + ?b)) < _ =>
             replace (offset + b) with (offset + a + 4) by lia; apply B; lia
         end).
  - rewrite Hc in H. unfold check_of in H.
    destruct (_ && _); [|discriminate]. injection H as <-. apply le2z_nonneg.
  - rewrite Hc in H. unfold check_of in H.
    destruct (Z.ltb_spec (offset + 36)
                (offset + 4 + le2z (slice data (offset + 4) (offset + 8)) - 4));
      simpl in H; [|discriminate].
    destruct (Z.leb_spec (offset + 4 + le2z (slice data (offset + 4) (offset + 8)) - 4 + 4)
                (len data)); [|discriminate].
    injection H as <-. apply B; lia.
Qed.

Lemma parsed_fields_are_32_bit_witness :
  0 <= 41 < 2 ^ 32 /\ 0 <= 0x04030201 < 2 ^ 32.
Proof.
  destruct (parsed_fields_are_32_bit sent_j2534 TX
              (AutelV2.Build_header 41 7 9 0 0xFFFFFFFF 0 0) eq_refl)
    as (Ht & _ & _ & _ & _ & _ & _ & Hc).
  split; [exact Ht|]. apply Hc. reflexivity.
Defined.

(** X3.  A frame that starts with the magic is parsed in the same way when
    it is received behind one zero byte, when it is received as it is, and
    (up to the recorded direction) when it is sent: the zero byte only
    shifts the offset. *)
Theorem zero_prefix_only_shifts (d : list byte) :
  startswith d AutelV2.AUTEL_MAGIC = true ->
  AutelV2.magic_offset (x00 :: d) RX = Some 1 /\
  AutelV2.magic_offset d RX = Some 0 /\
  AutelV2.parse_autel_packet (x00 :: d) RX = AutelV2.parse_autel_packet d RX /\
  (let rx := AutelV2.parse_autel_packet d RX in
   let tx := AutelV2.parse_autel_packet d TX in
   AutelV2.r_valid rx = AutelV2.r_valid tx /\ AutelV2.r_short rx = AutelV2.r_short tx /\
   AutelV2.r_hdr rx = AutelV2.r_hdr tx /\ AutelV2.r_payload rx = AutelV2.r_payload tx /\
   AutelV2.r_crc rx = AutelV2.r_crc tx /\ AutelV2.r_ascii rx = AutelV2.r_ascii tx).
Proof.
  intros Hm.
  assert (H1 : AutelV2.magic_offset (x00 :: d) RX = Some 1).
  { unfold AutelV2.magic_offset. cbn [startswith]. rewrite Hm. reflexivity. }
  assert (H0 : AutelV2.magic_offset d RX = Some 0).
  { unfold AutelV2.magic_offset. rewrite Hm.
    destruct d as [|b d']; [discriminate|]. unfold AutelV2.AUTEL_MAGIC in Hm.
    cbn [startswith] in Hm. apply andb_prop in Hm. destruct Hm as [Hb _].
    apply Byte.byte_dec_bl in Hb. subst b. reflexivity. }
  assert (HT : AutelV2.magic_offset d TX = Some 0).
  { unfold AutelV2.magic_offset. rewrite Hm. reflexivity. }
  split; [exact H1|]. split; [exact H0|].
  destruct (Z.lt_ge_cases (len d) 40) as [Hs|Hs].
  - assert (E1 : AutelV2.parse_autel_packet (x00 :: d) RX =
                 AutelV2.result0 true RX (Some true)).
    { unfold AutelV2.parse_autel_packet. rewrite H1, len_cons.
      destruct (Z.ltb_spec (1 + len d) (1 + 40)); [reflexivity|lia]. }
    assert (E0 : forall dr, AutelV2.magic_offset d dr = Some 0 ->
                 AutelV2.parse_autel_packet d dr = AutelV2.result0 true dr (Some true)).
    { intros dr Hdr. unfold AutelV2.parse_autel_packet. rewrite Hdr.
      destruct (Z.ltb_spec (len d) (0 + 40)); [reflexivity|lia]. }
    rewrite E1, (E0 RX H0), (E0 TX HT). repeat split.
  - assert (Hs1 : 1 + 40 <= len (x00 :: d)) by (rewrite len_cons; lia).
    destruct (parse_autel_packet_parsed _ _ _ H1 Hs1)
      as (Hv1 & Hsh1 & He1 & Hu1 & [h1 Hh1] & Hp1 & Hc1 & Ha1).
    destruct (parse_autel_packet_parsed _ _ _ H0 Hs)
      as (Hv0 & Hsh0 & He0 & Hu0 & [h0 Hh0] & Hp0 & Hc0 & Ha0).
    destruct (parse_autel_packet_parsed _ _ _ HT Hs)
      as (HvT & HshT & HeT & HuT & [hT HhT] & HpT & HcT & HaT).
    destruct (parse_autel_packet_misc (x00 :: d) RX) as (Hd1 & Ht1 & Hr1).
    destruct (parse_autel_packet_misc d RX) as (Hd0 & Ht0 & Hr0).
    assert (Hsl : forall i j, 1 <= i -> 1 <= j ->
              slice (x00 :: d) i j = slice d (i - 1) (j - 1))
      by (intros; apply slice_cons_shift; assumption).
    assert (Hhdr : AutelV2.unpack_header (x00 :: d) 1 = AutelV2.unpack_header d 0).
    { rewrite !unpack_header_ok by lia. rewrite !Hsl by lia. reflexivity. }
    assert (Htot : le2z (slice (x00 :: d) (1 + 4) (1 + 8)) = le2z (slice d (0 + 4) (0 + 8))).
    { rewrite Hsl by lia. reflexivity. }
    split.
    + apply parsed_ext; try congruence.
      * rewrite Hh1, Hh0 in *. simpl in Hu1, Hu0. congruence.
      * rewrite Hp1, Hp0, Htot. unfold payload_of. rewrite len_cons.
        set (t := le2z (slice d (0 + 4) (0 + 8))).
        rewrite Hsl by (pose proof (le2z_nonneg (slice d (0 + 4) (0 + 8))); lia).
        replace (1 + 36 - 1) with (0 + 36) by lia.
        replace (1 + 4 + t - 4 - 1) with (0 + 4 + t - 4) by lia.
        destruct (Z.ltb_spec (1 + 36) (1 + 4 + t - 4)),
                 (Z.ltb_spec (0 + 36) (0 + 4 + t - 4)); try lia; simpl; [|reflexivity].
        destruct (Z.leb_spec (1 + 4 + t - 4) (1 + len d)),
                 (Z.leb_spec (0 + 4 + t - 4) (len d)); try lia; reflexivity.
      * rewrite Hc1, Hc0, Htot. unfold check_of. rewrite len_cons.
        set (t := le2z (slice d (0 + 4) (0 + 8))).
        assert (0 <= t) by apply le2z_nonneg.
        rewrite Hsl by lia.
        replace (1 + 4 + t - 4 - 1) with (0 + 4 + t - 4) by lia.
        replace (1 + 4 + t - 4 + 4 - 1) with (0 + 4 + t - 4 + 4) by lia.
        destruct (Z.ltb_spec (1 + 36) (1 + 4 + t - 4)),
                 (Z.ltb_spec (0 + 36) (0 + 4 + t - 4)); try lia; simpl; [|reflexivity].
        destruct (Z.leb_spec (1 + 4 + t - 4 + 4) (1 + len d)),
                 (Z.leb_spec (0 + 4 + t - 4 + 4) (len d)); try lia; reflexivity.
      * rewrite Ha1, Ha0. f_equal.
        rewrite Hp1, Hp0, Htot. unfold payload_of. rewrite len_cons.
        set (t := le2z (slice d (0 + 4) (0 + 8))).
        assert (0 <= t) by apply le2z_nonneg.
        rewrite Hsl by lia.
        replace (1 + 36 - 1) with (0 + 36) by lia.
        replace (1 + 4 + t - 4 - 1) with (0 + 4 + t - 4) by lia.
        destruct (Z.ltb_spec (1 + 36) (1 + 4 + t - 4)),
                 (Z.ltb_spec (0 + 36) (0 + 4 + t - 4)); try lia; simpl; [|reflexivity].
        destruct (Z.leb_spec (1 + 4 + t - 4) (1 + len d)),
                 (Z.leb_spec (0 + 4 + t - 4) (len d)); try lia; reflexivity.
    + cbv zeta. rewrite Hv0, HvT, Hsh0, HshT, Ha0, HaT, Hp0, HpT, Hc0, HcT.
      repeat split. rewrite Hh0, HhT in *. simpl in Hu0, HuT. congruence.
Qed.

Lemma zero_prefix_only_shifts_witness :
  AutelV2.parse_autel_packet (x00 :: sent_j2534) RX = AutelV2.parse_autel_packet sent_j2534 RX.
Proof.
  destruct (zero_prefix_only_shifts sent_j2534 eq_refl) as (_ & _ & H & _). exact H.
Defined.

(** ** The ASCII excerpt *)

Section AsciiFacts.

Lemma ord_ascii_of_byte (b : byte) : ord (ascii_of_byte b) = b2z b.
Proof.
  unfold ord, b2z. rewrite ascii_of_byte_via_N, N_ascii_embedding; [reflexivity|].
  pose proof (Byte.to_N_bounded b). lia.
Qed.

Lemma filter_map_bytes (P : ascii -> bool) (l : list byte) :
  filter (fun c => Is_true (P c)) (map ascii_of_byte l) =
  map ascii_of_byte (filter (fun b => Is_true (P (ascii_of_byte b))) l).
Proof.
  induction l as [|b l IH]; [reflexivity|]. cbn [map].
  destruct (P (ascii_of_byte b)) eqn:E.
  - rewrite !filter_cons_True by (rewrite E; exact I). cbn [map]. rewrite IH.
    reflexivity.
  - rewrite !filter_cons_False by (rewrite E; exact id). exact IH.
Qed.

(** The printable characters kept by [ascii_excerpt] are the printable
    bytes of the payload. *)
Lemma printable_of_payload (payload : list byte) :
  filter (fun c => Is_true ((32 <=? ord c) && (ord c <? 127))) (decode_ascii_ignore payload)
  = map ascii_of_byte (filter (fun b => Is_true (printable_byte b)) payload).
Proof.
  unfold decode_ascii_ignore.
  rewrite (filter_map_bytes (fun c => (32 <=? ord c) && (ord c <? 127))).
  f_equal. induction payload as [|b l IH]; [reflexivity|].
  pose proof (b2z_range b) as Hb. pose proof (ord_ascii_of_byte b) as Ho.
  destruct (Z.ltb_spec (b2z b) 128) as [H7|H7].
  - rewrite (filter_cons_True (fun x => Is_true (b2z x <? 128)))
      by (apply Is_true_true, Z.ltb_lt; exact H7).
    destruct (printable_byte b) eqn:E.
    + rewrite !filter_cons_True;
        [f_equal; exact IH| rewrite E; exact I
        | cbv beta; rewrite Ho; unfold printable_byte in E; rewrite E; exact I].
    + rewrite !filter_cons_False;
        [exact IH| rewrite E; exact id
        | cbv beta; rewrite Ho; unfold printable_byte in E; rewrite E; exact id].
  - rewrite (filter_cons_False (fun x => Is_true (b2z x <? 128)))
      by (intros Ht; apply Is_true_true, Z.ltb_lt in Ht; lia).
    rewrite filter_cons_False; [exact IH|].
    intros Ht. apply Is_true_true, andb_prop in Ht. destruct Ht as [_ Ht].
    apply Z.ltb_lt in Ht. lia.
Qed.

Lemma lstrip_suffix (s : list ascii) : exists pre, s = pre ++ lstrip s.
Proof.
  induction s as [|c s [pre IH]]; [exists []; reflexivity|]. cbn [lstrip].
  destruct (isspace c); [|exists []; reflexivity].
  exists (c :: pre). cbn [app]. f_equal. exact IH.
Qed.

Lemma lstrip_head (s : list ascii) (c : ascii) :
  head (lstrip s) = Some c -> isspace c = false.
Proof.
  induction s as [|c' s IH]; [discriminate|]. cbn [lstrip].
  destruct (isspace c') eqn:E; [exact IH|]. simpl. intros [= <-]. exact E.
Qed.

Lemma lstrip_last (s : list ascii) (c : ascii) :
  last s = Some c -> isspace c = false -> last (lstrip s) = Some c.
Proof.
  induction s as [|c' s IH]; [discriminate|]. cbn [lstrip]. intros Hl Hc.
  destruct (isspace c') eqn:E; [|exact Hl].
  destruct s as [|c'' s']; [simpl in Hl; congruence|]. apply IH; [exact Hl|exact Hc].
Qed.

Lemma head_rev {A} (l : list A) : head (rev l) = last l.
Proof.
  induction l as [|x l IH] using rev_ind; [reflexivity|].
  rewrite rev_app_distr, last_snoc. reflexivity.
Qed.

Lemma last_rev {A} (l : list A) : last (rev l) = head l.
Proof. rewrite <- head_rev, rev_involutive. reflexivity. Qed.

(** [strip] keeps a contiguous part of the string, without white space at
    either end. *)
Lemma strip_spec (s : list ascii) :
  (exists pre post, s = pre ++ strip s ++ post) /\
  (forall c, head (strip s) = Some c -> isspace c = false) /\
  (forall c, last (strip s) = Some c -> isspace c = false).
Proof.
  unfold strip. split; [|split].
  - destruct (lstrip_suffix s) as [pre Hpre].
    destruct (lstrip_suffix (rev (lstrip s))) as [post Hpost].
    exists pre, (rev post). rewrite <- rev_app_distr, <- Hpost, rev_involutive.
    exact Hpre.
  - intros c. rewrite head_rev. intros Hl.
    destruct (head (lstrip s)) as [c0|] eqn:Hh.
    + pose proof (lstrip_head _ _ Hh) as Hc0.
      rewrite (lstrip_last (rev (lstrip s)) c0) in Hl
        by (rewrite ?last_rev; assumption).
      congruence.
    + destruct (lstrip s); [discriminate Hl|discriminate Hh].
  - intros c. rewrite last_rev. apply lstrip_head.
Qed.

End AsciiFacts.

(** X4.  [ascii_excerpt] yields a string exactly when the payload has more
    than three printable bytes (0x20 to 0x7E); the string is a contiguous
    part of those printable bytes, in order, and neither starts nor ends
    with white space. *)
Theorem ascii_excerpt_is_trimmed_printable (payload : list byte) :
  let printable := map ascii_of_byte (filter (fun b => Is_true (printable_byte b)) payload) in
  (AutelV2.ascii_excerpt payload = None <-> len printable <= 3) /\
  (forall s, AutelV2.ascii_excerpt payload = Some s ->
     3 < len printable /\
     (exists pre post, printable = pre ++ list_ascii_of_string s ++ post) /\
     Forall (fun c => printable_char c = true) (list_ascii_of_string s) /\
     (forall c, head (list_ascii_of_string s) = Some c -> isspace c = false) /\
     (forall c, last (list_ascii_of_string s) = Some c -> isspace c = false)).
Proof.
  cbv zeta. unfold AutelV2.ascii_excerpt. rewrite printable_of_payload.
  set (printable := map ascii_of_byte (filter _ payload)).
  assert (Hall : Forall (fun c => printable_char c = true) printable).
  { unfold printable. apply Forall_forall. intros c Hc.
    apply list_elem_of_In, in_map_iff in Hc. destruct Hc as (b & <- & Hb).
    apply list_elem_of_In, list_elem_of_filter in Hb. destruct Hb as [Hb _].
    apply Is_true_true in Hb. unfold printable_char, printable_byte in *.
    rewrite ord_ascii_of_byte. exact Hb. }
  destruct (Z.gtb_spec (len printable) 3) as [H3|H3].
  - split; [split; [discriminate|lia]|].
    intros s [= <-]. rewrite list_ascii_of_string_of_list_ascii.
    destruct (strip_spec printable) as ((pre & post & Hpp) & Hh & Hl).
    split; [lia|]. split; [eauto|]. split; [|split; assumption].
    rewrite Hpp in Hall. apply Forall_app in Hall. destruct Hall as [_ Hall].
    apply Forall_app in Hall. apply Hall.
  - split; [split; [lia|reflexivity]|]. discriminate.
Qed.

(** ** The tags of [identify_message_type] *)

Section TagFacts.

Lemma first_match_app rules1 rules2 m :
  first_match (rules1 ++ rules2) m =
  match first_match rules1 m with
  | Some t => Some t
  | None => first_match rules2 m
  end.
Proof.
  induction rules1 as [|[applies t] rules1 IH]; [reflexivity|]. cbn [app first_match].
  destruct (applies m); [reflexivity|exact IH].
Qed.

Lemma b2z_inj (a b : byte) : b2z a = b2z b -> a = b.
Proof.
  unfold b2z. intros H. apply N2Z.inj in H.
  pose proof (Byte.of_to_N a) as Ha. rewrite H, Byte.of_to_N in Ha. congruence.
Qed.

(** The second payload rule looks for the little-endian word 0x15E, which
    is the byte prefix of the first. *)
Lemma first_word_is_prefix (p : list byte) :
  4 <= len p -> le2z (slice p 0 4) = 0x0000015E ->
  startswith p [x5e; x01; x00; x00] = true.
Proof.
  intros H4 Hw. apply startswith_firstn. change 4 with (Z.of_nat 4) in Hw.
  rewrite slice_prefix in Hw.
  destruct p as [|b0 [|b1 [|b2 [|b3 rest]]]];
    try (exfalso; unfold len in H4; simpl in H4; lia).
  cbn [firstn le2z length] in *.
  pose proof (b2z_range b0). pose proof (b2z_range b1).
  pose proof (b2z_range b2). pose proof (b2z_range b3).
  assert (b2z b0 = b2z x5e /\ b2z b1 = b2z x01 /\ b2z b2 = b2z x00 /\ b2z b3 = b2z x00)
    as (E0 & E1 & E2 & E3).
  { change (b2z x5e) with 94. change (b2z x01) with 1. change (b2z x00) with 0. lia. }
  apply b2z_inj in E0, E1, E2, E3. subst. reflexivity.
Qed.

End TagFacts.

Lemma first_word_unpack (p : list byte) :
  (len p >=? 4) = true -> unpack_I_le (slice p 0 4) = Ok (le2z (slice p 0 4)).
Proof.
  intros H. apply unpack_le_ok. rewrite slice_length; [reflexivity|lia|lia|].
  destruct (Z.geb_spec (len p) 4); [lia|discriminate].
Qed.

Lemma second_payload_rule_is_dead (p : list byte) :
  startswith p [x5e; x01; x00; x00] = false -> (len p >=? 4) = true ->
  (le2z (slice p 0 4) =? 0x0000015E) = true -> False.
Proof.
  intros Hs H4 Hw. apply Z.eqb_eq in Hw.
  rewrite first_word_is_prefix in Hs; [discriminate| |exact Hw].
  destruct (Z.geb_spec (len p) 4); [lia|discriminate].
Qed.

(** [identify_message_type] has a tag for every result: no path raises. *)
Lemma identify_message_type_returns (pkt_data : AutelV2.parsed) (direction : dir) :
  exists tag, AutelV2.identify_message_type pkt_data direction = Ok tag.
Proof.
  unfold AutelV2.identify_message_type. cbv zeta.
  set (payload := default [] (AutelV2.r_payload pkt_data)).
  destruct (AutelV2.r_ascii pkt_data) as [ascii_content|]; destruct direction;
  repeat first
  [ progress cbn [mbind py_bind dir_eqb]
  | match goal with
    | H : (len payload >=? 4) = true |- context [unpack_I_le (slice payload 0 4)] =>
        rewrite (first_word_unpack payload H)
    end
  | match goal with
    | |- context [if ?c then _ else _] => destruct c eqn:?
    end ];
  eexists; reflexivity.
Qed.

(** X5.  [identify_message_type] returns on every result and direction,
    and its tag is one of the fixed tags of that direction or the
    [CMD_xx_yy] default.  The tag ["PASSTHRU_RESPONSE"] of the second
    payload rule is never returned: a payload whose first little-endian
    word is 0x15E starts with [5E 01 00 00] and is caught by the rule
    before it. *)
Theorem identify_message_type_tags (pkt_data : AutelV2.parsed) (direction : dir) :
  exists tag,
    AutelV2.identify_message_type pkt_data direction = Ok tag /\
    (In tag (fixed_tags direction) \/
     tag = ("CMD_" ++ format_02X (AutelV2.get_status pkt_data) ++ "_" ++
            format_02X (AutelV2.get_reserved pkt_data))%string) /\
    tag <> "PASSTHRU_RESPONSE"%string.
Proof.
  unfold AutelV2.identify_message_type. cbv zeta.
  set (payload := default [] (AutelV2.r_payload pkt_data)).
  set (status := AutelV2.get_status pkt_data).
  set (reserved := AutelV2.get_reserved pkt_data).
  destruct (AutelV2.r_ascii pkt_data) as [ascii_content|]; destruct direction;
  repeat first
  [ progress cbn [mbind py_bind dir_eqb]
  | match goal with
    | H : (len payload >=? 4) = true |- context [unpack_I_le (slice payload 0 4)] =>
        rewrite (first_word_unpack payload H)
    end
  | match goal with
    | |- context [if ?c then _ else _] => destruct c eqn:?
    end ];
  try (exfalso; eapply second_payload_rule_is_dead; eassumption);
  (eexists; split; [reflexivity|]; split;
   [first [right; reflexivity | left; cbn [fixed_tags In]; tauto] | discriminate]).
Qed.

(** ** Sessions *)

Section SessionFacts.
Import AutelV2.

Lemma correlate_step_accepted st pkt :
  correlate_step st pkt =
  if accepted pkt then
    (st.1 ++ [stamped pkt],
     <[get_session_id (stamped pkt) :=
         default [] (st.2 !! get_session_id (stamped pkt)) ++ [stamped pkt]]> st.2)
  else st.
Proof. destruct st as [pp ss]. reflexivity. Qed.

Lemma correlate_step_grouped st pkt : grouped st -> grouped (correlate_step st pkt).
Proof.
  intros Hg. rewrite correlate_step_accepted. destruct (accepted pkt); [|exact Hg].
  intros sid. cbn [fst snd]. rewrite filter_app.
  destruct (decide (sid = get_session_id (stamped pkt))) as [->|Hne].
  - rewrite lookup_insert_eq. cbn [default].
    rewrite filter_cons_True, filter_nil by reflexivity.
    destruct (Hg (get_session_id (stamped pkt))) as [-> _]. split; [reflexivity|].
    intros [= H]. apply app_eq_nil in H. destruct H as [_ H]. discriminate H.
  - rewrite lookup_insert_ne by congruence.
    rewrite filter_cons_False, filter_nil, app_nil_r by congruence.
    apply Hg.
Qed.

Lemma correlate_fold_grouped l st :
  grouped st ->
  (fold_left correlate_step l st).1 =
    st.1 ++ map stamped (filter (fun p => Is_true (accepted p)) l) /\
  grouped (fold_left correlate_step l st).
Proof.
  revert st. induction l as [|pkt l IH]; intros st Hg; cbn [fold_left].
  - rewrite filter_nil. cbn [map]. rewrite app_nil_r. auto.
  - destruct (IH _ (correlate_step_grouped st pkt Hg)) as [IH1 IH2].
    split; [|exact IH2]. rewrite IH1, correlate_step_accepted.
    destruct (accepted pkt) eqn:E.
    + rewrite filter_cons_True by (rewrite E; exact I). cbn [fst map].
      rewrite <- app_assoc. reflexivity.
    + rewrite filter_cons_False by (rewrite E; exact id). reflexivity.
Qed.

End SessionFacts.

(** X6.  The grouping loop of [main]: [parsed_packets] holds, in order,
    the stamped result of every packet whose result is valid and not
    short; the list kept under a session id is exactly the part of
    [parsed_packets] with that id, in the same order; no session is
    empty, and a session exists exactly for the ids that occur. *)
Theorem sessions_partition_parsed_packets (dlci12_packets : list AutelV2.rfcomm_packet) :
  let parsed_packets := (AutelV2.correlate dlci12_packets).1 in
  let sessions := (AutelV2.correlate dlci12_packets).2 in
  parsed_packets = map stamped (filter (fun p => Is_true (accepted p)) dlci12_packets) /\
  (forall sid,
     default [] (sessions !! sid) =
       filter (fun m => AutelV2.get_session_id m = sid) parsed_packets) /\
  (forall sid, sessions !! sid <> Some []) /\
  (forall sid, is_Some (sessions !! sid) <->
               exists m, In m parsed_packets /\ AutelV2.get_session_id m = sid).
Proof.
  cbv zeta. unfold AutelV2.correlate.
  destruct (correlate_fold_grouped dlci12_packets ([], ∅)) as [Hp Hg].
  { intros sid. cbn [fst snd]. rewrite lookup_empty, filter_nil. split; [reflexivity|].
    discriminate. }
  split; [exact Hp|]. split; [intros sid; apply Hg|]. split; [intros sid; apply Hg|].
  intros sid. destruct (Hg sid) as [Hs Hne].
  set (pp := (fold_left AutelV2.correlate_step dlci12_packets ([], ∅)).1) in *.
  set (ss := (fold_left AutelV2.correlate_step dlci12_packets ([], ∅)).2) in *.
  split.
  - intros [ms Hms]. rewrite Hms in Hs, Hne. cbn [default] in Hs.
    destruct ms as [|m ms']; [congruence|]. exists m.
    assert (Hin : m ∈ filter (fun m => AutelV2.get_session_id m = sid) pp).
    { rewrite <- Hs. left. }
    apply list_elem_of_filter in Hin. destruct Hin as [Hsid Hin].
    split; [apply list_elem_of_In; exact Hin|exact Hsid].
  - intros (m & Hin & Hsid).
    assert (Hf : m ∈ filter (fun m => AutelV2.get_session_id m = sid) pp).
    { apply list_elem_of_filter. split; [exact Hsid|apply list_elem_of_In; exact Hin]. }
    rewrite <- Hs in Hf. destruct (ss !! sid) as [ms|]; [eauto|].
    cbn [default] in Hf. inversion Hf.
Qed.

(** ** Loops that cannot raise *)

Section TotalFacts.

Lemma length_omap_le {A B} (f : A -> option B) (l : list A) :
  (length (omap f l) <= length l)%nat.
Proof.
  induction l as [|x l IH]; [reflexivity|].
  change (omap f (x :: l)) with (match f x with Some y => y :: omap f l | None => omap f l end).
  cbn [length]. destruct (f x); cbn [length]; lia.
Qed.

(** A loop whose body returns on every item is a filtering map of its
    input. *)
Lemma for_append_total {A B} (body : A -> py (option B)) (l : list A) :
  (forall x, exists o, body x = Ok o) ->
  exists f, (forall x, body x = Ok (f x)) /\ for_append body l [] = Ok (omap f l).
Proof.
  intros Hb.
  exists (fun x => match body x with Ok o => o | Raise _ => None end).
  assert (H : forall x, body x = Ok match body x with Ok o => o | Raise _ => None end).
  { intros x. destruct (Hb x) as [o ->]. reflexivity. }
  split; [exact H|].
  apply (for_append_ok body (fun x => match body x with Ok o => o | Raise _ => None end) l []).
  intros x _. apply H.
Qed.

Lemma mapM_total {A B} (f : A -> py B) (l : list A) :
  (forall x, exists y, f x = Ok y) ->
  exists ys, mapM f l = Ok ys /\ Forall2 (fun x y => f x = Ok y) l ys.
Proof.
  intros Hf. induction l as [|x l (ys & IH & HF)]; [exists []; split; [reflexivity|constructor]|].
  destruct (Hf x) as [y Hy]. exists (y :: ys). cbn [mapM]. rewrite Hy, IH.
  split; [reflexivity|]. constructor; assumption.
Qed.

(** The reading loop returns on every byte stream. *)
Lemma read_loop_total {packet} (mk : nat -> Capture.rec_fields -> list byte -> packet)
    (f : list byte) (packets : list packet) :
  exists recs tail,
    f = stream_of recs ++ tail /\ Forall complete_record recs /\ truncated tail /\
    Capture.read_loop mk f packets = Ok (packets ++ packets_of mk (length packets) recs).
Proof.
  destruct (stream_decomposition f) as (recs & tail & -> & Hr & Ht).
  exists recs, tail. repeat split; try assumption. apply read_loop_stream; assumption.
Qed.

Lemma spec_uih_payload_bounds (frame p : list byte) :
  spec_uih_payload frame = Some p ->
  0 < len p <= 32767 /\ len p <= len frame - 3.
Proof.
  unfold spec_uih_payload.
  destruct frame as [|addr [|control [|b0 rest]]]; try discriminate.
  pose proof (b2z_range b0) as H0.
  assert (Hs : 0 <= Z.shiftr (b2z b0) 1 <= 127).
  { rewrite Z.shiftr_div_pow2 by lia. change (2 ^ 1) with 2.
    split; [apply Z.div_pos; lia|].
    assert (b2z b0 / 2 < 128) by (apply Z.div_lt_upper_bound; lia). lia. }
  destruct (Z.testbit (b2z b0) 0).
  - intros H. apply spec_uih_take_length in H; [|lia|lia].
    destruct H as (Hn & Hl & Hp & _). lia.
  - destruct rest as [|b1 rest']; [discriminate|].
    pose proof (b2z_range b1) as H1.
    set (n := Z.lor _ _).
    assert (Hn : 0 <= n < 2 ^ 15).
    { assert (Hl : 0 <= Z.shiftl (b2z b1) 7 < 2 ^ 15).
      { rewrite Z.shiftl_mul_pow2 by lia. change (2 ^ 7) with 128.
        change (2 ^ 15) with 32768. lia. }
      assert (H0n : 0 <= n) by (apply Z.lor_nonneg; lia).
      split; [exact H0n|].
      destruct (Z.eq_dec n 0) as [->|Hnz]; [reflexivity|].
      apply Z.log2_lt_pow2; [lia|]. unfold n. rewrite Z.log2_lor by lia.
      apply Z.max_lub_lt.
      - destruct (Z.eq_dec (Z.shiftr (b2z b0) 1) 0) as [->|]; [reflexivity|].
        apply Z.log2_lt_pow2; [lia|]. change (2 ^ 15) with 32768. lia.
      - destruct (Z.eq_dec (Z.shiftl (b2z b1) 7) 0) as [->|]; [reflexivity|].
        apply Z.log2_lt_pow2; lia. }
    change (2 ^ 15) with 32768 in Hn.
    intros H. apply spec_uih_take_length in H; [|lia|lia].
    destruct H as (Hn' & Hl & Hp & _). lia.
Qed.

Lemma dlci_range (addr : byte) : 0 <= Z.shiftr (b2z addr) 2 < 64.
Proof.
  pose proof (b2z_range addr). rewrite Z.shiftr_div_pow2 by lia. change (2 ^ 2) with 4.
  split; [apply Z.div_pos; lia|]. apply Z.div_lt_upper_bound; lia.
Qed.

Lemma extract_rfcomm_data_total (packets : list AutelV2.packet) :
  exists out, AutelV2.extract_rfcomm_data packets = Ok out.
Proof.
  destruct (for_append_total AutelV2.extract_rfcomm_body packets
              extract_rfcomm_body_total) as (f & _ & H).
  eauto.
Qed.

Lemma parse_autel_packet_short_None data direction :
  AutelV2.r_short (AutelV2.parse_autel_packet data direction) = None ->
  AutelV2.r_valid (AutelV2.parse_autel_packet data direction) = false.
Proof.
  unfold AutelV2.parse_autel_packet.
  destruct (AutelV2.magic_offset data direction) as [offset|]; [|reflexivity].
  destruct (len data <? offset + 40); [discriminate|].
  unfold AutelV2.try_block. destruct (AutelV2.unpack_header data offset); [|discriminate].
  repeat match goal with
         | |- context [if ?c then _ else _] => destruct c
         | |- context [match ?c with Ok _ => _ | Raise _ => _ end] => destruct c
         | |- context [match ?c with Some _ => _ | None => _ end] => destruct c
         end; discriminate.
Qed.

End TotalFacts.

(** X7.  [extract_rfcomm_data] of the second analyzer returns on every
    list of packets: no record body makes a [struct.unpack] or an index
    fail.  Each packet gives at most one item and the items keep the
    packets' order.  Every item comes from an ACL packet of at least 8
    bytes, has that packet's timestamp and direction, a subchannel below
    64 and between 1 and 32767 bytes of data, at least 11 fewer than the
    record body. *)
Theorem extract_rfcomm_data_items (packets : list AutelV2.packet) :
  exists f,
    AutelV2.extract_rfcomm_data packets = Ok (omap f packets) /\
    (length (omap f packets) <= length packets)%nat /\
    forall pkt r, f pkt = Some r ->
      AutelV2.pkt_kind pkt = AutelV2.ACL /\
      AutelV2.rf_timestamp r = AutelV2.pkt_timestamp pkt /\
      AutelV2.rf_direction r = AutelV2.pkt_direction pkt /\
      0 <= AutelV2.rf_dlci r < 64 /\
      0 < len (AutelV2.rf_data r) <= 32767 /\
      len (AutelV2.rf_data r) + 11 <= len (AutelV2.pkt_data pkt).
Proof.
  destruct (for_append_total AutelV2.extract_rfcomm_body packets
              extract_rfcomm_body_total) as (f & Hf & Hout).
  exists f. split; [exact Hout|]. split; [apply length_omap_le|].
  intros pkt r Hr. pose proof (Hf pkt) as Hb. rewrite Hr in Hb.
  destruct (extract_rfcomm_body_inv pkt r Hb)
    as (h0 & h1 & a0 & a1 & l0 & l1 & c0 & c1 & addr & control & lb & rest & extra &
        Hk & Hd & Ha & Hc & Hu & Hdl & Hp).
  pose proof (extract_rfcomm_body_uih pkt h0 h1 a0 a1 l0 l1 c0 c1 addr control lb rest
                extra Hk Hd Ha Hc Hu) as Hb'.
  rewrite Hb, Hp in Hb'. injection Hb' as ->. cbn [AutelV2.rf_timestamp
    AutelV2.rf_direction AutelV2.rf_dlci AutelV2.rf_data] in *.
  destruct (spec_uih_payload_bounds _ _ Hp) as [Hl1 Hl2].
  split; [exact Hk|]. split; [reflexivity|]. split; [reflexivity|].
  split; [apply dlci_range|]. split; [exact Hl1|].
  rewrite Hd. unfold acl_record. rewrite !len_app.
  change (len [h0; h1; a0; a1; l0; l1; c0; c1]) with 8.
  pose proof (len_nonneg extra). lia.
Qed.

(** X8.  [main] of the second analyzer, up to its loops, returns on every
    file: the capture reader, the extraction loop, the vendor parser and
    the classifier never raise.  Every parsed message gets one tag, it is
    valid and not short, and carries the timestamp and raw bytes of a
    frame of subchannel 12. *)
Theorem main_returns_on_every_file (file : list byte) :
  exists parsed_packets sessions msg_types,
    AutelV2.main file = Ok (parsed_packets, sessions, msg_types) /\
    Forall2 (fun m t => AutelV2.identify_message_type m (AutelV2.r_direction m) = Ok t)
            parsed_packets msg_types /\
    Forall (fun m => AutelV2.r_valid m = true /\ AutelV2.r_short m = Some false /\
                     is_Some (AutelV2.r_timestamp m) /\ is_Some (AutelV2.r_raw m))
           parsed_packets.
Proof.
  unfold AutelV2.main.
  assert (Hp : exists packets, AutelV2.parse_btsnoop file = Ok packets).
  { unfold AutelV2.parse_btsnoop. destruct (Capture.read _ file) as [header f].
    destruct (negb _); [eauto|].
    destruct (read_loop_total AutelV2.mk_packet f []) as (recs & tail & _ & _ & _ & ->).
    eauto. }
  destruct Hp as [packets ->]. cbn [mbind py_bind].
  destruct (extract_rfcomm_data_total packets) as [rfcomm_packets ->].
  cbn [mbind py_bind].
  destruct (AutelV2.correlate (AutelV2.dlci12 rfcomm_packets)) as [pp ss] eqn:Hc.
  destruct (mapM_total (fun pkt => AutelV2.identify_message_type pkt (AutelV2.r_direction pkt))
              pp) as (tags & -> & HF).
  { intros m. apply identify_message_type_returns. }
  exists pp, ss, tags. split; [reflexivity|]. split; [exact HF|].
  assert (Hpp : pp = (AutelV2.correlate (AutelV2.dlci12 rfcomm_packets)).1)
    by (rewrite Hc; reflexivity).
  rewrite Hpp. unfold AutelV2.correlate.
  destruct (correlate_fold_grouped (AutelV2.dlci12 rfcomm_packets) ([], ∅)) as [-> _].
  { intros sid. cbn [fst snd]. rewrite lookup_empty, filter_nil. split; [reflexivity|].
    discriminate. }
  cbn [fst app]. apply Forall_forall. intros m Hm.
  apply list_elem_of_In, in_map_iff in Hm. destruct Hm as (pkt & <- & Hin).
  apply list_elem_of_In, list_elem_of_filter in Hin. destruct Hin as [Hacc _].
  apply Is_true_true in Hacc. unfold accepted in Hacc. apply andb_prop in Hacc.
  destruct Hacc as [Hv Hs]. unfold stamped.
  cbn [AutelV2.set_timestamp_raw AutelV2.r_valid AutelV2.r_short AutelV2.r_timestamp
       AutelV2.r_raw].
  split; [exact Hv|]. split; [|split; eauto].
  pose proof (parse_autel_packet_short_None (AutelV2.rf_data pkt) (AutelV2.rf_direction pkt))
    as Hnone.
  destruct (AutelV2.r_short _) as [[|]|]; cbn in Hs; try discriminate; [reflexivity|].
  rewrite Hnone in Hv by reflexivity. discriminate.
Qed.

(** ** The file header and the five readers *)

Section ReaderFacts.
Import Capture.

Lemma startswith_header (file : list byte) :
  startswith (read BTSNOOP_HEADER_SIZE file).1 BTSNOOP_MAGIC = startswith file BTSNOOP_MAGIC.
Proof.
  unfold read, BTSNOOP_HEADER_SIZE. cbn [fst]. change (Z.to_nat 16) with 16%nat.
  apply Bool.eq_true_iff_eq. rewrite !startswith_firstn.
  change (length BTSNOOP_MAGIC) with 8%nat. rewrite firstn_firstn. reflexivity.
Qed.

(** The two [struct.unpack('>I', ...)] of the file header. *)
Lemma header_words {B} (file : list byte) (k : Z -> py B) :
  let header := (read BTSNOOP_HEADER_SIZE file).1 in
  (unpack_I_be (slice header 8 12) ≫= fun _ => unpack_I_be (slice header 12 16) ≫= k) =
  if len file <? 16 then Raise StructError else k (be2z (slice header 12 16)).
Proof.
  cbv zeta. unfold read, BTSNOOP_HEADER_SIZE. cbn [fst]. change (Z.to_nat 16) with 16%nat.
  set (header := firstn 16 file).
  assert (Hl : len header = Z.min 16 (len file)).
  { unfold header, len. rewrite length_firstn. lia. }
  assert (Hs : forall i j, 0 <= i <= j ->
             length (slice header i j) = Z.to_nat (Z.min j (len header) - Z.min i (len header))).
  { intros i j Hij. unfold slice, norm_index.
    destruct (Z.ltb_spec i 0); [lia|]. destruct (Z.ltb_spec j 0); [lia|].
    rewrite length_firstn, length_skipn. unfold len. lia. }
  unfold unpack_I_be, unpack_be. rewrite !Hs by lia. rewrite Hl.
  pose proof (len_nonneg file).
  destruct (Z.ltb_spec (len file) 16) as [Hlt|Hge].
  - destruct (Nat.eqb_spec (Z.to_nat (Z.min 12 (Z.min 16 (len file)) - Z.min 8 (Z.min 16 (len file)))) 4);
      [|reflexivity].
    cbn [mbind py_bind].
    destruct (Nat.eqb_spec (Z.to_nat (Z.min 16 (Z.min 16 (len file)) - Z.min 12 (Z.min 16 (len file)))) 4);
      [lia|reflexivity].
  - destruct (Nat.eqb_spec (Z.to_nat (Z.min 12 (Z.min 16 (len file)) - Z.min 8 (Z.min 16 (len file)))) 4);
      [|lia].
    cbn [mbind py_bind].
    destruct (Nat.eqb_spec (Z.to_nat (Z.min 16 (Z.min 16 (len file)) - Z.min 12 (Z.min 16 (len file)))) 4);
      [reflexivity|lia].
Qed.

Lemma parse_btsnoop_v1_cases (file : list byte) :
  BtsnoopV1.parse_btsnoop file =
  if negb (startswith file BTSNOOP_MAGIC) then Ok []
  else if len file <? 16 then Raise StructError
  else read_loop BtsnoopV1.mk_packet (read BTSNOOP_HEADER_SIZE file).2 [].
Proof.
  unfold BtsnoopV1.parse_btsnoop. rewrite <- startswith_header.
  pose proof (header_words file
    (fun _ => read_loop BtsnoopV1.mk_packet (read BTSNOOP_HEADER_SIZE file).2 [])) as H.
  cbv zeta in H. destruct (read BTSNOOP_HEADER_SIZE file) as [header f]. cbn [fst snd] in *.
  destruct (negb _); [reflexivity|]. exact H.
Qed.

Lemma parse_btsnoop_v2_cases (file : list byte) :
  BtsnoopV2.parse_btsnoop file =
  if negb (startswith file BTSNOOP_MAGIC) then Ok []
  else if len file <? 16 then Raise StructError
  else read_loop BtsnoopV2.mk_packet (read BTSNOOP_HEADER_SIZE file).2 [].
Proof.
  unfold BtsnoopV2.parse_btsnoop. rewrite <- startswith_header.
  pose proof (header_words file
    (fun _ => read_loop BtsnoopV2.mk_packet (read BTSNOOP_HEADER_SIZE file).2 [])) as H.
  cbv zeta in H. destruct (read BTSNOOP_HEADER_SIZE file) as [header f]. cbn [fst snd] in *.
  destruct (negb _); [reflexivity|]. exact H.
Qed.

Lemma parse_btsnoop_v3_cases (file : list byte) :
  BtsnoopV3.parse_btsnoop file =
  if negb (startswith file BTSNOOP_MAGIC) then Ok ([], 0)
  else if len file <? 16 then Raise StructError
  else packets ← read_loop BtsnoopV3.mk_packet (read BTSNOOP_HEADER_SIZE file).2 [];
       Ok (packets, be2z (slice (read BTSNOOP_HEADER_SIZE file).1 12 16)).
Proof.
  unfold BtsnoopV3.parse_btsnoop. rewrite <- startswith_header.
  pose proof (header_words file
    (fun datalink => packets ← read_loop BtsnoopV3.mk_packet (read BTSNOOP_HEADER_SIZE file).2 [];
                     Ok (packets, datalink))) as H.
  cbv zeta in H. destruct (read BTSNOOP_HEADER_SIZE file) as [header f]. cbn [fst snd] in *.
  destruct (negb _); [reflexivity|]. exact H.
Qed.

Lemma parse_btsnoop_analyzer_cases (file : list byte) :
  AutelV2.parse_btsnoop file =
  if negb (startswith file BTSNOOP_MAGIC) then Ok []
  else read_loop AutelV2.mk_packet (read BTSNOOP_HEADER_SIZE file).2 [].
Proof.
  unfold AutelV2.parse_btsnoop. rewrite <- startswith_header.
  destruct (read BTSNOOP_HEADER_SIZE file) as [header f]. reflexivity.
Qed.

Lemma packets_of_map {P Q} (mk : nat -> rec_fields -> list byte -> P)
    (mk' : nat -> rec_fields -> list byte -> Q) (g : P -> Q) n recs :
  (forall n h d, mk' n h d = g (mk n h d)) ->
  packets_of mk' n recs = map g (packets_of mk n recs).
Proof.
  intros H. revert n. induction recs as [|r recs IH]; intros n; [reflexivity|].
  cbn [packets_of map]. rewrite H, IH. reflexivity.
Qed.

Lemma mk_packet_v1_of_v3 n h d : BtsnoopV1.mk_packet n h d = v1_of_v3 (BtsnoopV3.mk_packet n h d).
Proof. reflexivity. Qed.

Lemma mk_packet_v2_of_v3 n h d : BtsnoopV2.mk_packet n h d = v2_of_v3 (BtsnoopV3.mk_packet n h d).
Proof. reflexivity. Qed.

Lemma mk_packet_analyzer_of_v3 n h d :
  AutelV2.mk_packet n h d = analyzer_of_v3 (BtsnoopV3.mk_packet n h d).
Proof.
  unfold AutelV2.mk_packet, analyzer_of_v3, BtsnoopV3.mk_packet.
  cbn [BtsnoopV3.pkt_timestamp BtsnoopV3.pkt_direction BtsnoopV3.pkt_kind BtsnoopV3.pkt_data].
  destruct (truthy (Z.land (flags h) 2)), (truthy (Z.land (flags h) 1)); reflexivity.
Qed.

End ReaderFacts.

(** X9.  A file that starts with the magic but ends inside the 16-byte
    header makes [parse_btsnoop] of the three capture parsers raise
    [struct.error] on the version or link-type word, and that is the only
    way they raise.  The analyzers' [parse_btsnoop] never unpacks the
    header and returns on every file.  Without the magic, all of them
    return no packet. *)
Theorem parse_btsnoop_raises_on_short_header (file : list byte) :
  let short_header := startswith file Capture.BTSNOOP_MAGIC = true /\ len file < 16 in
  (forall e, BtsnoopV1.parse_btsnoop file = Raise e <-> e = StructError /\ short_header) /\
  (forall e, BtsnoopV2.parse_btsnoop file = Raise e <-> e = StructError /\ short_header) /\
  (forall e, BtsnoopV3.parse_btsnoop file = Raise e <-> e = StructError /\ short_header) /\
  (exists packets, AutelV2.parse_btsnoop file = Ok packets) /\
  (startswith file Capture.BTSNOOP_MAGIC = false ->
   BtsnoopV1.parse_btsnoop file = Ok [] /\ BtsnoopV2.parse_btsnoop file = Ok [] /\
   BtsnoopV3.parse_btsnoop file = Ok ([], 0) /\ AutelV2.parse_btsnoop file = Ok []).
Proof.
  cbv zeta.
  rewrite parse_btsnoop_v1_cases, parse_btsnoop_v2_cases, parse_btsnoop_v3_cases,
    parse_btsnoop_analyzer_cases.
  set (f := (Capture.read Capture.BTSNOOP_HEADER_SIZE file).2).
  destruct (read_loop_total BtsnoopV1.mk_packet f []) as (? & ? & _ & _ & _ & ->).
  destruct (read_loop_total BtsnoopV2.mk_packet f []) as (? & ? & _ & _ & _ & ->).
  destruct (read_loop_total BtsnoopV3.mk_packet f []) as (? & ? & _ & _ & _ & ->).
  destruct (read_loop_total AutelV2.mk_packet f []) as (? & ? & _ & _ & _ & ->).
  cbn [mbind py_bind].
  destruct (startswith file Capture.BTSNOOP_MAGIC); cbn [negb];
    destruct (Z.ltb_spec (len file) 16);
    repeat split; eauto; try discriminate; try lia; try congruence;
    try (intros [_ [? ?]]; first [discriminate | lia]);
    try (intros [= <-]; auto);
    try (intros [-> _]; reflexivity).
Qed.

(** X10.  The readers of the scripts decode the same records: whenever
    [parse_btsnoop] of [parse_btsnoop_v3.py] returns, so do the others,
    with one packet per packet of the third parser in the same order, each
    with the same number, timestamp, direction, flags and body.  The
    'is_command' key of the first parser is bit 1 of the flags, and the
    analyzers' 'type' is the third parser's. *)
Theorem readers_decode_the_same_records
    (file : list byte) (packets : list BtsnoopV3.packet) (datalink : Z) :
  BtsnoopV3.parse_btsnoop file = Ok (packets, datalink) ->
  BtsnoopV1.parse_btsnoop file = Ok (map v1_of_v3 packets) /\
  BtsnoopV2.parse_btsnoop file = Ok (map v2_of_v3 packets) /\
  AutelV2.parse_btsnoop file = Ok (map analyzer_of_v3 packets) /\
  Forall (fun p => BtsnoopV3.pkt_kind p = BtsnoopV3.ACL <->
                   BtsnoopV1.pkt_is_command (v1_of_v3 p) = false) packets /\
  map BtsnoopV3.pkt_num packets = map (fun i => Z.of_nat i + 1) (seq 0 (length packets)).
Proof.
  rewrite parse_btsnoop_v1_cases, parse_btsnoop_v2_cases, parse_btsnoop_v3_cases,
    parse_btsnoop_analyzer_cases.
  set (f := (Capture.read Capture.BTSNOOP_HEADER_SIZE file).2).
  destruct (stream_decomposition f) as (recs & tail & -> & Hr & Ht).
  rewrite !read_loop_stream by assumption. cbn [app length mbind py_bind].
  rewrite (packets_of_map BtsnoopV3.mk_packet BtsnoopV1.mk_packet v1_of_v3 0 recs
             mk_packet_v1_of_v3).
  rewrite (packets_of_map BtsnoopV3.mk_packet BtsnoopV2.mk_packet v2_of_v3 0 recs
             mk_packet_v2_of_v3).
  rewrite (packets_of_map BtsnoopV3.mk_packet AutelV2.mk_packet analyzer_of_v3 0 recs
             mk_packet_analyzer_of_v3).
  assert (Hk : forall n, Forall (fun p => BtsnoopV3.pkt_kind p = BtsnoopV3.ACL <->
                   BtsnoopV1.pkt_is_command (v1_of_v3 p) = false)
                 (packets_of BtsnoopV3.mk_packet n recs)).
  { clear. induction recs as [|r recs IH]; intros n; [constructor|].
    cbn [packets_of]. constructor; [|apply IH].
    unfold v1_of_v3, BtsnoopV3.mk_packet.
    cbn [BtsnoopV3.pkt_kind BtsnoopV1.pkt_is_command BtsnoopV3.pkt_flags].
    destruct (truthy (Z.land (Capture.flags (fields_of r.1)) 2)),
      (truthy (Z.land (Capture.flags (fields_of r.1)) 1)); split; congruence. }
  assert (Hn : forall n, map BtsnoopV3.pkt_num (packets_of BtsnoopV3.mk_packet n recs) =
                         map (fun i => Z.of_nat i + 1) (seq n (length recs))).
  { clear. induction recs as [|r recs IH]; intros n; [reflexivity|].
    cbn [packets_of map length seq]. rewrite IH. reflexivity. }
  assert (Hlen : forall n, length (packets_of BtsnoopV3.mk_packet n recs) = length recs).
  { clear. induction recs as [|r recs IH]; intros n; [reflexivity|].
    cbn [packets_of length]. rewrite IH. reflexivity. }
  destruct (negb _).
  - intros [= <- <-]. repeat split; try reflexivity. constructor.
  - destruct (len file <? 16); [discriminate|]. intros [= <- <-].
    repeat split; try reflexivity; [apply Hk|]. rewrite Hn, Hlen. reflexivity.
Qed.

(** The capture with one vendor frame. *)
Lemma readers_decode_the_same_records_witness :
  exists packets,
    BtsnoopV3.parse_btsnoop capture_vendor = Ok (packets, 1001) /\
    AutelV2.parse_btsnoop capture_vendor = Ok (map analyzer_of_v3 packets).
Proof.
  eexists. split.
  - vm_compute. reflexivity.
  - eapply readers_decode_the_same_records. vm_compute. reflexivity.
Defined.

(** ** The two analyzers *)

Section AnalyzerFacts.

Lemma for_append_ext {A B} (body body' : A -> py (option B)) (l : list A) (acc : list B) :
  (forall x, body x = body' x) -> for_append body l acc = for_append body' l acc.
Proof.
  intros H. revert acc. induction l as [|x l IH]; intros acc; [reflexivity|].
  cbn [for_append]. rewrite H. destruct (body' x) as [r|e]; [|reflexivity].
  cbn [mbind py_bind]. apply IH.
Qed.

Lemma extract_rfcomm_body_same pkt :
  AutelV1Lower.extract_rfcomm_body pkt = AutelV2.extract_rfcomm_body pkt.
Proof.
  unfold AutelV1Lower.extract_rfcomm_body, AutelV2.extract_rfcomm_body.
  destruct (AutelV2.pkt_kind pkt); try reflexivity. cbv zeta.
  destruct (len (AutelV2.pkt_data pkt) <? 8); [reflexivity|].
  destruct (unpack_H_le (slice (AutelV2.pkt_data pkt) 2 4)) as [acl_len|]; [|reflexivity].
  cbn [mbind py_bind].
  destruct (len (AutelV2.pkt_data pkt) <? 4 + acl_len); [reflexivity|].
  destruct (len (slice (AutelV2.pkt_data pkt) 4 (4 + acl_len)) <? 4); [reflexivity|].
  destruct (unpack_H_le _) as [l2cap_cid|]; [|reflexivity]. cbn [mbind py_bind].
  destruct (l2cap_cid <? 64); [reflexivity|]. cbn [orb].
  reflexivity.
Qed.

End AnalyzerFacts.

(** X11.  The first analyzer's [parse_btsnoop] and [extract_rfcomm_data]
    compute the same function as the second analyzer's, on every input:
    the record type written with [bool(flags & 2)] and the two separate
    channel and length guards change nothing. *)
Theorem analyzers_share_lower_layers :
  (forall file, AutelV1Lower.parse_btsnoop file = AutelV2.parse_btsnoop file) /\
  (forall packets,
     AutelV1Lower.extract_rfcomm_data packets = AutelV2.extract_rfcomm_data packets).
Proof.
  split.
  - intros file. unfold AutelV1Lower.parse_btsnoop, AutelV2.parse_btsnoop.
    destruct (Capture.read _ file) as [header f]. destruct (negb _); [reflexivity|].
    destruct (stream_decomposition f) as (recs & tail & -> & Hr & Ht).
    rewrite !read_loop_stream by assumption. reflexivity.
  - intros packets. apply for_append_ext, extract_rfcomm_body_same.
Qed.

Section ShiftFacts.

Lemma unpack_header_v1_ok data offset :
  0 <= offset -> offset + 36 <= len data ->
  AutelV1.unpack_header data offset =
    Ok {| AutelV1.total_len := le2z (slice data offset (offset + 4));
          AutelV1.msg_id := bytes_hex_upper (slice data (offset + 4) (offset + 12));
          AutelV1.payload_len := le2z (slice data (offset + 12) (offset + 16));
          AutelV1.hflags := le2z (slice data (offset + 24) (offset + 28));
          AutelV1.cmd1 := le2z (slice data (offset + 28) (offset + 32));
          AutelV1.cmd2 := le2z (slice data (offset + 32) (offset + 36)) |}.
Proof.
  intros Ho Hlen. unfold AutelV1.unpack_header, unpack_I_le.
  repeat (rewrite unpack_le_ok by (rewrite slice_length by lia; lia); simpl).
  reflexivity.
Qed.

(** Where the first analyzer resolves an offset, the second resolves the
    offset four bytes before it. *)
Lemma magic_offset_shift data direction offset :
  AutelV1.magic_offset data direction = Some offset ->
  AutelV2.magic_offset data direction = Some (offset - 4).
Proof.
  intros H1. destruct (magic_offset_v1_range _ _ _ H1) as (Hr & _ & H5).
  assert (Hsome : is_Some (AutelV2.magic_offset data direction)).
  { apply magic_offset_v2_form. apply (magic_offset_v1_form data direction). eauto. }
  destruct Hsome as [o2 H2]. rewrite H2. f_equal.
  destruct (magic_offset_range _ _ _ H2) as [->| ->].
  - destruct Hr as [->| ->]; [reflexivity|].
    assert (Hone : AutelV2.magic_offset data direction = Some 1)
      by (apply magic_offset_v2_one, H5; reflexivity).
    congruence.
  - apply magic_offset_v2_one, H5 in H2. lia.
Qed.

End ShiftFacts.

(** A frame that the first analyzer accepts is accepted by the second,
    with the same 'short' flag. *)
Lemma analyze_autel_packet_same_short (data : list byte) (direction : dir) :
  AutelV1.a_valid (AutelV1.analyze_autel_packet data direction) = true ->
  AutelV2.r_valid (AutelV2.parse_autel_packet data direction) = true /\
  AutelV1.a_short (AutelV1.analyze_autel_packet data direction) =
    AutelV2.r_short (AutelV2.parse_autel_packet data direction).
Proof.
  intros Hv. apply analyze_autel_packet_valid in Hv. destruct Hv as [o1 H1].
  pose proof (magic_offset_shift _ _ _ H1) as H2.
  split; [apply parse_autel_packet_valid; rewrite H2; eauto|].
  destruct (Z.ltb_spec (len data) (o1 + 36)) as [Hshort|Hlong].
  - unfold AutelV1.analyze_autel_packet, AutelV2.parse_autel_packet. rewrite H1, H2.
    destruct (Z.ltb_spec (len data) (o1 + 36)); [|lia].
    destruct (Z.ltb_spec (len data) (o1 - 4 + 40)); [|lia]. reflexivity.
  - destruct (parse_autel_packet_parsed data direction (o1 - 4) H2 ltac:(lia))
      as (_ & -> & _).
    unfold AutelV1.analyze_autel_packet. rewrite H1.
    destruct (Z.ltb_spec (len data) (o1 + 36)); [lia|].
    destruct (AutelV1.unpack_header data o1); [|reflexivity].
    destruct (len data >? o1 + 36); reflexivity.
Qed.

(** X12.  A frame that the first analyzer accepts is accepted by the
    second, with the same 'short' flag, and both read the same words of
    it under different names: the first analyzer's 'total_len' and
    'payload_len' are the second's, its 'flags' is the second's 'status'
    and its 'cmd1' the second's 'reserved'; its 'cmd2' is the four bytes
    that the second analyzer counts as the start of the payload. *)
Theorem first_analyzer_header_is_shifted (data : list byte) (direction : dir) :
  let a := AutelV1.analyze_autel_packet data direction in
  let r := AutelV2.parse_autel_packet data direction in
  AutelV1.a_valid a = true ->
  AutelV2.r_valid r = true /\
  AutelV1.a_short a = AutelV2.r_short r /\
  AutelV1.a_error a = None /\
  (AutelV1.a_short a = Some false ->
   exists h1 h2 offset,
     AutelV1.a_hdr a = Some h1 /\ AutelV2.r_hdr r = Some h2 /\
     AutelV2.magic_offset data direction = Some offset /\
     AutelV1.total_len h1 = AutelV2.total_len h2 /\
     AutelV1.payload_len h1 = AutelV2.payload_len h2 /\
     AutelV1.hflags h1 = AutelV2.status h2 /\
     AutelV1.cmd1 h1 = AutelV2.reserved h2 /\
     AutelV1.cmd2 h1 = le2z (slice data (offset + 36) (offset + 40))).
Proof.
  cbv zeta. intros Hv. apply analyze_autel_packet_valid in Hv. destruct Hv as [o1 H1].
  pose proof (magic_offset_shift _ _ _ H1) as H2.
  destruct (magic_offset_v1_range _ _ _ H1) as (Hr & _ & _).
  assert (Ho : 0 <= o1 - 4) by lia.
  split; [apply parse_autel_packet_valid; rewrite H2; eauto|].
  destruct (Z.ltb_spec (len data) (o1 + 36)) as [Hshort|Hlong].
  - unfold AutelV1.analyze_autel_packet, AutelV2.parse_autel_packet. rewrite H1, H2.
    destruct (Z.ltb_spec (len data) (o1 + 36)); [|lia].
    destruct (Z.ltb_spec (len data) (o1 - 4 + 40)); [|lia].
    cbn. repeat split. discriminate.
  - destruct (parse_autel_packet_parsed data direction (o1 - 4) H2 ltac:(lia))
      as (_ & Hs & _ & Hu & [h2 Hh2] & _).
    rewrite Hh2 in Hu. cbn [default] in Hu.
    rewrite unpack_header_ok in Hu by lia. injection Hu as Hu.
    rewrite Hs. unfold AutelV1.analyze_autel_packet. rewrite H1.
    destruct (Z.ltb_spec (len data) (o1 + 36)); [lia|].
    rewrite unpack_header_v1_ok by lia.
    assert (Hfields :
      le2z (slice data o1 (o1 + 4)) = AutelV2.total_len h2 /\
      le2z (slice data (o1 + 12) (o1 + 16)) = AutelV2.payload_len h2 /\
      le2z (slice data (o1 + 24) (o1 + 28)) = AutelV2.status h2 /\
      le2z (slice data (o1 + 28) (o1 + 32)) = AutelV2.reserved h2 /\
      le2z (slice data (o1 + 32) (o1 + 36)) =
        le2z (slice data (o1 - 4 + 36) (o1 - 4 + 40))).
    { rewrite <- Hu. cbn [AutelV2.total_len AutelV2.payload_len AutelV2.status
                          AutelV2.reserved].
      repeat split; f_equal; f_equal; lia. }
    destruct Hfields as (F1 & F2 & F3 & F4 & F5).
    destruct (len data >? o1 + 36);
      cbn [AutelV1.a_short AutelV1.a_error AutelV1.a_hdr];
      (split; [reflexivity|]; split; [reflexivity|]; intros _;
       eexists; exists h2, (o1 - 4);
       split; [reflexivity|]; split; [exact Hh2|]; split; [exact H2|];
       cbn [AutelV1.total_len AutelV1.payload_len AutelV1.hflags AutelV1.cmd1
            AutelV1.cmd2];
       repeat split; assumption).
Qed.

(** The sample sent message: both analyzers read total length 41. *)
Lemma first_analyzer_header_is_shifted_witness :
  AutelV1.a_valid (AutelV1.analyze_autel_packet sent_j2534 TX) = true /\
  AutelV1.a_short (AutelV1.analyze_autel_packet sent_j2534 TX) =
    AutelV2.r_short (AutelV2.parse_autel_packet sent_j2534 TX).
Proof.
  split; [reflexivity|].
  apply (first_analyzer_header_is_shifted sent_j2534 TX). reflexivity.
Defined.

(** ** The frame decoders of the capture parsers *)

Section FrameFacts.

Lemma analyze_rfcomm_body_decode pkt :
  BtsnoopV3.analyze_rfcomm_body pkt =
    Ok ((fun dp => {| BtsnoopV3.rf_num := BtsnoopV3.dp_num pkt;
                      BtsnoopV3.rf_direction := BtsnoopV3.dp_direction pkt;
                      BtsnoopV3.rf_dlci := dp.1;
                      BtsnoopV3.rf_data := dp.2 |})
        <$> uih_decode (BtsnoopV3.dp_l2cap_data pkt)).
Proof.
  destruct (BtsnoopV3.dp_l2cap_data pkt) as [|addr [|control [|lb rest]]] eqn:Hd;
    try (unfold BtsnoopV3.analyze_rfcomm_body; rewrite Hd; reflexivity).
  cbn [uih_decode]. destruct (Z.eqb_spec (Z.land (b2z control) 0xEF) 0xEF) as [Hc|Hc].
  - rewrite (analyze_rfcomm_body_uih pkt addr control lb rest Hd Hc).
    destruct (spec_uih_payload _); reflexivity.
  - unfold BtsnoopV3.analyze_rfcomm_body. rewrite Hd.
    destruct (Z.ltb_spec (len (addr :: control :: lb :: rest)) 3) as [Hl|Hl];
      [rewrite !len_cons in Hl; pose proof (len_nonneg rest); lia|].
    cbn [getbyte getitem nth_error fmap py_fmap mbind py_bind].
    destruct (Z.eqb_spec (Z.land (b2z control) 0xEF) 0xEF); [contradiction|reflexivity].
Qed.

(** On the same frame, the first parser's loop body takes every branch
    that the third parser's takes. *)
Lemma extract_rfcomm_body_v1_v3 (p1 : BtsnoopV1.l2cap_packet) (p3 : BtsnoopV3.data_packet) :
  BtsnoopV1.l2_payload p1 = BtsnoopV3.dp_l2cap_data p3 ->
  0x0003 < BtsnoopV1.l2_cid p1 ->
  BtsnoopV1.extract_rfcomm_body p1 =
    (fun o : option BtsnoopV3.rfcomm_packet =>
       (fun r => {| BtsnoopV1.rf_num := BtsnoopV1.l2_num p1;
                    BtsnoopV1.rf_direction := BtsnoopV1.l2_direction p1;
                    BtsnoopV1.rf_dlci := BtsnoopV3.rf_dlci r;
                    BtsnoopV1.rf_data := BtsnoopV3.rf_data r |}) <$> o)
    <$> BtsnoopV3.analyze_rfcomm_body p3.
Proof.
  intros Hp Hcid. unfold BtsnoopV1.extract_rfcomm_body, BtsnoopV3.analyze_rfcomm_body.
  cbv zeta. rewrite Hp.
  destruct (Z.leb_spec (BtsnoopV1.l2_cid p1) 3); [lia|].
  set (data := BtsnoopV3.dp_l2cap_data p3).
  destruct (len data <? 3); [reflexivity|].
  destruct (getbyte data 0) as [addr|]; [|reflexivity]. cbn [mbind py_bind].
  destruct (getbyte data 1) as [control|]; [|reflexivity]. cbn [mbind py_bind].
  destruct (Z.land control 239 =? 239); [|reflexivity].
  destruct (getbyte data 2) as [length_byte|]; [|reflexivity]. cbn [mbind py_bind].
  destruct (truthy (Z.land length_byte 1)); cbn [mbind py_bind].
  - destruct (len data >=? 3 + Z.shiftr length_byte 1); [|reflexivity].
    destruct (Z.shiftr length_byte 1 >? 0); reflexivity.
  - destruct (len data <? 4); [reflexivity|].
    destruct (getbyte data 3) as [b3|]; [|reflexivity]. cbn [mbind py_bind].
    destruct (len data >=? 4 + _); [|reflexivity].
    destruct (_ >? 0); reflexivity.
Qed.

End FrameFacts.

(** X13.  The frame decoders of [parse_btsnoop_v3.py] and
    [parse_btsnoop.py] return on every frame and agree: a frame shorter
    than three bytes or without the [0xEF] control byte gives nothing, and
    an information frame gives the subchannel [addr >> 2] and the payload
    chosen by its length field.  The first parser decodes this way above
    channel 0x0003, the third whatever the channel of the packet. *)
Theorem frame_decoders_agree :
  (forall pkt,
     BtsnoopV3.analyze_rfcomm_body pkt =
       Ok ((fun dp => {| BtsnoopV3.rf_num := BtsnoopV3.dp_num pkt;
                         BtsnoopV3.rf_direction := BtsnoopV3.dp_direction pkt;
                         BtsnoopV3.rf_dlci := dp.1;
                         BtsnoopV3.rf_data := dp.2 |})
           <$> uih_decode (BtsnoopV3.dp_l2cap_data pkt))) /\
  (forall pkt,
     BtsnoopV1.extract_rfcomm_body pkt =
       Ok (if BtsnoopV1.l2_cid pkt <=? 0x0003 then None
           else (fun dp => {| BtsnoopV1.rf_num := BtsnoopV1.l2_num pkt;
                              BtsnoopV1.rf_direction := BtsnoopV1.l2_direction pkt;
                              BtsnoopV1.rf_dlci := dp.1;
                              BtsnoopV1.rf_data := dp.2 |})
                <$> uih_decode (BtsnoopV1.l2_payload pkt))) /\
  (forall frame dlci payload,
     uih_decode frame = Some (dlci, payload) ->
     0 <= dlci < 64 /\ 0 < len payload <= 32767 /\ len payload + 3 <= len frame).
Proof.
  split; [exact analyze_rfcomm_body_decode|]. split.
  - intros pkt. destruct (Z.leb_spec (BtsnoopV1.l2_cid pkt) 3) as [Hc|Hc].
    + unfold BtsnoopV1.extract_rfcomm_body.
      destruct (Z.leb_spec (BtsnoopV1.l2_cid pkt) 3); [reflexivity|lia].
    + rewrite (extract_rfcomm_body_v1_v3 pkt
                 {| BtsnoopV3.dp_num := 0; BtsnoopV3.dp_direction := TX;
                    BtsnoopV3.dp_handle := 0; BtsnoopV3.dp_cid := 0;
                    BtsnoopV3.dp_pb_flag := 0; BtsnoopV3.dp_l2cap_len := 0;
                    BtsnoopV3.dp_l2cap_data := BtsnoopV1.l2_payload pkt |}
                 eq_refl Hc).
      rewrite analyze_rfcomm_body_decode. cbn [BtsnoopV3.dp_l2cap_data].
      destruct (uih_decode _) as [[dlci p]|]; reflexivity.
  - intros frame dlci payload. unfold uih_decode.
    destruct frame as [|addr [|control [|lb rest]]]; try discriminate.
    destruct (Z.land (b2z control) 239 =? 239); [|discriminate].
    destruct (spec_uih_payload _) as [p|] eqn:Hp; [|discriminate].
    intros [= <- <-]. destruct (spec_uih_payload_bounds _ _ Hp).
    split; [apply dlci_range|]. split; lia.
Qed.

(** ** The ACL stage of the third parser, and the analyzers' fused loop *)

Section StageFacts.

Lemma extract_acl_body_shape pkt :
  let data := BtsnoopV3.pkt_data pkt in
  let acl_payload := slice data 4 (4 + le2z (slice data 2 4)) in
  BtsnoopV3.extract_acl_body pkt =
    Ok (if (len data <? 4) || negb (len acl_payload >=? 4) then None
        else Some {| BtsnoopV3.dp_num := BtsnoopV3.pkt_num pkt;
                     BtsnoopV3.dp_direction := BtsnoopV3.pkt_direction pkt;
                     BtsnoopV3.dp_handle := Z.land (le2z (slice data 0 2)) 0x0FFF;
                     BtsnoopV3.dp_cid := le2z (slice acl_payload 2 4);
                     BtsnoopV3.dp_pb_flag :=
                       Z.land (Z.shiftr (le2z (slice data 0 2)) 12) 0x03;
                     BtsnoopV3.dp_l2cap_len := le2z (slice acl_payload 0 2);
                     BtsnoopV3.dp_l2cap_data := slice_from acl_payload 4 |}).
Proof.
  cbv zeta. unfold BtsnoopV3.extract_acl_body. cbv zeta.
  set (data := BtsnoopV3.pkt_data pkt).
  destruct (Z.ltb_spec (len data) 4) as [Hl|Hl]; [reflexivity|]. cbn [orb].
  unfold unpack_H_le.
  rewrite (unpack_le_ok 2 (slice data 0 2)) by (rewrite slice_length by lia; lia).
  cbn [mbind py_bind].
  rewrite (unpack_le_ok 2 (slice data 2 4)) by (rewrite slice_length by lia; lia).
  cbn [mbind py_bind].
  set (acl_payload := slice data 4 (4 + le2z (slice data 2 4))).
  destruct (Z.geb_spec (len acl_payload) 4) as [Ha|Ha]; [|reflexivity]. cbn [negb].
  rewrite (unpack_le_ok 2 (slice acl_payload 0 2)) by (rewrite slice_length by lia; lia).
  cbn [mbind py_bind].
  rewrite (unpack_le_ok 2 (slice acl_payload 2 4)) by (rewrite slice_length by lia; lia).
  reflexivity.
Qed.

Lemma extract_acl_body_total pkt : exists o, BtsnoopV3.extract_acl_body pkt = Ok o.
Proof. pose proof (extract_acl_body_shape pkt) as H. cbv zeta in H. rewrite H. eauto. Qed.

Lemma le2z_2_bound (b : list byte) : length b = 2%nat -> 0 <= le2z b < 65536.
Proof.
  destruct b as [|b0 [|b1 [|]]]; try discriminate. intros _. cbn [le2z].
  pose proof (b2z_range b0). pose proof (b2z_range b1). lia.
Qed.

Lemma land_mask_range (z m : Z) : 0 <= z -> 0 <= m -> 0 <= Z.land z m <= m.
Proof.
  intros Hz Hm. split; [apply Z.land_nonneg; auto|].
  apply Z.ldiff_le; [exact Hm|].
  apply Z.bits_inj'. intros n Hn'. rewrite Z.ldiff_spec, Z.bits_0, Z.land_spec.
  destruct (Z.testbit z n), (Z.testbit m n); reflexivity.
Qed.

End StageFacts.

Section FusedFacts.

(** On a data record with a complete segment, the fused loop body of the
    analyzers is the ACL stage of the third parser, its channel filter and
    its frame decoder, one after the other. *)
Lemma fused_body_is_staged (p : BtsnoopV3.packet) :
  BtsnoopV3.pkt_kind p = BtsnoopV3.ACL ->
  segment_complete p = true ->
  AutelV2.extract_rfcomm_body (analyzer_of_v3 p) =
    match BtsnoopV3.extract_acl_body p with
    | Ok (Some dp) =>
        if 0x0040 <=? BtsnoopV3.dp_cid dp then
          (fun o : option BtsnoopV3.rfcomm_packet =>
             (fun r => {| AutelV2.rf_timestamp := BtsnoopV3.pkt_timestamp p;
                          AutelV2.rf_direction := BtsnoopV3.rf_direction r;
                          AutelV2.rf_dlci := BtsnoopV3.rf_dlci r;
                          AutelV2.rf_data := BtsnoopV3.rf_data r |}) <$> o)
          <$> BtsnoopV3.analyze_rfcomm_body dp
        else Ok None
    | Ok None => Ok None
    | Raise e => Raise e
    end.
Proof.
  intros Hk Hc. unfold segment_complete in Hc. rewrite Hk in Hc.
  pose proof (extract_acl_body_shape p) as Hs. cbv zeta in Hs. rewrite Hs. clear Hs.
  unfold AutelV2.extract_rfcomm_body, analyzer_of_v3.
  cbn [AutelV2.pkt_kind AutelV2.pkt_data AutelV2.pkt_timestamp AutelV2.pkt_direction].
  rewrite Hk. cbv zeta.
  set (data := BtsnoopV3.pkt_data p) in *.
  set (acl_len := le2z (slice data 2 4)) in *.
  set (acl_payload := slice data 4 (4 + acl_len)).
  assert (Hacl : 4 <= len data -> 0 <= acl_len /\ 4 + acl_len <= len data /\
                                  len acl_payload = acl_len).
  { intros H4. destruct (Z.ltb_spec (len data) 4); [lia|]. cbn [orb] in Hc.
    apply Z.leb_le in Hc. pose proof (le2z_nonneg (slice data 2 4)).
    fold acl_len in H0. split; [lia|]. split; [lia|].
    unfold acl_payload. rewrite slice_len by lia. lia. }
  destruct (Z.ltb_spec (len data) 8) as [H8|H8].
  - destruct (Z.ltb_spec (len data) 4) as [H4|H4]; [reflexivity|]. cbn [orb].
    destruct (Hacl H4) as (_ & Hfit & Hlen).
    destruct (Z.geb_spec (len acl_payload) 4); [lia|reflexivity].
  - destruct (Hacl ltac:(lia)) as (Hnn & Hfit & Hlen).
    destruct (Z.ltb_spec (len data) 4); [lia|]. cbn [orb].
    unfold unpack_H_le.
    rewrite (unpack_le_ok 2 (slice data 2 4)) by (rewrite slice_length by lia; lia).
    cbn [mbind py_bind]. fold acl_len. fold acl_payload.
    destruct (Z.ltb_spec (len data) (4 + acl_len)); [lia|].
    destruct (Z.ltb_spec (len acl_payload) 4) as [Hp|Hp];
      destruct (Z.geb_spec (len acl_payload) 4); try lia; [reflexivity|].
    cbn [negb].
    rewrite (unpack_le_ok 2 (slice acl_payload 2 4)) by (rewrite slice_length by lia; lia).
    cbn [mbind py_bind BtsnoopV3.dp_cid].
    set (cid := le2z (slice acl_payload 2 4)).
    unfold BtsnoopV3.analyze_rfcomm_body. cbv zeta.
    cbn [BtsnoopV3.dp_l2cap_data BtsnoopV3.dp_num BtsnoopV3.dp_direction].
    set (l2cap_data := slice_from acl_payload 4).
    destruct (Z.ltb_spec cid 64); destruct (Z.leb_spec 64 cid); try lia; [reflexivity|].
    cbn [orb].
    destruct (len l2cap_data <? 3); [reflexivity|].
    destruct (getbyte l2cap_data 0) as [addr|]; [|reflexivity]. cbn [mbind py_bind].
    destruct (getbyte l2cap_data 1) as [control|]; [|reflexivity]. cbn [mbind py_bind].
    destruct (Z.land control 239 =? 239); [|reflexivity]. cbn [negb].
    destruct (getbyte l2cap_data 2) as [length_byte|]; [|reflexivity].
    cbn [mbind py_bind].
    destruct (truthy (Z.land length_byte 1)); cbn [mbind py_bind].
    + destruct (len l2cap_data >=? 3 + Z.shiftr length_byte 1); [|reflexivity].
      destruct (Z.shiftr length_byte 1 >? 0); reflexivity.
    + destruct (len l2cap_data <? 4); [reflexivity|].
      destruct (getbyte l2cap_data 3) as [b3|]; [|reflexivity]. cbn [mbind py_bind].
      destruct (len l2cap_data >=? 4 + _); [|reflexivity].
      destruct (_ >? 0); reflexivity.
Qed.

Lemma extract_rfcomm_body_not_acl (p : AutelV2.packet) :
  AutelV2.pkt_kind p <> AutelV2.ACL -> AutelV2.extract_rfcomm_body p = Ok None.
Proof.
  intros H. unfold AutelV2.extract_rfcomm_body.
  destruct (AutelV2.pkt_kind p); try reflexivity. contradiction.
Qed.

Lemma analyze_rfcomm_body_total pkt : exists o, BtsnoopV3.analyze_rfcomm_body pkt = Ok o.
Proof. rewrite analyze_rfcomm_body_decode. eauto. Qed.

(** The three stages of the third parser as one filtering map. *)
Lemma staged_frames (g : BtsnoopV3.packet -> option BtsnoopV3.data_packet)
    (h : BtsnoopV3.data_packet -> option BtsnoopV3.rfcomm_packet)
    (f : AutelV2.packet -> option AutelV2.rfcomm_packet)
    (packets : list BtsnoopV3.packet) :
  (forall x, BtsnoopV3.extract_acl_body x = Ok (g x)) ->
  (forall x, BtsnoopV3.analyze_rfcomm_body x = Ok (h x)) ->
  (forall x, AutelV2.extract_rfcomm_body x = Ok (f x)) ->
  forallb segment_complete packets = true ->
  map frame_of_analyzer (omap f (map analyzer_of_v3 packets)) =
  map frame_of_v3
    (omap h (filter (fun p => 0x0040 <= BtsnoopV3.dp_cid p)
               (omap g (BtsnoopV3.analyze_packets packets)))).
Proof.
  intros Hg Hh Hf. unfold BtsnoopV3.analyze_packets.
  induction packets as [|p packets IH]; [reflexivity|].
  cbn [forallb map]. intros Hc. apply andb_prop in Hc. destruct Hc as [Hp Hc].
  specialize (IH Hc).
  change (omap f (analyzer_of_v3 p :: map analyzer_of_v3 packets))
    with (match f (analyzer_of_v3 p) with
          | Some y => y :: omap f (map analyzer_of_v3 packets)
          | None => omap f (map analyzer_of_v3 packets)
          end).
  destruct (decide (BtsnoopV3.pkt_kind p = BtsnoopV3.ACL)) as [Hk|Hk].
  - rewrite filter_cons_True by exact Hk.
    change (omap g (p :: filter (fun pkt => BtsnoopV3.pkt_kind pkt = BtsnoopV3.ACL) packets))
      with (match g p with
            | Some y => y :: omap g (filter (fun pkt => BtsnoopV3.pkt_kind pkt = BtsnoopV3.ACL) packets)
            | None => omap g (filter (fun pkt => BtsnoopV3.pkt_kind pkt = BtsnoopV3.ACL) packets)
            end).
    pose proof (fused_body_is_staged p Hk Hp) as Hb. rewrite Hf, Hg in Hb.
    destruct (g p) as [dp|].
    + destruct (Z.leb_spec 64 (BtsnoopV3.dp_cid dp)) as [Hcid|Hcid].
      * rewrite filter_cons_True by exact Hcid.
        change (omap h (dp :: ?l))
          with (match h dp with Some y => y :: omap h l | None => omap h l end).
        rewrite Hh in Hb. cbn [fmap py_fmap] in Hb. injection Hb as Hb. rewrite Hb.
        destruct (h dp) as [r|]; cbn [fmap option_fmap option_map map]; [|exact IH].
        rewrite IH. reflexivity.
      * rewrite filter_cons_False by lia. injection Hb as ->. exact IH.
    + injection Hb as ->. exact IH.
  - rewrite filter_cons_False by exact Hk.
    pose proof (extract_rfcomm_body_not_acl (analyzer_of_v3 p)) as Hn.
    rewrite Hf in Hn. unfold analyzer_of_v3 in Hn at 1. cbn [AutelV2.pkt_kind] in Hn.
    assert (Hnone : f (analyzer_of_v3 p) = None).
    { assert (E : Ok (f (analyzer_of_v3 p)) = Ok None :> py _); [|congruence].
      apply Hn. destruct (BtsnoopV3.pkt_kind p); congruence. }
    rewrite Hnone. exact IH.
Qed.

End FusedFacts.

Section PipelineFacts.

Lemma total_fun {A B} (body : A -> py (option B)) :
  (forall x, exists o, body x = Ok o) -> exists f, forall x, body x = Ok (f x).
Proof.
  intros Hb. exists (fun x => match body x with Ok o => o | Raise _ => None end).
  intros x. destruct (Hb x) as [o ->]. reflexivity.
Qed.

Lemma slice_len_clamped {A} (l : list A) (i j : Z) :
  0 <= i -> 0 <= j ->
  len (slice l i j) = Z.max 0 (Z.min j (len l) - Z.min i (len l)).
Proof.
  intros Hi Hj. unfold slice, norm_index, len.
  destruct (Z.ltb_spec i 0); [lia|]. destruct (Z.ltb_spec j 0); [lia|].
  rewrite length_firstn, length_skipn. lia.
Qed.

Lemma slice_from_len {A} (l : list A) (i : Z) :
  0 <= i -> len (slice_from l i) = len l - Z.min i (len l).
Proof.
  intros Hi. unfold slice_from, norm_index, len.
  destruct (Z.ltb_spec i 0); [lia|]. rewrite length_skipn. lia.
Qed.

(** The stages of [main] of the third parser, without its early exits. *)
Lemma main_v3_staged (g : BtsnoopV3.packet -> option BtsnoopV3.data_packet)
    (h : BtsnoopV3.data_packet -> option BtsnoopV3.rfcomm_packet)
    (file : list byte) (packets : list BtsnoopV3.packet) (datalink : Z) :
  (forall x, BtsnoopV3.extract_acl_body x = Ok (g x)) ->
  (forall x, BtsnoopV3.analyze_rfcomm_body x = Ok (h x)) ->
  BtsnoopV3.parse_btsnoop file = Ok (packets, datalink) ->
  BtsnoopV3.main file =
    Ok (omap h (filter (fun p => 0x0040 <= BtsnoopV3.dp_cid p)
                  (omap g (BtsnoopV3.analyze_packets packets)))).
Proof.
  intros Hg Hh Hp. unfold BtsnoopV3.main. rewrite Hp. cbn [mbind py_bind].
  destruct (BtsnoopV3.analyze_packets packets) as [|a acl] eqn:Ha; [reflexivity|].
  unfold BtsnoopV3.extract_acl_data.
  rewrite (for_append_ok BtsnoopV3.extract_acl_body g (a :: acl) [])
    by (intros x _; apply Hg).
  cbn [app mbind py_bind].
  assert (Hr : BtsnoopV3.analyze_rfcomm_packets (omap g (a :: acl)) =
               Ok (omap h (filter (fun p => 0x0040 <= BtsnoopV3.dp_cid p)
                             (omap g (a :: acl))))).
  { rewrite analyze_rfcomm_packets_filter.
    rewrite (for_append_ok BtsnoopV3.analyze_rfcomm_body h _ [])
      by (intros x _; apply Hh).
    reflexivity. }
  destruct (omap g (a :: acl)) as [|d ds] eqn:Hd; [reflexivity|]. exact Hr.
Qed.

Lemma parse_btsnoop_analyzer_of_v3 file packets datalink :
  BtsnoopV3.parse_btsnoop file = Ok (packets, datalink) ->
  AutelV2.parse_btsnoop file = Ok (map analyzer_of_v3 packets).
Proof.
  rewrite parse_btsnoop_v3_cases, parse_btsnoop_analyzer_cases.
  set (f := (Capture.read Capture.BTSNOOP_HEADER_SIZE file).2).
  destruct (stream_decomposition f) as (recs & tail & -> & Hr & Ht).
  rewrite !read_loop_stream by assumption. cbn [app length mbind py_bind].
  rewrite (packets_of_map BtsnoopV3.mk_packet AutelV2.mk_packet analyzer_of_v3 0 recs
             mk_packet_analyzer_of_v3).
  destruct (negb _); [intros [= <- <-]; reflexivity|].
  destruct (len file <? 16); [discriminate|]. intros [= <- <-]. reflexivity.
Qed.

(** A slice of a slice, and the rest of a slice, as slices of the list. *)
Lemma slice_from_slice {A} (l : list A) (i j k : Z) :
  0 <= i -> 0 <= j -> 0 <= k -> slice_from (slice l i j) k = slice l (i + k) j.
Proof.
  intros Hi Hj Hk. apply list_eq. intros n.
  rewrite slice_from_lookup by lia. rewrite !slice_lookup by lia.
  rewrite slice_len_clamped by lia.
  destruct (Z.ltb_spec (Z.of_nat (Z.to_nat (Z.min k (Z.max 0 (Z.min j (len l) - Z.min i (len l)))) + n))
              (Z.min j (len l) - Z.min i (len l)));
    destruct (Z.ltb_spec (Z.of_nat n) (Z.min j (len l) - Z.min (i + k) (len l)));
    try lia; [|reflexivity].
  f_equal. lia.
Qed.

Lemma slice_slice {A} (l : list A) (i j a b : Z) :
  0 <= i -> 0 <= j -> 0 <= a -> 0 <= b ->
  slice (slice l i j) a b = slice l (i + a) (Z.min (i + b) j).
Proof.
  intros Hi Hj Ha Hb. apply list_eq. intros n.
  rewrite !slice_lookup by lia. rewrite slice_len_clamped by lia.
  set (m := Z.max 0 (Z.min j (len l) - Z.min i (len l))).
  destruct (Z.ltb_spec (Z.of_nat n) (Z.min b m - Z.min a m));
    destruct (Z.ltb_spec (Z.of_nat n)
                (Z.min (Z.min (i + b) j) (len l) - Z.min (i + a) (len l)));
    try lia; [|reflexivity].
  destruct (Z.ltb_spec (Z.of_nat (Z.to_nat a + n)) (Z.min j (len l) - Z.min i (len l)));
    [|lia].
  f_equal. lia.
Qed.

End PipelineFacts.

(** X14.  [extract_acl_data] of the third parser returns on every list of
    packets, with at most one item per packet, in order.  An item keeps
    the number and direction of its packet; its handle is below 4096, its
    boundary flag at most 3, and its channel and declared length are
    16-bit values.  It comes from a body of at least 8 bytes, and its data
    are the bytes of the body from offset 8 to the end of the segment or
    of the body, whichever comes first: the slice of the body from 8 to 4
    plus the length that bytes 2 and 3 declare.  Its handle and boundary
    flag are bits 0 to 11 and 12 to 13 of the first two bytes, its declared
    length bytes 4 and 5 and its channel bytes 6 and 7, all little-endian. *)
Theorem extract_acl_data_items (packets : list BtsnoopV3.packet) :
  exists g,
    BtsnoopV3.extract_acl_data packets = Ok (omap g packets) /\
    (length (omap g packets) <= length packets)%nat /\
    forall pkt dp, g pkt = Some dp ->
      let data := BtsnoopV3.pkt_data pkt in
      BtsnoopV3.dp_num dp = BtsnoopV3.pkt_num pkt /\
      BtsnoopV3.dp_direction dp = BtsnoopV3.pkt_direction pkt /\
      0 <= BtsnoopV3.dp_handle dp < 4096 /\
      0 <= BtsnoopV3.dp_pb_flag dp <= 3 /\
      0 <= BtsnoopV3.dp_cid dp < 65536 /\
      0 <= BtsnoopV3.dp_l2cap_len dp < 65536 /\
      8 <= len data /\
      len (BtsnoopV3.dp_l2cap_data dp) =
        Z.min (4 + le2z (slice data 2 4)) (len data) - 8 /\
      BtsnoopV3.dp_l2cap_data dp = slice data 8 (4 + le2z (slice data 2 4)) /\
      BtsnoopV3.dp_handle dp = Z.land (le2z (slice data 0 2)) 0x0FFF /\
      BtsnoopV3.dp_pb_flag dp = Z.land (Z.shiftr (le2z (slice data 0 2)) 12) 0x03 /\
      BtsnoopV3.dp_l2cap_len dp = le2z (slice data 4 6) /\
      BtsnoopV3.dp_cid dp = le2z (slice data 6 8).
Proof.
  destruct (total_fun _ extract_acl_body_total) as [g Hg].
  exists g. split; [apply (for_append_ok BtsnoopV3.extract_acl_body g packets []);
                    intros x _; apply Hg|].
  split; [apply length_omap_le|].
  intros pkt dp Hdp. cbv zeta.
  pose proof (extract_acl_body_shape pkt) as Hs. cbv zeta in Hs.
  rewrite Hg, Hdp in Hs. injection Hs as Hs.
  set (data := BtsnoopV3.pkt_data pkt) in *.
  set (acl_payload := slice data 4 (4 + le2z (slice data 2 4))) in *.
  destruct (Z.ltb_spec (len data) 4) as [H4|H4]; [discriminate|].
  destruct (Z.geb_spec (len acl_payload) 4) as [Ha|Ha]; [|discriminate].
  cbn [orb negb] in Hs. injection Hs as ->.
  cbn [BtsnoopV3.dp_num BtsnoopV3.dp_direction BtsnoopV3.dp_handle BtsnoopV3.dp_pb_flag
       BtsnoopV3.dp_cid BtsnoopV3.dp_l2cap_len BtsnoopV3.dp_l2cap_data].
  pose proof (le2z_nonneg (slice data 0 2)) as Hh.
  pose proof (le2z_nonneg (slice data 2 4)) as Hn.
  assert (Hlen : len acl_payload =
                 Z.max 0 (Z.min (4 + le2z (slice data 2 4)) (len data) - Z.min 4 (len data))).
  { unfold acl_payload. apply slice_len_clamped; lia. }
  split; [reflexivity|]. split; [reflexivity|].
  split; [pose proof (land_mask_range (le2z (slice data 0 2)) 4095 Hh ltac:(lia)); lia|].
  split; [apply land_mask_range; [apply Z.shiftr_nonneg; exact Hh|lia]|].
  split; [apply le2z_2_bound; rewrite slice_length by lia; reflexivity|].
  split; [apply le2z_2_bound; rewrite slice_length by lia; reflexivity|].
  split; [lia|].
  split; [rewrite slice_from_len by lia;
          rewrite (Z.min_l 4 (len acl_payload)) by lia;
          rewrite (Z.min_l 4 (len data)) in Hlen by lia; lia|].
  split; [unfold acl_payload; rewrite slice_from_slice by lia; reflexivity|].
  split; [reflexivity|]. split; [reflexivity|].
  unfold acl_payload. rewrite !slice_slice by lia.
  rewrite !Z.min_l by lia. split; reflexivity.
Qed.

(** X15.  On a capture whose data records hold the whole segment that
    their ACL header declares, the analyzers' fused loop and the three
    stages of [main] of the third parser extract the same frames: the same
    directions, subchannels and payloads, in the same order.  Neither
    raises. *)
Theorem fused_loop_matches_staged_parser
    (file : list byte) (packets : list BtsnoopV3.packet) (datalink : Z) :
  BtsnoopV3.parse_btsnoop file = Ok (packets, datalink) ->
  forallb segment_complete packets = true ->
  exists frames3 frames2,
    BtsnoopV3.main file = Ok frames3 /\
    (AutelV2.parse_btsnoop file ≫= AutelV2.extract_rfcomm_data) = Ok frames2 /\
    map frame_of_analyzer frames2 = map frame_of_v3 frames3.
Proof.
  intros Hp Hc.
  destruct (total_fun _ extract_acl_body_total) as [g Hg].
  destruct (total_fun _ analyze_rfcomm_body_total) as [h Hh].
  destruct (total_fun _ extract_rfcomm_body_total) as [f Hf].
  eexists. eexists. split; [apply (main_v3_staged g h file packets datalink Hg Hh Hp)|].
  rewrite (parse_btsnoop_analyzer_of_v3 file packets datalink Hp). cbn [mbind py_bind].
  unfold AutelV2.extract_rfcomm_data.
  rewrite (for_append_ok AutelV2.extract_rfcomm_body f _ []) by (intros x _; apply Hf).
  split; [reflexivity|]. apply staged_frames; assumption.
Qed.

(** The capture with one vendor frame. *)
Lemma fused_loop_matches_staged_parser_witness :
  exists frames3 frames2,
    BtsnoopV3.main capture_vendor = Ok frames3 /\
    (AutelV2.parse_btsnoop capture_vendor ≫= AutelV2.extract_rfcomm_data) = Ok frames2 /\
    map frame_of_analyzer frames2 = map frame_of_v3 frames3.
Proof.
  apply (fused_loop_matches_staged_parser capture_vendor
           (packets_of BtsnoopV3.mk_packet 0 [vendor_record]) 1001).
  - vm_compute. reflexivity.
  - vm_compute. reflexivity.
Defined.

(** ** The statistics of [parse_btsnoop_v2.py] *)

Section StatsFacts.

Lemma typed_cons t p packets :
  typed t (p :: packets) =
  if decide (type_byte p = Some t) then p :: typed t packets else typed t packets.
Proof. unfold typed. rewrite filter_cons. reflexivity. Qed.

Lemma analyze_loop_counts packets s0 acl0 :
  exists s,
    BtsnoopV2.analyze_loop packets (s0, acl0) = Ok (s, acl0 ++ typed 2 packets) /\
    BtsnoopV2.commands s = BtsnoopV2.commands s0 + len (typed 1 packets) /\
    BtsnoopV2.events s = BtsnoopV2.events s0 + len (typed 4 packets) /\
    BtsnoopV2.acl s = BtsnoopV2.acl s0 + len (typed 2 packets) /\
    BtsnoopV2.sco s = BtsnoopV2.sco s0 + len (typed 3 packets) /\
    BtsnoopV2.other s0 <= BtsnoopV2.other s /\
    BtsnoopV2.commands s + BtsnoopV2.events s + BtsnoopV2.acl s + BtsnoopV2.sco s +
      BtsnoopV2.other s =
    BtsnoopV2.commands s0 + BtsnoopV2.events s0 + BtsnoopV2.acl s0 + BtsnoopV2.sco s0 +
      BtsnoopV2.other s0 + len (filter (fun p => is_Some (type_byte p)) packets).
Proof.
  revert s0 acl0. induction packets as [|p packets IH]; intros s0 acl0.
  - exists s0. cbn [BtsnoopV2.analyze_loop]. unfold typed. rewrite !filter_nil, app_nil_r.
    change (len []) with 0. repeat split; lia.
  - cbn [BtsnoopV2.analyze_loop]. rewrite !typed_cons, filter_cons.
    destruct (BtsnoopV2.pkt_data p) as [|b rest] eqn:Hd.
    + assert (Hstep : BtsnoopV2.analyze_step (s0, acl0) p = Ok (s0, acl0)).
      { unfold BtsnoopV2.analyze_step. rewrite Hd. reflexivity. }
      rewrite Hstep. cbn [mbind py_bind].
      assert (Ht : type_byte p = None) by (unfold type_byte; rewrite Hd; reflexivity).
      rewrite Ht.
      repeat match goal with
             | |- context [decide (None = Some ?k)] =>
                 destruct (decide (@None Z = Some k)) as [Hx|_]; [discriminate Hx|]
             end.
      destruct (decide (is_Some (@None Z))) as [Hx|_]; [destruct (is_Some_None_False Hx)|].
      apply IH.
    + rewrite (analyze_step_byte s0 acl0 p b rest Hd). cbn [mbind py_bind].
      assert (Ht : type_byte p = Some (b2z b)) by (unfold type_byte; rewrite Hd; reflexivity).
      rewrite Ht.
      destruct (decide (is_Some (Some (b2z b)))) as [_|Hn]; [|exfalso; apply Hn; eauto].
      destruct (IH (bump (b2z b) s0) (if b2z b =? 2 then acl0 ++ [p] else acl0))
        as (s & Hs & Hc & He & Ha & Hsc & Ho & Hsum).
      exists s. rewrite Hs. clear Hs IH.
      unfold bump, spec_kind_of_byte in *. rewrite !len_cons.
      repeat match goal with
             | |- context [decide (Some (b2z b) = Some ?k)] =>
                 destruct (decide (Some (b2z b) = Some k)) as [[= ?]|?]
             end;
      repeat match goal with
             | H : context [b2z b =? ?k] |- _ => destruct (Z.eqb_spec (b2z b) k)
             | |- context [b2z b =? ?k] => destruct (Z.eqb_spec (b2z b) k)
             end;
      try congruence; try lia;
      cbn [BtsnoopV2.commands BtsnoopV2.events BtsnoopV2.acl BtsnoopV2.sco
           BtsnoopV2.other] in *;
      rewrite ?len_cons; rewrite <- ?app_assoc; cbn [app];
      (split; [reflexivity|]); repeat split; lia.
Qed.

End StatsFacts.

(** X16.  [analyze_packets] of [parse_btsnoop_v2.py] returns on every list
    of packets.  It returns the packets whose first body byte is 2, in
    order; the counters are the numbers of packets of type 1, 4, 2 and 3,
    the ACL counter is the length of the returned list, and the five
    counters add up to the number of packets with a non-empty body. *)
Theorem analyze_packets_counts (packets : list BtsnoopV2.packet) :
  exists s,
    BtsnoopV2.analyze_packets packets = Ok (s, typed 2 packets) /\
    BtsnoopV2.commands s = len (typed 1 packets) /\
    BtsnoopV2.events s = len (typed 4 packets) /\
    BtsnoopV2.acl s = len (typed 2 packets) /\
    BtsnoopV2.sco s = len (typed 3 packets) /\
    0 <= BtsnoopV2.other s /\
    BtsnoopV2.commands s + BtsnoopV2.events s + BtsnoopV2.acl s + BtsnoopV2.sco s +
      BtsnoopV2.other s =
    len (filter (fun p => is_Some (type_byte p)) packets).
Proof.
  unfold BtsnoopV2.analyze_packets.
  destruct (analyze_loop_counts packets
              {| BtsnoopV2.commands := 0; BtsnoopV2.events := 0; BtsnoopV2.acl := 0;
                 BtsnoopV2.sco := 0; BtsnoopV2.other := 0 |} [])
    as (s & Hs & Hc & He & Ha & Hsc & Ho & Hsum).
  cbn [BtsnoopV2.commands BtsnoopV2.events BtsnoopV2.acl BtsnoopV2.sco
       BtsnoopV2.other app] in *.
  exists s. split; [exact Hs|]. repeat split; try lia.
Qed.

(** ** The frames that the analyzers keep *)

Section KeepFacts.

Lemma parse_autel_packet_not_short data direction :
  AutelV2.r_short (AutelV2.parse_autel_packet data direction) = Some false ->
  exists offset, AutelV2.magic_offset data direction = Some offset /\
                 offset + 40 <= len data.
Proof.
  unfold AutelV2.parse_autel_packet.
  destruct (AutelV2.magic_offset data direction) as [offset|]; [|discriminate].
  destruct (Z.ltb_spec (len data) (offset + 40)); [discriminate|]. eauto.
Qed.

(** Both analyzers keep the same frames. *)
Lemma kept_by_both (pkt : AutelV2.rfcomm_packet) :
  let a := AutelV1.analyze_autel_packet (AutelV2.rf_data pkt) (AutelV2.rf_direction pkt) in
  (AutelV1.a_valid a = true /\ default false (AutelV1.a_short a) = false) <->
  accepted pkt = true.
Proof.
  cbv zeta. unfold accepted.
  set (data := AutelV2.rf_data pkt). set (direction := AutelV2.rf_direction pkt).
  split.
  - intros [Hv Hs].
    destruct (analyze_autel_packet_same_short data direction Hv) as (Hv2 & Hsh).
    rewrite Hv2, <- Hsh, Hs. reflexivity.
  - intros Hacc. apply andb_prop in Hacc. destruct Hacc as [Hv2 Hs2].
    assert (Hsf : AutelV2.r_short (AutelV2.parse_autel_packet data direction) = Some false).
    { pose proof (parse_autel_packet_short_None data direction) as Hn.
      destruct (AutelV2.r_short _) as [[|]|]; [discriminate Hs2|reflexivity|].
      rewrite Hn in Hv2 by reflexivity. discriminate. }
    destruct (parse_autel_packet_not_short data direction Hsf) as (offset & Hoff & Hlen).
    pose proof (magic_offset_range _ _ _ Hoff) as Hr.
    assert (Hv : AutelV1.a_valid (AutelV1.analyze_autel_packet data direction) = true).
    { apply analyze_autel_packet_valid, magic_offset_v1_form. split.
      - apply magic_offset_v2_form. rewrite Hoff. eauto.
      - intros _. lia. }
    split; [exact Hv|].
    destruct (analyze_autel_packet_same_short data direction Hv) as (_ & Hsh).
    rewrite Hsh, Hsf. reflexivity.
Qed.

End KeepFacts.

(** X17.  The two analyzers keep the same frames: the frames of
    subchannel 12 that the first analyzer classifies (valid and not short
    for [analyze_autel_packet]) are, in the same order, those whose result
    the second analyzer appends to [parsed_packets]. *)
Theorem analyzers_keep_the_same_frames (rfcomm_packets : list AutelV2.rfcomm_packet) :
  map fst (AutelV1.classified rfcomm_packets) =
    filter (fun p => Is_true (accepted p)) (AutelV2.dlci12 rfcomm_packets) /\
  map stamped (map fst (AutelV1.classified rfcomm_packets)) =
    (AutelV2.correlate (AutelV2.dlci12 rfcomm_packets)).1.
Proof.
  assert (H : map fst (AutelV1.classified rfcomm_packets) =
              filter (fun p => Is_true (accepted p)) (AutelV2.dlci12 rfcomm_packets)).
  { unfold AutelV1.classified, AutelV1.analyses.
    change (AutelV1.dlci12 rfcomm_packets) with (AutelV2.dlci12 rfcomm_packets).
    induction (AutelV2.dlci12 rfcomm_packets) as [|pkt l IH]; [reflexivity|].
    cbn [map]. rewrite !filter_cons. cbn [snd].
    pose proof (kept_by_both pkt) as Hk. cbv zeta in Hk.
    destruct (decide (_ /\ _)) as [Hy|Hn].
    - apply Hk in Hy. rewrite Hy. cbn [map fst].
      destruct (decide (Is_true true)) as [_|Hf]; [|exfalso; apply Hf; exact I].
      f_equal. exact IH.
    - destruct (accepted pkt) eqn:E; [exfalso; apply Hn, Hk; reflexivity|].
      destruct (decide (Is_true false)) as [[]|_]. exact IH. }
  split; [exact H|]. rewrite H. unfold AutelV2.correlate.
  destruct (correlate_fold_grouped (AutelV2.dlci12 rfcomm_packets) ([], ∅)) as [-> _].
  { intros sid. cbn [fst snd]. rewrite lookup_empty, filter_nil. split; [reflexivity|].
    discriminate. }
  reflexivity.
Qed.

(** ** The whole of the capture parsers *)

Section MainFacts.

Lemma extract_rfcomm_body_v1_total pkt : exists o, BtsnoopV1.extract_rfcomm_body pkt = Ok o.
Proof.
  destruct (Z.leb_spec (BtsnoopV1.l2_cid pkt) 3) as [Hc|Hc].
  - unfold BtsnoopV1.extract_rfcomm_body.
    destruct (Z.leb_spec (BtsnoopV1.l2_cid pkt) 3); [eauto|lia].
  - rewrite (extract_rfcomm_body_v1_v3 pkt
               {| BtsnoopV3.dp_num := 0; BtsnoopV3.dp_direction := TX;
                  BtsnoopV3.dp_handle := 0; BtsnoopV3.dp_cid := 0;
                  BtsnoopV3.dp_pb_flag := 0; BtsnoopV3.dp_l2cap_len := 0;
                  BtsnoopV3.dp_l2cap_data := BtsnoopV1.l2_payload pkt |}
               eq_refl Hc).
    rewrite analyze_rfcomm_body_decode. cbn [fmap py_fmap]. eauto.
Qed.

(** The stages of [main] of the first parser after the reader. *)
Lemma stages_v1_total (packets : list BtsnoopV1.packet) :
  exists l2cap_packets rfcomm_packets,
    BtsnoopV1.extract_l2cap_data packets = Ok l2cap_packets /\
    BtsnoopV1.extract_rfcomm_data l2cap_packets = Ok rfcomm_packets /\
    (length rfcomm_packets <= length l2cap_packets <= length packets)%nat.
Proof.
  destruct (total_fun _ extract_l2cap_body_total) as [g Hg].
  destruct (total_fun _ extract_rfcomm_body_v1_total) as [h Hh].
  exists (omap g packets), (omap h (omap g packets)).
  unfold BtsnoopV1.extract_l2cap_data, BtsnoopV1.extract_rfcomm_data.
  split; [apply (for_append_ok BtsnoopV1.extract_l2cap_body g packets []);
          intros x _; apply Hg|].
  split; [apply (for_append_ok BtsnoopV1.extract_rfcomm_body h (omap g packets) []);
          intros x _; apply Hh|].
  pose proof (length_omap_le g packets). pose proof (length_omap_le h (omap g packets)).
  lia.
Qed.

End MainFacts.

(** X18.  [main] of [parse_btsnoop.py] and of [parse_btsnoop_v3.py], up to
    what they print, raise exactly on a file that starts with the magic
    and has fewer than 16 bytes, with [struct.error]; on every other file
    all their stages return.  The first parser then has at most as many
    frames as L2CAP packets, and at most as many of these as records. *)
Theorem capture_parsers_raise_only_on_short_header (file : list byte) :
  let short_header := startswith file Capture.BTSNOOP_MAGIC = true /\ len file < 16 in
  (forall e, BtsnoopV1.main file = Raise e <-> e = StructError /\ short_header) /\
  (forall e, BtsnoopV3.main file = Raise e <-> e = StructError /\ short_header) /\
  (forall l2cap_packets rfcomm_packets packets,
     BtsnoopV1.main file = Ok (l2cap_packets, rfcomm_packets) ->
     BtsnoopV1.parse_btsnoop file = Ok packets ->
     (length rfcomm_packets <= length l2cap_packets <= length packets)%nat).
Proof.
  cbv zeta.
  assert (H3 : forall packets datalink,
             BtsnoopV3.parse_btsnoop file = Ok (packets, datalink) ->
             exists frames, BtsnoopV3.main file = Ok frames).
  { intros packets datalink Hp.
    destruct (total_fun _ extract_acl_body_total) as [g Hg].
    destruct (total_fun _ analyze_rfcomm_body_total) as [h Hh].
    rewrite (main_v3_staged g h file packets datalink Hg Hh Hp). eauto. }
  unfold BtsnoopV1.main, BtsnoopV3.main in *.
  rewrite parse_btsnoop_v1_cases, parse_btsnoop_v3_cases in *.
  set (f := (Capture.read Capture.BTSNOOP_HEADER_SIZE file).2) in *.
  destruct (read_loop_total BtsnoopV1.mk_packet f []) as (? & ? & _ & _ & _ & E1).
  destruct (read_loop_total BtsnoopV3.mk_packet f []) as (? & ? & _ & _ & _ & E3).
  rewrite E1, E3 in *. clear E1 E3. cbn [app length mbind py_bind] in *.
  destruct (startswith file Capture.BTSNOOP_MAGIC); cbn [negb] in *;
    [destruct (Z.ltb_spec (len file) 16)|].
  - split; [|split].
    + intros e. split; [intros [= <-]; auto|intros [-> _]; reflexivity].
    + intros e. split; [intros [= <-]; auto|intros [-> _]; reflexivity].
    + discriminate.
  - cbn [mbind py_bind] in *. split; [|split].
    + intros e. destruct (stages_v1_total (packets_of BtsnoopV1.mk_packet 0 x))
        as (l2 & rf & E1 & E2 & _).
      rewrite E1. cbn [mbind py_bind]. rewrite E2. cbn [mbind py_bind].
      split; [discriminate|intros [_ [_ ?]]; lia].
    + intros e. destruct (H3 _ _ eq_refl) as [frames Hf]. cbn [mbind py_bind] in Hf.
      rewrite Hf. split; [discriminate|intros [_ [_ ?]]; lia].
    + intros l2 rf packets Hm [= <-].
      destruct (stages_v1_total (packets_of BtsnoopV1.mk_packet 0 x))
        as (l2' & rf' & Hs1 & Hs2 & Hl).
      rewrite Hs1 in Hm. cbn [mbind py_bind] in Hm. rewrite Hs2 in Hm.
      injection Hm as <- <-. exact Hl.
  - cbn [mbind py_bind] in *. split; [|split].
    + intros e. split; [discriminate|intros [_ [? _]]; discriminate].
    + intros e. split; [discriminate|intros [_ [? _]]; discriminate].
    + intros l2 rf packets [= <- <-] [= <-]. cbn. lia.
Qed.

(** ** The ACL stage of [parse_btsnoop_v2.py] *)

Section DataFacts.

Lemma extract_acl_body_v2_shape pkt :
  let data := BtsnoopV2.pkt_data pkt in
  let acl_payload := slice data 5 (5 + le2z (slice data 3 5)) in
  BtsnoopV2Data.extract_acl_body pkt =
    Ok (if (len data <? 5) || negb (len acl_payload >=? 4) then None
        else Some {| BtsnoopV2Data.dp_num := BtsnoopV2.pkt_num pkt;
                     BtsnoopV2Data.dp_direction := BtsnoopV2.pkt_direction pkt;
                     BtsnoopV2Data.dp_handle := Z.land (le2z (slice data 1 3)) 0x0FFF;
                     BtsnoopV2Data.dp_cid := le2z (slice acl_payload 2 4);
                     BtsnoopV2Data.dp_pb_flag :=
                       Z.land (Z.shiftr (le2z (slice data 1 3)) 12) 0x03;
                     BtsnoopV2Data.dp_l2cap_data := slice_from acl_payload 4 |}).
Proof.
  cbv zeta. unfold BtsnoopV2Data.extract_acl_body. cbv zeta.
  set (data := BtsnoopV2.pkt_data pkt).
  destruct (Z.ltb_spec (len data) 5) as [Hl|Hl]; [reflexivity|]. cbn [orb].
  unfold unpack_H_le.
  rewrite (unpack_le_ok 2 (slice data 1 3)) by (rewrite slice_length by lia; lia).
  cbn [mbind py_bind].
  rewrite (unpack_le_ok 2 (slice data 3 5)) by (rewrite slice_length by lia; lia).
  cbn [mbind py_bind].
  set (acl_payload := slice data 5 (5 + le2z (slice data 3 5))).
  destruct (Z.geb_spec (len acl_payload) 4) as [Ha|Ha]; [|reflexivity]. cbn [negb].
  rewrite (unpack_le_ok 2 (slice acl_payload 0 2)) by (rewrite slice_length by lia; lia).
  cbn [mbind py_bind].
  rewrite (unpack_le_ok 2 (slice acl_payload 2 4)) by (rewrite slice_length by lia; lia).
  reflexivity.
Qed.

Lemma extract_acl_body_v2_total pkt : exists o, BtsnoopV2Data.extract_acl_body pkt = Ok o.
Proof. pose proof (extract_acl_body_v2_shape pkt) as H. cbv zeta in H. rewrite H. eauto. Qed.

End DataFacts.

(** X19.  The loop body of [extract_acl_data] of [parse_btsnoop_v2.py]
    is that of [parse_btsnoop_v3.py] applied behind the type byte: for a
    body that is one byte followed by the body of a packet of the third
    parser, both emit or skip together, and the emitted items have the
    same number, direction, handle, boundary flag, channel and data. *)
Theorem acl_stage_reads_behind_type_byte
    (p2 : BtsnoopV2.packet) (p3 : BtsnoopV3.packet) (b : byte) :
  BtsnoopV2.pkt_data p2 = b :: BtsnoopV3.pkt_data p3 ->
  BtsnoopV2.pkt_num p2 = BtsnoopV3.pkt_num p3 ->
  BtsnoopV2.pkt_direction p2 = BtsnoopV3.pkt_direction p3 ->
  BtsnoopV2Data.extract_acl_body p2 =
    (fun o : option BtsnoopV3.data_packet => v2_data_of_v3 <$> o)
    <$> BtsnoopV3.extract_acl_body p3.
Proof.
  intros Hd Hn Hdir.
  pose proof (extract_acl_body_v2_shape p2) as H2. cbv zeta in H2. rewrite H2.
  pose proof (extract_acl_body_shape p3) as H3. cbv zeta in H3. rewrite H3.
  clear H2 H3. rewrite Hd, Hn, Hdir. set (d := BtsnoopV3.pkt_data p3).
  rewrite len_cons.
  rewrite (slice_cons_shift b d 1 3), (slice_cons_shift b d 3 5) by lia.
  change (1 - 1) with 0. change (3 - 1) with 2. change (5 - 1) with 4.
  pose proof (le2z_nonneg (slice d 2 4)) as Hnn.
  rewrite (slice_cons_shift b d 5 (5 + le2z (slice d 2 4))) by lia.
  change (5 - 1) with 4.
  replace (5 + le2z (slice d 2 4) - 1) with (4 + le2z (slice d 2 4)) by lia.
  cbn [fmap py_fmap].
  destruct (Z.ltb_spec (1 + len d) 5), (Z.ltb_spec (len d) 4); try lia; [reflexivity|].
  cbn [orb]. destruct (negb _); reflexivity.
Qed.

(** A type byte in front of the ACL record of the sample frame. *)
Lemma acl_stage_reads_behind_type_byte_witness :
  BtsnoopV2Data.extract_acl_body
    {| BtsnoopV2.pkt_num := 1; BtsnoopV2.pkt_timestamp := 0; BtsnoopV2.pkt_direction := TX;
       BtsnoopV2.pkt_flags := 0; BtsnoopV2.pkt_data := x02 :: vendor_record.2 |} =
  (fun o : option BtsnoopV3.data_packet => v2_data_of_v3 <$> o)
  <$> BtsnoopV3.extract_acl_body
        {| BtsnoopV3.pkt_num := 1; BtsnoopV3.pkt_timestamp := 0;
           BtsnoopV3.pkt_direction := TX; BtsnoopV3.pkt_kind := BtsnoopV3.ACL;
           BtsnoopV3.pkt_flags := 0; BtsnoopV3.pkt_data := vendor_record.2 |}.
Proof.
  apply (acl_stage_reads_behind_type_byte _ _ x02); reflexivity.
Defined.

(** X20.  Whatever [extract_l2cap_data] of [parse_btsnoop.py] emits for a
    record body, [extract_acl_data] of [parse_btsnoop_v2.py] emits an item
    for the same body with the same handle and channel.  The second
    parser's data are the bytes of the body from offset 9 to the end of
    the segment that bytes 3 and 4 declare; the first parser's payload is
    those data cut to the length that the L2CAP header declares in bytes
    5 and 6 of the body, and has exactly that length. *)
Theorem first_parser_cuts_to_declared_length
    (p1 : BtsnoopV1.packet) (p2 : BtsnoopV2.packet) (out : BtsnoopV1.l2cap_packet) :
  BtsnoopV1.extract_l2cap_body p1 = Ok (Some out) ->
  BtsnoopV2.pkt_data p2 = BtsnoopV1.pkt_data p1 ->
  exists dp,
    BtsnoopV2Data.extract_acl_body p2 = Ok (Some dp) /\
    BtsnoopV2Data.dp_handle dp = BtsnoopV1.l2_handle out /\
    BtsnoopV2Data.dp_cid dp = BtsnoopV1.l2_cid out /\
    len (BtsnoopV1.l2_payload out) <= len (BtsnoopV2Data.dp_l2cap_data dp) /\
    BtsnoopV1.l2_payload out =
      slice (BtsnoopV2Data.dp_l2cap_data dp) 0 (len (BtsnoopV1.l2_payload out)) /\
    len (BtsnoopV1.l2_payload out) = le2z (slice (BtsnoopV1.pkt_data p1) 5 7) /\
    BtsnoopV1.l2_payload out =
      slice (BtsnoopV2Data.dp_l2cap_data dp) 0 (le2z (slice (BtsnoopV1.pkt_data p1) 5 7)) /\
    BtsnoopV2Data.dp_l2cap_data dp =
      slice (BtsnoopV1.pkt_data p1) 9 (5 + le2z (slice (BtsnoopV1.pkt_data p1) 3 5)).
Proof.
  intros Hout Hd.
  destruct (extract_l2cap_body_inv _ _ Hout)
    as (h0 & h1 & a0 & a1 & l0 & l1 & c0 & c1 & seg & extra & Hrec & Ha & Hfit & Hcid & Hp).
  pose proof (extract_l2cap_body_shape p1 h0 h1 a0 a1 l0 l1 c0 c1 seg extra Hrec Ha) as Hs.
  rewrite Hout in Hs. destruct (len seg >=? le2z [l0; l1]); [|discriminate].
  injection Hs as Hs.
  pose proof (extract_acl_body_v2_shape p2) as H2. cbv zeta in H2. rewrite H2. clear H2.
  rewrite Hd, Hrec. set (data := h4_acl_record h0 h1 a0 a1 l0 l1 c0 c1 seg extra).
  pose proof (len_nonneg seg). pose proof (len_nonneg extra).
  pose proof (le2z_nonneg [l0; l1]) as Hl0.
  assert (Hlen : len data = 9 + len seg + len extra).
  { unfold data, h4_acl_record, acl_record. rewrite len_cons, !len_app.
    change (len [h0; h1; a0; a1; l0; l1; c0; c1]) with 8. lia. }
  assert (E1 : slice data 1 3 = [h0; h1]).
  { apply (slice_app_middle [x02] [h0; h1]
             ([a0; a1; l0; l1; c0; c1] ++ seg ++ extra)); reflexivity. }
  assert (E2 : slice data 3 5 = [a0; a1]).
  { apply (slice_app_middle [x02; h0; h1] [a0; a1]
             ([l0; l1; c0; c1] ++ seg ++ extra)); reflexivity. }
  rewrite E1, E2, Ha.
  assert (E3 : slice data 5 (5 + (4 + len seg)) = [l0; l1; c0; c1] ++ seg).
  { apply (slice_app_middle [x02; h0; h1; a0; a1] ([l0; l1; c0; c1] ++ seg) extra);
      [reflexivity|]. rewrite len_app. change (len [x02; h0; h1; a0; a1]) with 5.
    change (len [l0; l1; c0; c1]) with 4. lia. }
  rewrite E3.
  assert (E5 : slice ([l0; l1; c0; c1] ++ seg) 2 4 = [c0; c1]).
  { apply (slice_app_middle [l0; l1] [c0; c1] seg); reflexivity. }
  assert (E6 : slice_from ([l0; l1; c0; c1] ++ seg) 4 = seg).
  { apply (slice_from_app [l0; l1; c0; c1] seg). reflexivity. }
  rewrite E5, E6.
  assert (Hl4 : len ([l0; l1; c0; c1] ++ seg) = 4 + len seg)
    by (rewrite len_app; change (len [l0; l1; c0; c1]) with 4; lia).
  rewrite Hl4.
  destruct (Z.ltb_spec (len data) 5); [lia|].
  destruct (Z.geb_spec (4 + len seg) 4); [|lia]. cbn [orb negb].
  eexists. split; [reflexivity|].
  cbn [BtsnoopV2Data.dp_handle BtsnoopV2Data.dp_cid BtsnoopV2Data.dp_l2cap_data].
  rewrite Hs. cbn [BtsnoopV1.l2_handle BtsnoopV1.l2_cid BtsnoopV1.l2_payload].
  assert (Hpl : len (slice seg 0 (le2z [l0; l1])) = le2z [l0; l1])
    by (rewrite slice_len by lia; lia).
  split; [reflexivity|]. split; [reflexivity|].
  change (b2z l0 + 256 * (b2z l1 + 256 * 0)) with (le2z [l0; l1]).
  rewrite Hpl.
  assert (E7 : slice data 5 7 = [l0; l1]).
  { apply (slice_app_middle [x02; h0; h1; a0; a1] [l0; l1]
             ([c0; c1] ++ seg ++ extra)); reflexivity. }
  assert (E8 : slice data 9 (5 + (4 + len seg)) = seg).
  { apply (slice_app_middle [x02; h0; h1; a0; a1; l0; l1; c0; c1] seg extra);
      [reflexivity|]. change (len [x02; h0; h1; a0; a1; l0; l1; c0; c1]) with 9. lia. }
  rewrite E7, E8.
  split; [lia|]. split; [reflexivity|]. split; [reflexivity|].
  split; reflexivity.
Qed.

(** The record that declares the five bytes of its frame. *)
Lemma first_parser_cuts_to_declared_length_witness :
  exists dp,
    BtsnoopV2Data.extract_acl_body
      {| BtsnoopV2.pkt_num := 1; BtsnoopV2.pkt_timestamp := 0;
         BtsnoopV2.pkt_direction := TX; BtsnoopV2.pkt_flags := 0;
         BtsnoopV2.pkt_data := BtsnoopV1.pkt_data exact_h4_packet |} = Ok (Some dp) /\
    len uih_frame = le2z (slice (BtsnoopV1.pkt_data exact_h4_packet) 5 7).
Proof.
  destruct (first_parser_cuts_to_declared_length exact_h4_packet
              {| BtsnoopV2.pkt_num := 1; BtsnoopV2.pkt_timestamp := 0;
                 BtsnoopV2.pkt_direction := TX; BtsnoopV2.pkt_flags := 0;
                 BtsnoopV2.pkt_data := BtsnoopV1.pkt_data exact_h4_packet |}
              {| BtsnoopV1.l2_num := 1; BtsnoopV1.l2_direction := TX;
                 BtsnoopV1.l2_handle := 1; BtsnoopV1.l2_cid := 0x0040;
                 BtsnoopV1.l2_payload := uih_frame |})
    as (dp & H & _ & _ & _ & _ & Hl & _).
  - vm_compute. reflexivity.
  - reflexivity.
  - exists dp. split; [exact H|exact Hl].
Defined.

(** ** The ATT analysis of [parse_btsnoop_v2.py] *)

Section AttFacts.

Lemma analyze_att_body_shape (pkt : BtsnoopV2Data.data_packet) :
  BtsnoopV2Data.analyze_att_body pkt =
    Ok match BtsnoopV2Data.dp_l2cap_data pkt with
       | op :: h0 :: h1 :: value =>
           if (b2z op =? 0x12) || (b2z op =? 0x52) then
             Some {| BtsnoopV2Data.g_num := BtsnoopV2Data.dp_num pkt;
                     BtsnoopV2Data.g_direction := BtsnoopV2Data.dp_direction pkt;
                     BtsnoopV2Data.g_opcode := BtsnoopV2Data.WRITE;
                     BtsnoopV2Data.g_handle := le2z [h0; h1];
                     BtsnoopV2Data.g_value := value |}
           else if b2z op =? 0x1B then
             Some {| BtsnoopV2Data.g_num := BtsnoopV2Data.dp_num pkt;
                     BtsnoopV2Data.g_direction := BtsnoopV2Data.dp_direction pkt;
                     BtsnoopV2Data.g_opcode := BtsnoopV2Data.NOTIFY;
                     BtsnoopV2Data.g_handle := le2z [h0; h1];
                     BtsnoopV2Data.g_value := value |}
           else None
       | _ => None
       end.
Proof.
  unfold BtsnoopV2Data.analyze_att_body. cbv zeta.
  destruct (BtsnoopV2Data.dp_l2cap_data pkt) as [|op [|h0 [|h1 value]]] eqn:Hd.
  - reflexivity.
  - change (len [op] <? 1) with false. cbv iota.
    cbn [getbyte getitem nth_error fmap py_fmap mbind py_bind].
    change (len [op] >=? 3) with false. rewrite !andb_false_r.
    destruct (_ && _); reflexivity.
  - change (len [op; h0] <? 1) with false. cbv iota.
    cbn [getbyte getitem nth_error fmap py_fmap mbind py_bind].
    change (len [op; h0] >=? 3) with false. rewrite !andb_false_r.
    destruct (_ && _); reflexivity.
  - pose proof (len_nonneg value) as Hv.
    assert (Hl : len (op :: h0 :: h1 :: value) = 3 + len value)
      by (rewrite !len_cons; lia).
    destruct (Z.ltb_spec (len (op :: h0 :: h1 :: value)) 1); [lia|].
    cbn [getbyte getitem nth_error fmap py_fmap mbind py_bind].
    destruct (Z.geb_spec (len (op :: h0 :: h1 :: value)) 3); [|lia].
    rewrite !andb_true_r.
    assert (E1 : slice (op :: h0 :: h1 :: value) 1 3 = [h0; h1]).
    { apply (slice_app_middle [op] [h0; h1] value); reflexivity. }
    assert (E2 : slice_from (op :: h0 :: h1 :: value) 3 = value).
    { apply (slice_from_app [op; h0; h1] value). reflexivity. }
    rewrite E1, E2. unfold unpack_H_le. rewrite (unpack_le_ok 2 [h0; h1]) by reflexivity.
    cbn [mbind py_bind].
    destruct ((b2z op =? 18) || (b2z op =? 82)); [reflexivity|].
    destruct (b2z op =? 27); [reflexivity|].
    destruct (_ && _); reflexivity.
Qed.

Lemma analyze_att_packets_filter data_packets :
  BtsnoopV2Data.analyze_att_packets data_packets =
  for_append BtsnoopV2Data.analyze_att_body
    (filter (fun p => BtsnoopV2Data.dp_cid p = 0x0004) data_packets) [].
Proof.
  unfold BtsnoopV2Data.analyze_att_packets. cbv zeta.
  destruct (filter _ data_packets); reflexivity.
Qed.

End AttFacts.

(** X21.  [analyze_att_packets] of [parse_btsnoop_v2.py] returns on every
    list of data packets.  Its items come, in order and at most one per
    packet, from the packets of channel 0x0004 whose data have at least
    three bytes and start with opcode 0x12 or 0x52 ('WRITE') or 0x1B
    ('NOTIFY'); the handle is the 16-bit little-endian value of the two
    bytes after the opcode and the value is everything behind them.  No
    other packet gives an item. *)
Theorem analyze_att_packets_items (data_packets : list BtsnoopV2Data.data_packet) :
  exists f,
    BtsnoopV2Data.analyze_att_packets data_packets =
      Ok (omap f (filter (fun p => BtsnoopV2Data.dp_cid p = 0x0004) data_packets)) /\
    forall pkt,
      match f pkt with
      | Some item =>
          exists op h0 h1,
            BtsnoopV2Data.dp_l2cap_data pkt = op :: h0 :: h1 :: BtsnoopV2Data.g_value item /\
            BtsnoopV2Data.g_handle item = le2z [h0; h1] /\
            0 <= BtsnoopV2Data.g_handle item < 65536 /\
            BtsnoopV2Data.g_num item = BtsnoopV2Data.dp_num pkt /\
            BtsnoopV2Data.g_direction item = BtsnoopV2Data.dp_direction pkt /\
            match BtsnoopV2Data.g_opcode item with
            | BtsnoopV2Data.WRITE => b2z op = 0x12 \/ b2z op = 0x52
            | BtsnoopV2Data.NOTIFY => b2z op = 0x1B
            end
      | None =>
          len (BtsnoopV2Data.dp_l2cap_data pkt) < 3 \/
          exists op rest,
            BtsnoopV2Data.dp_l2cap_data pkt = op :: rest /\
            b2z op <> 0x12 /\ b2z op <> 0x52 /\ b2z op <> 0x1B
      end.
Proof.
  destruct (total_fun BtsnoopV2Data.analyze_att_body) as [f Hf].
  { intros pkt. rewrite analyze_att_body_shape. eauto. }
  exists f. split.
  - rewrite analyze_att_packets_filter.
    apply (for_append_ok BtsnoopV2Data.analyze_att_body f _ []). intros x _. apply Hf.
  - intros pkt. pose proof (Hf pkt) as H. rewrite analyze_att_body_shape in H.
    injection H as H. rewrite <- H. clear H.
    destruct (BtsnoopV2Data.dp_l2cap_data pkt) as [|op [|h0 [|h1 value]]];
      try (left; unfold len; simpl; lia).
    assert (Hitem : forall o : BtsnoopV2Data.gatt_opcode,
              match o with
              | BtsnoopV2Data.WRITE => b2z op = 0x12 \/ b2z op = 0x52
              | BtsnoopV2Data.NOTIFY => b2z op = 0x1B
              end ->
              exists op' h0' h1',
                op :: h0 :: h1 :: value = op' :: h0' :: h1' :: value /\
                le2z [h0; h1] = le2z [h0'; h1'] /\
                0 <= le2z [h0; h1] < 65536 /\
                BtsnoopV2Data.dp_num pkt = BtsnoopV2Data.dp_num pkt /\
                BtsnoopV2Data.dp_direction pkt = BtsnoopV2Data.dp_direction pkt /\
                match o with
                | BtsnoopV2Data.WRITE => b2z op' = 0x12 \/ b2z op' = 0x52
                | BtsnoopV2Data.NOTIFY => b2z op' = 0x1B
                end).
    { intros o Ho. exists op, h0, h1. repeat split; try exact Ho;
        apply (le2z_2_bound [h0; h1]); reflexivity. }
    destruct (Z.eqb_spec (b2z op) 18) as [H12|H12]; cbn [orb].
    { apply (Hitem BtsnoopV2Data.WRITE). left. exact H12. }
    destruct (Z.eqb_spec (b2z op) 82) as [H52|H52].
    { apply (Hitem BtsnoopV2Data.WRITE). right. exact H52. }
    destruct (Z.eqb_spec (b2z op) 27) as [H1b|H1b].
    { apply (Hitem BtsnoopV2Data.NOTIFY). exact H1b. }
    right. exists op, (h0 :: h1 :: value). auto.
Qed.

(** ** The channel table *)

Section ChannelFacts.
Context {P : Type} (cid : P -> Z) (direction : P -> dir).

Lemma on_channel_snoc c l x :
  on_channel cid c (l ++ [x]) =
  on_channel cid c l ++ (if decide (cid x = c) then [x] else []).
Proof.
  unfold on_channel. rewrite filter_app, filter_cons, filter_nil. reflexivity.
Qed.

Lemma in_direction_snoc d l x :
  in_direction direction d (l ++ [x]) =
  in_direction direction d l ++ (if dir_eqb (direction x) d then [x] else []).
Proof.
  unfold in_direction. rewrite filter_app, filter_cons, filter_nil.
  destruct (dir_eqb (direction x) d).
  - destruct (decide (Is_true true)) as [_|Hn]; [reflexivity|exfalso; apply Hn; exact I].
  - destruct (decide (Is_true false)) as [[]|_]. reflexivity.
Qed.

Lemma channels_step_counted channels l x :
  counted cid direction channels l ->
  counted cid direction (Channels.channels_step cid direction channels x) (l ++ [x]).
Proof.
  intros Hc c. unfold Channels.channels_step. cbv zeta.
  specialize (Hc c). rewrite on_channel_snoc.
  destruct (decide (cid x = c)) as [<-|Hne].
  - rewrite lookup_insert_eq, in_direction_snoc, in_direction_snoc, !len_app.
    rewrite lookup_insert_eq. cbn [default].
    destruct (channels !! cid x) as [i|] eqn:Hi.
    + rewrite Hi. cbn [default]. destruct Hc as (H1 & H2 & H3 & H4 & H5).
      destruct (direction x); cbv [id]; cbn [dir_eqb Channels.count Channels.tx Channels.rx];
        change (len [x]) with 1; change (len (@nil P)) with 0; repeat split; lia.
    + rewrite lookup_insert_eq. cbn [default]. rewrite Hc.
      destruct (direction x); cbv [id]; cbn [dir_eqb Channels.count Channels.tx Channels.rx];
        change (len [x]) with 1; change (len (@nil P)) with 0; repeat split;
        unfold in_direction; rewrite ?filter_nil; change (len (@nil P)) with 0; lia.
  - rewrite !lookup_insert_ne by exact Hne. rewrite app_nil_r.
    destruct (channels !! cid x); [exact Hc|].
    rewrite lookup_insert_ne by exact Hne. exact Hc.
Qed.

Lemma channels_fold_counted l channels pre :
  counted cid direction channels pre ->
  counted cid direction (fold_left (Channels.channels_step cid direction) l channels)
    (pre ++ l).
Proof.
  revert channels pre. induction l as [|x l IH]; intros channels pre Hc; cbn [fold_left].
  - rewrite app_nil_r. exact Hc.
  - replace (pre ++ x :: l) with ((pre ++ [x]) ++ l) by (rewrite <- app_assoc; reflexivity).
    apply IH, channels_step_counted, Hc.
Qed.

End ChannelFacts.

(** X22.  The channel table that [extract_acl_data] builds in
    [parse_btsnoop_v2.py] and [parse_btsnoop_v3.py] has an entry exactly
    for the channels that occur among the data packets; the entry's
    'count' is the number of data packets of the channel, 'tx' and 'rx'
    the numbers of sent and received ones, and 'count' is their sum. *)
Theorem channel_table_counts {P : Type} (cid : P -> Z) (direction : P -> dir)
    (data_packets : list P) (c : Z) :
  match Channels.channels cid direction data_packets !! c with
  | Some i =>
      Channels.count i = len (on_channel cid c data_packets) /\
      Channels.tx i = len (in_direction direction TX (on_channel cid c data_packets)) /\
      Channels.rx i = len (in_direction direction RX (on_channel cid c data_packets)) /\
      Channels.count i = Channels.tx i + Channels.rx i /\
      0 < Channels.count i
  | None => on_channel cid c data_packets = []
  end.
Proof.
  unfold Channels.channels.
  apply (channels_fold_counted cid direction data_packets ∅ []).
  intros c'. rewrite lookup_empty. reflexivity.
Qed.

(** ** What the reader leaves of the file *)

Section AccountFacts.

Lemma be2z_range (bs : list byte) : 0 <= be2z bs < 256 ^ len bs.
Proof.
  unfold be2z. induction bs as [|b bs IH] using rev_ind;
    [change (len (@nil byte)) with 0; change (256 ^ 0) with 1; cbn [fold_left]; lia|].
  rewrite fold_left_app. cbn [fold_left]. rewrite len_app. change (len [b]) with 1.
  pose proof (len_nonneg bs). rewrite Z.pow_add_r by lia. change (256 ^ 1) with 256.
  pose proof (b2z_range b). nia.
Qed.

Lemma stream_of_len recs :
  Forall complete_record recs ->
  len (stream_of recs) =
  fold_right (fun r acc => 24 + len r.2 + acc) 0 recs.
Proof.
  unfold stream_of. induction 1 as [|r recs [Hh _] _ IH]; [reflexivity|].
  cbn [map concat fold_right]. rewrite !len_app, IH. unfold len at 1. rewrite Hh. lia.
Qed.

Lemma packets_of_v3_accounts n recs :
  Forall complete_record recs ->
  record_bytes (packets_of BtsnoopV3.mk_packet n recs) = len (stream_of recs) /\
  Forall (fun p => 0 <= BtsnoopV3.pkt_flags p < 2 ^ 32 /\
                   0 <= BtsnoopV3.pkt_timestamp p < 2 ^ 64 /\
                   len (BtsnoopV3.pkt_data p) < 2 ^ 32)
         (packets_of BtsnoopV3.mk_packet n recs).
Proof.
  intros Hr. rewrite (stream_of_len recs Hr). revert n.
  induction Hr as [|r recs [Hh Hi] _ IH]; intros n; [split; [reflexivity|constructor]|].
  destruct (IH (S n)) as [IH1 IH2]. cbn [packets_of record_bytes fold_right].
  fold (record_bytes (packets_of BtsnoopV3.mk_packet (S n) recs)). rewrite IH1.
  split; [reflexivity|]. constructor; [|exact IH2].
  cbn [BtsnoopV3.mk_packet BtsnoopV3.pkt_flags BtsnoopV3.pkt_timestamp BtsnoopV3.pkt_data
       fields_of Capture.flags Capture.timestamp].
  assert (H24 : len r.1 = 24) by (unfold len; rewrite Hh; reflexivity).
  pose proof (be2z_range (slice r.1 8 12)) as Hf. rewrite slice_len in Hf by lia.
  pose proof (be2z_range (slice r.1 16 24)) as Ht. rewrite slice_len in Ht by lia.
  pose proof (be2z_range (slice r.1 4 8)) as Hl. rewrite slice_len in Hl by lia.
  unfold incl_len_of in Hi. rewrite <- Hi.
  change (256 ^ (12 - 8)) with (2 ^ 32) in Hf.
  change (256 ^ (24 - 16)) with (2 ^ 64) in Ht.
  change (256 ^ (8 - 4)) with (2 ^ 32) in Hl.
  repeat split; lia.
Qed.

End AccountFacts.

(** X23.  The reader accounts for the file: when [parse_btsnoop] of
    [parse_btsnoop_v3.py] returns packets for a file with the magic, the
    16 header bytes and, for each packet, 24 bytes of record header and
    the body fit into the file, in that order from its start; what is left
    is too short for another record.  The flags and the link type are
    32-bit values, the timestamp a 64-bit value, and no body has 2^32
    bytes or more. *)
Theorem reader_accounts_for_the_file
    (file : list byte) (packets : list BtsnoopV3.packet) (datalink : Z) :
  startswith file Capture.BTSNOOP_MAGIC = true ->
  BtsnoopV3.parse_btsnoop file = Ok (packets, datalink) ->
  16 + record_bytes packets <= len file /\
  truncated (slice_from file (16 + record_bytes packets)) /\
  0 <= datalink < 2 ^ 32 /\
  Forall (fun p => 0 <= BtsnoopV3.pkt_flags p < 2 ^ 32 /\
                   0 <= BtsnoopV3.pkt_timestamp p < 2 ^ 64 /\
                   len (BtsnoopV3.pkt_data p) < 2 ^ 32) packets.
Proof.
  intros Hm. rewrite parse_btsnoop_v3_cases, Hm. cbn [negb].
  destruct (Z.ltb_spec (len file) 16) as [|H16]; [discriminate|].
  unfold Capture.read, Capture.BTSNOOP_HEADER_SIZE. cbn [fst snd].
  change (Z.to_nat 16) with 16%nat.
  destruct (stream_decomposition (skipn 16 file)) as (recs & tail & Hf & Hr & Ht).
  rewrite Hf, (read_loop_stream BtsnoopV3.mk_packet recs tail []) by assumption.
  cbn [app length mbind py_bind]. intros [= <- <-].
  destruct (packets_of_v3_accounts 0 recs Hr) as [Hb Hall]. rewrite Hb.
  assert (Hlen : len file = 16 + len (stream_of recs) + len tail).
  { assert (Hs : len (skipn 16 file) = len (stream_of recs) + len tail)
      by (rewrite Hf, len_app; reflexivity).
    unfold len in Hs, H16 |- *. rewrite length_skipn in Hs. lia. }
  pose proof (len_nonneg tail). pose proof (len_nonneg (stream_of recs)).
  split; [lia|]. split.
  - assert (E : slice_from file (16 + len (stream_of recs)) = tail); [|rewrite E; exact Ht].
    rewrite <- (firstn_skipn 16 file) at 1. rewrite Hf.
    rewrite app_assoc. apply slice_from_app. rewrite len_app.
    assert (len (firstn 16 file) = 16)
      by (unfold len in H16 |- *; rewrite length_firstn; lia).
    lia.
  - split; [|exact Hall].
    pose proof (be2z_range (slice (firstn 16 file) 12 16)) as Hd.
    rewrite slice_len in Hd; [exact Hd|lia|lia|].
    unfold len. rewrite length_firstn. unfold len in H16. lia.
Qed.

(** The capture with one vendor frame: 16 + 24 + 57 bytes. *)
Lemma reader_accounts_for_the_file_witness :
  16 + record_bytes (packets_of BtsnoopV3.mk_packet 0 [vendor_record]) <= len capture_vendor.
Proof.
  apply (reader_accounts_for_the_file capture_vendor _ 1001).
  - reflexivity.
  - vm_compute. reflexivity.
Defined.

(** ** The hexadecimal rendering of the payload *)

Section HexFacts.

Lemma format_02X_byte (x : byte) :
  exists h l,
    format_02X (b2z x) = String h (String l EmptyString) /\
    hex_digit h = true /\ hex_digit l = true /\
    unhex2 (format_02X (b2z x)) = Some (b2z x).
Proof. destruct x; do 2 eexists; repeat split. Qed.

Lemma bytes_hex_upper_cons x b :
  bytes_hex_upper (x :: b) = (format_02X (b2z x) ++ bytes_hex_upper b)%string.
Proof. reflexivity. Qed.

Lemma bytes_hex_upper_shape (b : list byte) :
  String.length (bytes_hex_upper b) = (2 * length b)%nat /\
  forallb hex_digit (list_ascii_of_string (bytes_hex_upper b)) = true.
Proof.
  induction b as [|x b [IH1 IH2]]; [split; reflexivity|].
  rewrite bytes_hex_upper_cons.
  destruct (format_02X_byte x) as (h & l & -> & Hh & Hl & _).
  change (String h (String l EmptyString) ++ bytes_hex_upper b)%string
    with (String h (String l (bytes_hex_upper b))).
  cbn [String.length list_ascii_of_string forallb length].
  rewrite IH1, Hh, Hl, IH2. split; [lia|reflexivity].
Qed.

Lemma bytes_hex_upper_inj (p q : list byte) :
  bytes_hex_upper p = bytes_hex_upper q -> p = q.
Proof.
  revert q. induction p as [|x p IH]; intros [|y q] H.
  - reflexivity.
  - exfalso. apply (f_equal String.length) in H.
    destruct (bytes_hex_upper_shape (y :: q)) as [Hl _]. rewrite Hl in H.
    cbn in H. lia.
  - exfalso. apply (f_equal String.length) in H.
    destruct (bytes_hex_upper_shape (x :: p)) as [Hl _]. rewrite Hl in H.
    cbn in H. lia.
  - rewrite !bytes_hex_upper_cons in H.
    destruct (format_02X_byte x) as (h & l & Ex & _ & _ & Ux).
    destruct (format_02X_byte y) as (h' & l' & Ey & _ & _ & Uy).
    rewrite Ex, Ey in H.
    change (String h (String l (bytes_hex_upper p)) =
            String h' (String l' (bytes_hex_upper q))) in H. injection H as Hh Hl Hrest.
    rewrite Ex in Ux. rewrite Ey in Uy. subst h' l'. rewrite Ux in Uy.
    injection Uy as Hxy. apply b2z_inj in Hxy. subst y. f_equal. apply IH, Hrest.
Qed.

End HexFacts.

(** X24.  The 'payload_hex' key that [parse_autel_packet] stores beside
    'payload' is a faithful rendering: it is present exactly when the
    payload is, has two characters per payload byte, all of them digits or
    the upper-case letters A to F, and two results with the same
    'payload_hex' have the same payload. *)
Theorem payload_hex_is_faithful (data : list byte) (direction : dir) :
  let r := AutelV2.parse_autel_packet data direction in
  (is_Some (AutelV2.payload_hex r) <-> is_Some (AutelV2.r_payload r)) /\
  (forall p, AutelV2.r_payload r = Some p ->
     exists s, AutelV2.payload_hex r = Some s /\
               String.length s = (2 * length p)%nat /\
               forallb hex_digit (list_ascii_of_string s) = true) /\
  (forall data' direction',
     AutelV2.payload_hex r =
       AutelV2.payload_hex (AutelV2.parse_autel_packet data' direction') ->
     AutelV2.r_payload r =
       AutelV2.r_payload (AutelV2.parse_autel_packet data' direction')).
Proof.
  cbv zeta. unfold AutelV2.payload_hex.
  split; [|split].
  - destruct (AutelV2.r_payload _); cbn; split; intros [? H]; try discriminate H; eauto.
  - intros p ->. cbn [fmap option_fmap option_map]. eexists. split; [reflexivity|].
    apply bytes_hex_upper_shape.
  - intros data' direction'.
    destruct (AutelV2.r_payload (AutelV2.parse_autel_packet data direction)) as [p|],
      (AutelV2.r_payload (AutelV2.parse_autel_packet data' direction')) as [q|];
      cbn [fmap option_fmap option_map]; intros H; try discriminate H; [|reflexivity].
    injection H as H. f_equal. apply bytes_hex_upper_inj, H.
Qed.

(** ** The result of [analyze_autel_packet] *)

(** X25.  [analyze_autel_packet] of the first analyzer never sets 'error'.
    An invalid result has only the 'valid' key; a short one adds 'short'
    and 'raw', the hexadecimal rendering of the whole frame, and 'raw' is
    set for no other result.  The header keys are set exactly for valid
    results that are not short.  A payload, when present, is everything
    from 36 bytes behind the resolved offset to the end of the frame and is
    not empty, and 'ascii' is only set together with it. *)
Theorem analyze_autel_packet_result_shape (data : list byte) (direction : dir) :
  let a := AutelV1.analyze_autel_packet data direction in
  AutelV1.a_error a = None /\
  (AutelV1.a_valid a = false -> a = AutelV1.result0 false None None) /\
  (AutelV1.a_short a = Some true ->
     a = AutelV1.result0 true (Some true) (Some (bytes_hex_upper data))) /\
  (is_Some (AutelV1.a_raw a) <-> AutelV1.a_short a = Some true) /\
  (is_Some (AutelV1.a_hdr a) <->
     AutelV1.a_valid a = true /\ AutelV1.a_short a = Some false) /\
  (is_Some (AutelV1.a_ascii a) -> is_Some (AutelV1.a_payload a)) /\
  (forall p, AutelV1.a_payload a = Some p ->
     exists offset,
       AutelV1.magic_offset data direction = Some offset /\
       p = slice_from data (offset + 36) /\
       len p = len data - (offset + 36) /\ 0 < len p).
Proof.
  cbv zeta. unfold AutelV1.analyze_autel_packet.
  destruct (AutelV1.magic_offset data direction) as [offset|] eqn:Hoff.
  2:{ cbn. repeat split; intros;
        repeat match goal with
               | H : is_Some None |- _ => destruct (is_Some_None_False H)
               | H : _ /\ _ |- _ => destruct H
               end; try discriminate; try reflexivity. }
  destruct (magic_offset_v1_range _ _ _ Hoff) as (Hr & _ & _).
  destruct (Z.ltb_spec (len data) (offset + 36)) as [Hs|Hs].
  { cbn. repeat split; intros;
      repeat match goal with
             | H : is_Some None |- _ => destruct (is_Some_None_False H)
             | H : _ /\ _ |- _ => destruct H
             end; try discriminate; try reflexivity; eauto. }
  rewrite unpack_header_v1_ok by lia.
  destruct (Z.gtb_spec (len data) (offset + 36)) as [Hp|Hp].
  - cbn [AutelV1.a_error AutelV1.a_valid AutelV1.a_short AutelV1.a_raw AutelV1.a_hdr
         AutelV1.a_ascii AutelV1.a_payload].
    split; [reflexivity|]. split; [discriminate|]. split; [discriminate|].
    split; [split; [intros H; destruct (is_Some_None_False H)|discriminate]|].
    split; [split; [auto|eauto]|]. split; [eauto|].
    intros p [= <-]. exists offset. split; [reflexivity|]. split; [reflexivity|].
    rewrite slice_from_len by lia. lia.
  - cbn [AutelV1.a_error AutelV1.a_valid AutelV1.a_short AutelV1.a_raw AutelV1.a_hdr
         AutelV1.a_ascii AutelV1.a_payload].
    split; [reflexivity|]. split; [discriminate|]. split; [discriminate|].
    split; [split; [intros H; destruct (is_Some_None_False H)|discriminate]|].
    split; [split; [auto|eauto]|].
    split; [intros H; destruct (is_Some_None_False H)|]. discriminate.
Qed.

(** ** Channel names and channel filters *)

Section NameFacts.

Lemma names_lookup (cid : Z) :
  CidNames.names !! cid =
  if cid =? 1 then Some "L2CAP Signaling"%string
  else if cid =? 2 then Some "Connectionless"%string
  else if cid =? 3 then Some "AMP Manager"%string
  else if cid =? 4 then Some "ATT (BLE)"%string
  else if cid =? 5 then Some "L2CAP LE Signaling"%string
  else if cid =? 6 then Some "SMP (BLE Security)"%string
  else None.
Proof.
  unfold CidNames.names.
  repeat match goal with
         | |- context [cid =? ?k] =>
             destruct (Z.eqb_spec cid k) as [->|?];
             [reflexivity|rewrite lookup_insert_ne by congruence]
         end.
  apply lookup_empty.
Qed.

End NameFacts.

(** X26.  [get_cid_name] and the channel filters of the parsers agree: a
    channel is named 'Dynamic Channel' exactly when it is at least 0x0040,
    which is the test of [analyze_rfcomm_packets] and
    [analyze_dynamic_channels]; it is named 'ATT (BLE)' exactly when it is
    0x0004, the test of [analyze_att_packets]; and it is 'Reserved' exactly
    when it is below 0x0040 and not one of 1 to 6. *)
Theorem cid_names_match_filters (cid : Z) :
  (CidNames.get_cid_name cid = "Dynamic Channel"%string <-> 0x0040 <= cid) /\
  (CidNames.get_cid_name cid = "ATT (BLE)"%string <-> cid = 0x0004) /\
  (CidNames.get_cid_name cid = "Reserved"%string <-> cid < 0x0040 /\ ~ 1 <= cid <= 6) /\
  (forall data_packets : list BtsnoopV3.data_packet,
     BtsnoopV3.analyze_rfcomm_packets data_packets =
     for_append BtsnoopV3.analyze_rfcomm_body
       (filter (fun p => CidNames.get_cid_name (BtsnoopV3.dp_cid p) = "Dynamic Channel"%string)
               data_packets) []) /\
  (forall data_packets : list BtsnoopV2Data.data_packet,
     BtsnoopV2Data.analyze_att_packets data_packets =
     for_append BtsnoopV2Data.analyze_att_body
       (filter (fun p => CidNames.get_cid_name (BtsnoopV2Data.dp_cid p) = "ATT (BLE)"%string)
               data_packets) []).
Proof.
  assert (Hdyn : forall c, CidNames.get_cid_name c = "Dynamic Channel"%string <-> 64 <= c).
  { intros c. unfold CidNames.get_cid_name. rewrite names_lookup.
    repeat match goal with
           | |- context [c =? ?k] => destruct (Z.eqb_spec c k) as [->|?]
           end; try (split; [discriminate|lia]).
    destruct (Z.geb_spec c 64); split; try reflexivity; try discriminate; lia. }
  assert (Hatt : forall c, CidNames.get_cid_name c = "ATT (BLE)"%string <-> c = 4).
  { intros c. unfold CidNames.get_cid_name. rewrite names_lookup.
    repeat match goal with
           | |- context [c =? ?k] => destruct (Z.eqb_spec c k) as [->|?]
           end; try (split; [discriminate|lia]); try (split; reflexivity).
    destruct (Z.geb_spec c 64); split; try discriminate; lia. }
  split; [apply Hdyn|]. split; [apply Hatt|]. split; [|split].
  - unfold CidNames.get_cid_name. rewrite names_lookup.
    repeat match goal with
           | |- context [cid =? ?k] => destruct (Z.eqb_spec cid k) as [->|?]
           end; try (split; [discriminate|lia]).
    destruct (Z.geb_spec cid 64); split; try reflexivity; try discriminate; lia.
  - intros data_packets. rewrite analyze_rfcomm_packets_filter. f_equal.
    induction data_packets as [|p l IH]; [reflexivity|]. rewrite !filter_cons, IH.
    pose proof (Hdyn (BtsnoopV3.dp_cid p)) as Hp.
    destruct (decide (64 <= BtsnoopV3.dp_cid p)), (decide (CidNames.get_cid_name _ = _));
      tauto.
  - intros data_packets. rewrite analyze_att_packets_filter. f_equal.
    induction data_packets as [|p l IH]; [reflexivity|]. rewrite !filter_cons, IH.
    pose proof (Hatt (BtsnoopV2Data.dp_cid p)) as Hp.
    destruct (decide (BtsnoopV2Data.dp_cid p = 4)), (decide (CidNames.get_cid_name _ = _));
      tauto.
Qed.

(** * The subchannel filter of the analyzers *)

Section FilterFacts.

(** The two analyzers extract the same frames from a file. *)
Lemma analyzer_frames_same (file : list byte) :
  (AutelV1Lower.parse_btsnoop file ≫= AutelV1Lower.extract_rfcomm_data) =
  (AutelV2.parse_btsnoop file ≫= AutelV2.extract_rfcomm_data).
Proof.
  assert (Hp : AutelV1Lower.parse_btsnoop file = AutelV2.parse_btsnoop file).
  { unfold AutelV1Lower.parse_btsnoop, AutelV2.parse_btsnoop.
    destruct (Capture.read _ file) as [header f]. destruct (negb _); [reflexivity|].
    destruct (stream_decomposition f) as (recs & tail & -> & Hr & Ht).
    rewrite !read_loop_stream by assumption. reflexivity. }
  rewrite Hp. destruct (AutelV2.parse_btsnoop file) as [packets|e]; [|reflexivity].
  cbn [mbind py_bind]. apply for_append_ext, extract_rfcomm_body_same.
Qed.

(** [main] of either analyzer reads the file only through the extracted
    frames. *)
Lemma main_v2_of_frames (file : list byte) (rfcomm_packets : list AutelV2.rfcomm_packet) :
  (AutelV2.parse_btsnoop file ≫= AutelV2.extract_rfcomm_data) = Ok rfcomm_packets ->
  AutelV2.main file =
    (msg_types ← mapM (fun pkt => AutelV2.identify_message_type pkt (AutelV2.r_direction pkt))
                   (AutelV2.correlate (AutelV2.dlci12 rfcomm_packets)).1;
     Ok ((AutelV2.correlate (AutelV2.dlci12 rfcomm_packets)).1,
         (AutelV2.correlate (AutelV2.dlci12 rfcomm_packets)).2, msg_types)).
Proof.
  unfold AutelV2.main.
  destruct (AutelV2.parse_btsnoop file) as [packets|e]; [|discriminate].
  cbn [mbind py_bind]. intros ->. cbn [mbind py_bind].
  destruct (AutelV2.correlate _) as [pp ss]. reflexivity.
Qed.

Lemma main_v1_of_frames (file : list byte) (rfcomm_packets : list AutelV2.rfcomm_packet) :
  (AutelV2.parse_btsnoop file ≫= AutelV2.extract_rfcomm_data) = Ok rfcomm_packets ->
  AutelV1Lower.main file =
    Ok (AutelV1.analyses rfcomm_packets, AutelV1.classified rfcomm_packets).
Proof.
  rewrite <- analyzer_frames_same. unfold AutelV1Lower.main.
  destruct (AutelV1Lower.parse_btsnoop file) as [packets|e]; [|discriminate].
  cbn [mbind py_bind]. intros ->. reflexivity.
Qed.

End FilterFacts.

(** C9.  [main] of either analyzer hands only the frames of subchannel 12
    to the vendor parser.  On a file from which [extract_rfcomm_data]
    extracts [rfcomm_packets], [main] of the second analyzer returns as
    [parsed_packets] the stamped results of the subchannel-12 frames that
    parse, in order: every parsed message comes from a frame of
    subchannel 12, every session holds the parsed messages with its id,
    and the tags are those of the parsed messages.  [main] of the first
    analyzer calls [analyze_autel_packet] on the subchannel-12 frames and
    classifies among those.  A frame on any other subchannel, well formed
    or not, is excluded: the file without it gives the same results of
    both [main]s.  The subchannel of a frame is its address byte shifted
    right by two. *)
Theorem only_subchannel_12_is_parsed
    (file : list byte) (rfcomm_packets : list AutelV2.rfcomm_packet) :
  (AutelV2.parse_btsnoop file ≫= AutelV2.extract_rfcomm_data) = Ok rfcomm_packets ->
  (exists parsed_packets sessions msg_types,
     AutelV2.main file = Ok (parsed_packets, sessions, msg_types) /\
     parsed_packets =
       map stamped
         (filter (fun p => Is_true (accepted p))
            (filter (fun p => AutelV2.rf_dlci p = 12) rfcomm_packets)) /\
     (forall m, In m parsed_packets ->
        exists q, In q rfcomm_packets /\ AutelV2.rf_dlci q = 12 /\ m = stamped q) /\
     (forall sid ms, sessions !! sid = Some ms ->
        ms = filter (fun m => AutelV2.get_session_id m = sid) parsed_packets) /\
     Forall2 (fun m t => AutelV2.identify_message_type m (AutelV2.r_direction m) = Ok t)
             parsed_packets msg_types) /\
  (exists analyses classified,
     AutelV1Lower.main file = Ok (analyses, classified) /\
     analyses =
       map (fun q => (q, AutelV1.analyze_autel_packet (AutelV2.rf_data q)
                           (AutelV2.rf_direction q)))
         (filter (fun p => AutelV2.rf_dlci p = 12) rfcomm_packets) /\
     (forall q a, In (q, a) analyses -> In q rfcomm_packets /\ AutelV2.rf_dlci q = 12) /\
     (forall qa, In qa classified -> In qa analyses)) /\
  (forall file' l1 l2 p,
     rfcomm_packets = l1 ++ p :: l2 ->
     AutelV2.rf_dlci p <> 12 ->
     (AutelV2.parse_btsnoop file' ≫= AutelV2.extract_rfcomm_data) = Ok (l1 ++ l2) ->
     AutelV2.main file' = AutelV2.main file /\
     AutelV1Lower.main file' = AutelV1Lower.main file) /\
  (forall pkt out, AutelV2.extract_rfcomm_body pkt = Ok (Some out) ->
     exists h0 h1 a0 a1 l0 l1 c0 c1 addr control lb rest extra,
       AutelV2.pkt_data pkt =
         acl_record h0 h1 a0 a1 l0 l1 c0 c1 (addr :: control :: lb :: rest) extra /\
       AutelV2.rf_dlci out = Z.shiftr (b2z addr) 2).
Proof.
  intros Hx.
  pose proof (main_v2_of_frames file rfcomm_packets Hx) as H2.
  pose proof (main_v1_of_frames file rfcomm_packets Hx) as H1.
  split; [|split; [|split]].
  - destruct (mapM_total
                (fun pkt => AutelV2.identify_message_type pkt (AutelV2.r_direction pkt))
                (AutelV2.correlate (AutelV2.dlci12 rfcomm_packets)).1)
      as (tags & Ht & HF).
    { intros m. apply identify_message_type_returns. }
    rewrite Ht in H2. cbn [mbind py_bind] in H2.
    exists (AutelV2.correlate (AutelV2.dlci12 rfcomm_packets)).1,
           (AutelV2.correlate (AutelV2.dlci12 rfcomm_packets)).2, tags.
    split; [exact H2|].
    destruct (correlate_fold_grouped (AutelV2.dlci12 rfcomm_packets) ([], ∅)) as [Hpp Hg].
    { intros sid. cbn [fst snd]. rewrite lookup_empty, filter_nil. split; [reflexivity|].
      discriminate. }
    cbn [fst app] in Hpp. fold (AutelV2.correlate (AutelV2.dlci12 rfcomm_packets)) in Hpp, Hg.
    split; [exact Hpp|]. split; [|split; [|exact HF]].
    + rewrite Hpp. intros m Hm. apply in_map_iff in Hm. destruct Hm as (q & <- & Hq).
      apply list_elem_of_In, list_elem_of_filter in Hq. destruct Hq as [_ Hq].
      apply list_elem_of_filter in Hq. destruct Hq as [H12 Hq].
      exists q. split; [apply list_elem_of_In, Hq|]. split; [exact H12|reflexivity].
    + intros sid ms Hs. destruct (Hg sid) as [Hd _]. rewrite Hs in Hd. exact Hd.
  - exists (AutelV1.analyses rfcomm_packets), (AutelV1.classified rfcomm_packets).
    split; [exact H1|]. split; [reflexivity|]. split.
    + intros q a Hin. unfold AutelV1.analyses in Hin.
      apply in_map_iff in Hin. destruct Hin as (q' & [= <- _] & Hq).
      apply list_elem_of_In, list_elem_of_filter in Hq. destruct Hq as [H12 Hq].
      split; [apply list_elem_of_In, Hq|exact H12].
    + intros qa Hin. unfold AutelV1.classified in Hin.
      apply list_elem_of_In, list_elem_of_filter in Hin. destruct Hin as [_ Hin].
      apply list_elem_of_In, Hin.
  - intros file' l1 l2 p -> Hp Hx'.
    assert (E2 : AutelV2.dlci12 (l1 ++ p :: l2) = AutelV2.dlci12 (l1 ++ l2))
      by (apply dlci12_skip, Hp).
    assert (E1 : AutelV1.dlci12 (l1 ++ p :: l2) = AutelV1.dlci12 (l1 ++ l2))
      by (apply dlci12_skip, Hp).
    rewrite H2, H1, E2.
    rewrite (main_v2_of_frames file' (l1 ++ l2) Hx').
    rewrite (main_v1_of_frames file' (l1 ++ l2) Hx').
    unfold AutelV1.classified, AutelV1.analyses. rewrite E1. split; reflexivity.
  - intros pkt out Hb.
    destruct (extract_rfcomm_body_inv _ _ Hb)
      as (h0 & h1 & a0 & a1 & l0 & l1' & c0 & c1 & addr & control & lb & rest & extra &
          _ & Hd & _ & _ & _ & Hdl & _).
    exists h0, h1, a0, a1, l0, l1', c0, c1, addr, control, lb, rest, extra. auto.
Qed.

(** A capture with a well-formed vendor message on subchannel 11 and then
    the same message on subchannel 12: only the second is parsed, and both
    [main]s return what they return on the capture without the first. *)
Lemma only_subchannel_12_is_parsed_witness :
  (exists sessions msg_types,
     AutelV2.main capture_two_subchannels =
       Ok ([stamped (vendor_on_dlci 12)], sessions, msg_types)) /\
  AutelV2.main capture_subchannel_12 = AutelV2.main capture_two_subchannels /\
  AutelV1Lower.main capture_subchannel_12 = AutelV1Lower.main capture_two_subchannels.
Proof.
  destruct (only_subchannel_12_is_parsed capture_two_subchannels
              [vendor_on_dlci 11; vendor_on_dlci 12])
    as ((pp & ss & tags & Hm & Hpp & _) & _ & Hskip & _).
  - vm_compute. reflexivity.
  - split.
    + exists ss, tags. rewrite Hm, Hpp. reflexivity.
    + apply (Hskip capture_subchannel_12 [] [vendor_on_dlci 12] (vendor_on_dlci 11)).
      * reflexivity.
      * simpl. lia.
      * vm_compute. reflexivity.
Defined.
